(** * URL status checkers: a shallow embedding and its properties

    The repository holds three scripts:
    - [check_urls_status.py], the general checker (DNS pre-check, "Oops" page);
    - [url_checker.py], the Kayako checker;
    - [retest_timeouts.py], the pass that retests rows that timed out.

    Each script is embedded below in a module of its own, named after the
    file.  Network calls, DNS lookups and the rate limiter are effects: the
    probers are programs of a small free monad [io] whose nodes are the calls
    the Python code makes, and [run] interprets a program against a network
    environment and records the calls in a trace.  The rate limiter itself is
    modelled by an interleaving semantics of worker threads in [RateLimiter].

    Python strings are modelled by [string]; a character is a code point
    below 256 (Latin-1), which is where [strip] and [lower] are defined
    here.  Times of the rate limiter are integers (milliseconds). *)

From Stdlib Require Import Ascii String ZArith List Lia.
From stdpp Require Import base decidable option numbers list strings pretty
  gmap fin_maps sorting.

Open Scope Z_scope.

(* ===================================================================== *)
(** * Python strings *)
(* ===================================================================== *)

Module PyStr.

(** [str.isspace] on code points below 256: TAB..CR, FS..US, SPACE,
    NEL (0x85) and NBSP (0xA0). *)
Definition is_space (c : ascii) : bool :=
  let n := N_of_ascii c in
  ((9 <=? n) && (n <=? 13) || (28 <=? n) && (n <=? 32)
   || (n =? 133) || (n =? 160))%N.

(** [str.lower] on one code point below 256: A..Z and the Latin-1
    capitals (0xC0..0xDE without the multiplication sign 0xD7). *)
Definition lower_char (c : ascii) : ascii :=
  let n := N_of_ascii c in
  if ((65 <=? n) && (n <=? 90)
      || (192 <=? n) && (n <=? 222) && negb (n =? 215))%N
  then ascii_of_N (n + 32) else c.

(** [s.lower()] *)
Fixpoint lower (s : string) : string :=
  match s with
  | EmptyString => EmptyString
  | String c s' => String (lower_char c) (lower s')
  end.

(** [s.lstrip()] *)
Fixpoint lstrip (s : string) : string :=
  match s with
  | EmptyString => EmptyString
  | String c s' => if is_space c then lstrip s' else s
  end.

(** [s.rstrip()] *)
Fixpoint rstrip (s : string) : string :=
  match s with
  | EmptyString => EmptyString
  | String c s' =>
      match rstrip s' with
      | EmptyString => if is_space c then EmptyString else String c EmptyString
      | r => String c r
      end
  end.

(** [s.strip()] *)
Definition strip (s : string) : string := rstrip (lstrip s).

(** [s.startswith(p)] *)
Fixpoint startswith (p s : string) : bool :=
  match p, s with
  | EmptyString, _ => true
  | String _ _, EmptyString => false
  | String a p', String b s' => if Ascii.eqb a b then startswith p' s' else false
  end.

(** [needle in hay] *)
Fixpoint contains (needle hay : string) : bool :=
  startswith needle hay
  || match hay with
     | EmptyString => false
     | String _ hay' => contains needle hay'
     end.

(** [s.split(c)[0]]: the text before the first occurrence of [c]
    (all of [s] when there is none). *)
Fixpoint before_first (c : ascii) (s : string) : string :=
  match s with
  | EmptyString => EmptyString
  | String a s' => if Ascii.eqb a c then EmptyString else String a (before_first c s')
  end.

(** [s[:n]] *)
Fixpoint take (n : nat) (s : string) : string :=
  match n, s with
  | O, _ => EmptyString
  | S _, EmptyString => EmptyString
  | S n', String a s' => String a (take n' s')
  end.

(** Truthiness of a string: [not s] is [is_empty s]. *)
Definition is_empty (s : string) : bool :=
  match s with EmptyString => true | String _ _ => false end.

(** [s.startswith(('http://', 'https://'))] *)
Definition has_scheme (s : string) : bool :=
  startswith "http://" s || startswith "https://" s.

(** Every character of [s] satisfies [p]. *)
Fixpoint all_chars (p : ascii -> bool) (s : string) : bool :=
  match s with
  | EmptyString => true
  | String c s' => p c && all_chars p s'
  end.

(** The characters of [str(n)] for an integer [n]. *)
Definition is_digit_or_minus (c : ascii) : bool :=
  let n := N_of_ascii c in
  ((48 <=? n) && (n <=? 57) || (n =? 45))%N.

End PyStr.

(** A cell of a result tuple or of a CSV row: the HTTP-code field holds
    either the numeric status or a word such as ['Timeout']. *)
Inductive pyval : Type :=
| PStr (s : string)
| PInt (n : Z).

Global Instance pyval_eq_dec : EqDecision pyval.
Proof. solve_decision. Defined.

(** [str(v)], as [csv.writer] renders a cell. *)
Definition py_str (v : pyval) : string :=
  match v with
  | PStr s => s
  | PInt n => pretty n
  end.

(* ===================================================================== *)
(** * The exceptions of the [requests] library *)
(* ===================================================================== *)

Module Requests.

(** The classes of [requests.exceptions] the handlers name, their
    subclasses, and two classes outside the library. *)
Inductive exc_class : Type :=
| Exception
| ValueError
| RequestException
| Timeout
| ConnectTimeout
| ReadTimeout
| ConnectionError
| ProxyError
| SSLError
| TooManyRedirects
| InvalidURL
| ChunkedEncodingError.

Global Instance exc_class_eq_dec : EqDecision exc_class.
Proof. solve_decision. Defined.

(** The direct base classes, as the library declares them. *)
Definition bases (c : exc_class) : list exc_class :=
  match c with
  | Exception => []
  | ValueError => [Exception]
  | RequestException => [Exception]
  | Timeout => [RequestException]
  | ConnectTimeout => [ConnectionError; Timeout]
  | ReadTimeout => [Timeout]
  | ConnectionError => [RequestException]
  | ProxyError => [ConnectionError]
  | SSLError => [ConnectionError]
  | TooManyRedirects => [RequestException]
  | InvalidURL => [RequestException; ValueError]
  | ChunkedEncodingError => [RequestException]
  end.

(** [issubclass(c, d)]; the hierarchy has depth three. *)
Fixpoint issubclass_fuel (fuel : nat) (c d : exc_class) : bool :=
  bool_decide (c = d)
  || match fuel with
     | O => false
     | S fuel' => existsb (fun b => issubclass_fuel fuel' b d) (bases c)
     end.

Definition issubclass : exc_class -> exc_class -> bool := issubclass_fuel 3.

(** A raised exception: its class and [str(e)]. *)
Record exn : Type := Exn { exn_class : exc_class; exn_str : string }.

(** [except d as e] catches [e] when [isinstance e d]. *)
Definition isinstance (e : exn) (d : exc_class) : bool :=
  issubclass (exn_class e) d.

(** What [requests.get] / [requests.head] and the reading of the
    response do: a response with its status code and body text, or an
    exception. *)
Inductive http_result : Type :=
| Response (status_code : Z) (text : string)
| Raised (e : exn).

End Requests.

(* ===================================================================== *)
(** * Effects of a prober *)
(* ===================================================================== *)

Module Effects.
Import Requests.

(** The body of the [try] block of [check_dns] ([urlparse], then
    [socket.gethostbyname]): it completes, raises [socket.gaierror], or
    raises something else. *)
Inductive dns_result : Type :=
| Resolved
| GaiError (msg : string)
| DnsRaised (msg : string).

(** Programs over the calls a prober makes. *)
Inductive io (A : Type) : Type :=
| Ret (a : A)
| WaitForRateLimit (k : io A)
| DnsLookup (url : string) (k : dns_result -> io A)
| RequestsGet (url : string) (timeout : Z) (k : http_result -> io A)
| RequestsHead (url : string) (timeout : Z) (k : http_result -> io A).

Arguments Ret {A} a.
Arguments WaitForRateLimit {A} k.
Arguments DnsLookup {A} url k.
Arguments RequestsGet {A} url timeout k.
Arguments RequestsHead {A} url timeout k.

Fixpoint bind {A B : Type} (p : io A) (f : A -> io B) : io B :=
  match p with
  | Ret a => f a
  | WaitForRateLimit k => WaitForRateLimit (bind k f)
  | DnsLookup u k => DnsLookup u (fun r => bind (k r) f)
  | RequestsGet u t k => RequestsGet u t (fun r => bind (k r) f)
  | RequestsHead u t k => RequestsHead u t (fun r => bind (k r) f)
  end.

(** One call, as it shows in a trace. *)
Inductive event : Type :=
| EvRateLimit
| EvDns (url : string)
| EvGet (url : string) (timeout : Z)
| EvHead (url : string) (timeout : Z).

Global Instance event_eq_dec : EqDecision event.
Proof. solve_decision. Defined.

(** The world a prober runs in: what each call answers. *)
Record network : Type := Network {
  net_dns : string -> dns_result;
  net_get : string -> http_result;
  net_head : string -> http_result
}.

(** [run net p]: the value [p] returns in [net] and the calls it made,
    in order. *)
Fixpoint run {A : Type} (net : network) (p : io A) : A * list event :=
  match p with
  | Ret a => (a, [])
  | WaitForRateLimit k =>
      let '(a, tr) := run net k in (a, EvRateLimit :: tr)
  | DnsLookup u k =>
      let '(a, tr) := run net (k (net_dns net u)) in (a, EvDns u :: tr)
  | RequestsGet u t k =>
      let '(a, tr) := run net (k (net_get net u)) in (a, EvGet u t :: tr)
  | RequestsHead u t k =>
      let '(a, tr) := run net (k (net_head net u)) in (a, EvHead u t :: tr)
  end.

Definition result_of {A : Type} (net : network) (p : io A) : A := fst (run net p).
Definition trace_of {A : Type} (net : network) (p : io A) : list event := snd (run net p).

(** Network traffic: everything but the rate limiter. *)
Definition is_network_event (e : event) : bool :=
  match e with
  | EvRateLimit => false
  | _ => true
  end.

End Effects.

Global Instance io_ret : MRet Effects.io := @Effects.Ret.
Global Instance io_bind : MBind Effects.io :=
  fun A B f p => Effects.bind p f.

(* ===================================================================== *)
(** * check_urls_status.py *)
(* ===================================================================== *)

Module CheckUrlsStatus.
Import PyStr Requests Effects.

Definition TIMEOUT : Z := 15.
Definition MAX_WORKERS : Z := 20.
(** [REQUEST_DELAY = 0.3] seconds, in milliseconds. *)
Definition REQUEST_DELAY : Z := 300.
Definition INPUT_FILE : string := "eol-sentinel/URL-dxi-legacy.yaml".
Definition OUTPUT_FILE : string := "url_status_results.csv".

Definition ERROR_MESSAGE_OOPS : string :=
  "Oops, something has gone wrong. Please try again later while we try and fix this.".

(** The tuple [(url, status, http_code, error_message, error_type)]. *)
Record result : Type := Result {
  url : string;
  status : string;
  http_code : pyval;
  error_message : string;
  error_type : string
}.

Global Instance result_eq_dec : EqDecision result.
Proof. solve_decision. Defined.

(** [check_dns(url)]: [(True, None)], [(False, "DNS Error: ...")] or
    [(None, "DNS Check Error: ...")]. *)
Definition check_dns (u : string) : io (option bool * option string) :=
  DnsLookup u (fun r =>
    Ret match r with
        | Resolved => (Some true, None)
        | GaiError e => (Some false, Some ("DNS Error: " +:+ e))
        | DnsRaised e => (None, Some ("DNS Check Error: " +:+ e))
        end).

(** [dns_error or 'DNS_PROBE_FINISHED_NXDOMAIN'] *)
Definition or_default (o : option string) (d : string) : string :=
  match o with
  | Some s => if is_empty s then d else s
  | None => d
  end.

(** The [try] body after the request returned (lines 100-119). *)
Definition classify_response (original_url : string) (code : Z) (text : string)
  : result :=
  let page_content := lower text in
  if contains (lower ERROR_MESSAGE_OOPS) page_content then
    Result original_url "Error Page" (PInt code) ERROR_MESSAGE_OOPS "Application Error"
  else if contains "this site can't be reached" page_content
          || contains "site can't be reached" page_content then
    Result original_url "Site Unreachable" (PInt code) "Site can't be reached"
      "Connection Error"
  else if (200 <=? code) && (code <? 400) then
    Result original_url "Working" (PInt code) "" "Success"
  else if 400 <=? code then
    Result original_url ("HTTP " +:+ pretty code) (PInt code)
      ("HTTP Error " +:+ pretty code) "HTTP Error"
  else
    Result original_url "Unknown Status" (PInt code)
      ("Unexpected status code: " +:+ pretty code) "Unknown".

(** The [except] clauses, tried in the order of the source (lines 121-138). *)
Definition classify_exception (original_url : string) (e : exn) : result :=
  if isinstance e Timeout then
    Result original_url "Timeout" (PStr "Timeout")
      "Request timeout - site did not respond" "Timeout"
  else if isinstance e SSLError then
    Result original_url "SSL Error" (PStr "SSL Error")
      ("SSL Certificate error: " +:+ take 100 (exn_str e)) "SSL Error"
  else if isinstance e ConnectionError then
    let error_msg := lower (exn_str e) in
    if contains "name or service not known" error_msg
       || contains "nodename nor servname" error_msg then
      Result original_url "DNS Error" (PStr "DNS Error")
        "DNS_PROBE_FINISHED_NXDOMAIN" "DNS Error"
    else if contains "refused" error_msg then
      Result original_url "Connection Refused" (PStr "Connection Error")
        "Connection refused - site not responding" "Connection Error"
    else
      Result original_url "Connection Error" (PStr "Connection Error")
        ("Connection failed: " +:+ take 100 (exn_str e)) "Connection Error"
  else if isinstance e TooManyRedirects then
    Result original_url "Redirect Error" (PStr "Redirect Error")
      "Too many redirects" "Redirect Error"
  else if isinstance e RequestException then
    Result original_url "Request Error" (PStr "Request Error")
      (take 150 (exn_str e)) "Request Error"
  else
    Result original_url "Unknown Error" (PStr "Unknown Error")
      (take 150 (exn_str e)) "Unknown Error".

(** Lines 72-74: drop a comment. *)
Definition strip_comment (original_url : string) : string :=
  if contains "#" original_url
  then strip (before_first "#"%char original_url)
  else original_url.

(** Lines 76-79: make sure there is a protocol. *)
Definition normalize (original_url : string) : string :=
  if has_scheme original_url then original_url
  else "https://" +:+ original_url.

(** [check_url(url)] *)
Definition check_url (line : string) : io result :=
  let original_url := strip line in
  if is_empty original_url || String.eqb (lower original_url) "url" then
    Ret (Result original_url "Skipped" (PStr "N/A") "Empty or header line" "N/A")
  else
    let original_url := strip_comment original_url in
    let normalized_url := normalize original_url in
    WaitForRateLimit (
      '(dns_works, dns_error) ← check_dns normalized_url;
      if bool_decide (dns_works = Some false) then
        Ret (Result original_url "DNS Error" (PStr "N/A")
               (or_default dns_error "DNS_PROBE_FINISHED_NXDOMAIN") "DNS Error")
      else
        RequestsGet normalized_url TIMEOUT (fun r =>
          Ret match r with
              | Response code text => classify_response original_url code text
              | Raised e => classify_exception original_url e
              end)).

(** [check_url] returns at once on this test (line 69). *)
Definition skips (line : string) : bool :=
  is_empty (strip line) || String.eqb (lower (strip line)) "url".

(** The text [check_url] keeps for the record, and the
    URL it probes. *)
Definition original (line : string) : string :=
  strip_comment (strip line).

Definition target (line : string) : string :=
  normalize (original line).

(** [read_urls_from_file]: the lines kept, each stripped. *)
Definition read_urls_from_file (lines : list string) : list string :=
  List.filter (fun u => negb (is_empty u) && negb (String.eqb (lower u) "url"))
    (List.map strip lines).

(** The tasks [main] submits, one [check_url] per entry of [urls], each in
    the network it meets. *)
Definition submitted (nets : list network) (urls : list string) : list result :=
  zip_with (fun net u => result_of net (check_url u)) nets urls.

(** [as_completed] hands the results over in some order of completion. *)
Definition completes (nets : list network) (lines : list string)
    (results : list result) : Prop :=
  length nets = length (read_urls_from_file lines)
  /\ results ≡ₚ submitted nets (read_urls_from_file lines).

Definition HEADER : list string :=
  ["URL"; "Status"; "HTTP Code"; "Error Message"; "Error Type"].

Definition to_row (r : result) : list string :=
  [url r; status r; py_str (http_code r); error_message r; error_type r].

(** The file [main] writes: its name, the header row and the data rows. *)
Definition main (results : list result)
  : string * list string * list (list string) :=
  (OUTPUT_FILE, HEADER, to_row <$> results).

(** ** Progress and cool-down (lines 187-204) *)

(** The test of line 194, at the [completed]-th result. *)
Definition reports (total_urls completed : Z) : bool :=
  (completed mod 50 =? 0) || (completed =? total_urls).

(** Whether the loop sleeps its second at the [completed]-th result. *)
Definition pauses (total_urls completed : Z) : bool :=
  reports total_urls completed
  && ((completed <? total_urls) && (completed mod 100 =? 0)).

(** The seconds slept by the first [n] rounds of the loop. *)
Fixpoint cooldown (total_urls : Z) (n : nat) : Z :=
  match n with
  | O => 0
  | S n' =>
      cooldown total_urls n'
      + (if pauses total_urls (Z.of_nat n) then 1 else 0)
  end.

(** ** The summary (lines 220-227) *)

(** [sum(1 for r in results if p(r))] *)
Definition count (p : result -> bool) (results : list result) : Z :=
  Z.of_nat (length (List.filter p results)).

Definition is_working (r : result) : bool := String.eqb (status r) "Working".
Definition is_error_page (r : result) : bool :=
  String.eqb (status r) "Error Page".
Definition is_dns_error (r : result) : bool :=
  contains "DNS" (status r) || contains "DNS" (error_type r).
Definition is_timeout (r : result) : bool := String.eqb (status r) "Timeout".
Definition is_connection_error (r : result) : bool :=
  contains "Connection" (status r) || contains "Connection" (error_type r).
Definition is_http_error (r : result) : bool :=
  contains "HTTP" (status r) && negb (String.eqb (status r) "Working").
Definition is_skipped (r : result) : bool := String.eqb (status r) "Skipped".

(** [other_count], with [total_urls = len(urls)]. *)
Definition other_count (total_urls : Z) (results : list result) : Z :=
  total_urls - count is_working results - count is_error_page results
  - count is_dns_error results - count is_timeout results
  - count is_connection_error results - count is_http_error results
  - count is_skipped results.

(** The statuses that fall in no bucket of the summary. *)
Definition is_other (r : result) : bool :=
  bool_decide (status r ∈ ["SSL Error"; "Redirect Error"; "Request Error";
                           "Unknown Error"; "Unknown Status"]).

(** In how many of the seven buckets a record is counted. *)
Definition buckets (r : result) : Z :=
  Z.b2z (is_working r) + Z.b2z (is_error_page r) + Z.b2z (is_dns_error r)
  + Z.b2z (is_timeout r) + Z.b2z (is_connection_error r)
  + Z.b2z (is_http_error r) + Z.b2z (is_skipped r).

(** The status and error type of the records [check_url] builds, but for
    those of lines 116-117. *)
Definition shapes : list (string * string) :=
  [("Skipped", "N/A"); ("DNS Error", "DNS Error");
   ("Error Page", "Application Error");
   ("Site Unreachable", "Connection Error"); ("Working", "Success");
   ("Unknown Status", "Unknown"); ("Timeout", "Timeout");
   ("SSL Error", "SSL Error"); ("Connection Refused", "Connection Error");
   ("Connection Error", "Connection Error");
   ("Redirect Error", "Redirect Error"); ("Request Error", "Request Error");
   ("Unknown Error", "Unknown Error")].

End CheckUrlsStatus.

(* ===================================================================== *)
(** * url_checker.py *)
(* ===================================================================== *)

Module UrlChecker.
Import PyStr Requests Effects.

Definition TIMEOUT : Z := 20.
Definition MAX_WORKERS : Z := 20.
(** [REQUEST_DELAY = 0.5] seconds, in milliseconds. *)
Definition REQUEST_DELAY : Z := 500.
Definition INPUT_FILE : string := "sfdc-url-list.md".
Definition OUTPUT_FILE : string := "url_check_results.csv".

Definition KAYAKO_ERROR_MESSAGE : string :=
  "Either this Kayako instance does not exist or we are facing temporary problems. Please try again in a few minutes".

(** The tuple [(url, status, http_code, error_message)]. *)
Record result : Type := Result {
  url : string;
  status : string;
  http_code : pyval;
  error_message : string
}.

Global Instance result_eq_dec : EqDecision result.
Proof. solve_decision. Defined.

(** [url_line.lower() in ['instance name', 'url', 'domain']] *)
Definition is_header (url_line : string) : bool :=
  bool_decide (lower url_line ∈ ["instance name"; "url"; "domain"]).

(** [normalize_url(url_line)]; [None] is Python's [None]. *)
Definition normalize_url (url_line : string) : option string :=
  let url_line := strip url_line in
  if is_empty url_line then None
  else if is_header url_line then None
  else if negb (has_scheme url_line) then Some ("https://" +:+ url_line)
  else Some url_line.

(** The [try] body after the request returned (lines 87-100). *)
Definition classify_response (original_url : string) (code : Z) (text : string)
  : result :=
  if (200 <=? code) && (code <? 400) then
    let page_content := text in
    if contains (lower KAYAKO_ERROR_MESSAGE) (lower page_content) then
      Result original_url "Instance unavailable" (PInt code) KAYAKO_ERROR_MESSAGE
    else
      Result original_url "Active Kayako" (PInt code) ""
  else
    Result original_url "Inactive" (PInt code) ("HTTP " +:+ pretty code).

(** The [except] clauses, tried in the order of the source (lines 102-117). *)
Definition classify_exception (original_url : string) (e : exn) : result :=
  if isinstance e Timeout then
    Result original_url "Inactive" (PStr "Timeout") "Request timeout"
  else if isinstance e ConnectionError then
    let error_msg := exn_str e in
    if contains "SSL" error_msg || contains "certificate" (lower error_msg) then
      Result original_url "Inactive" (PStr "SSL Error") "SSL/Certificate error"
    else if contains "Name or service not known" error_msg
            || contains "nodename nor servname" error_msg then
      Result original_url "Inactive" (PStr "DNS Error") "DNS resolution failed"
    else
      Result original_url "Inactive" (PStr "Connection Error") "Connection failed"
  else if isinstance e TooManyRedirects then
    Result original_url "Inactive" (PStr "Redirect Error") "Too many redirects"
  else if isinstance e RequestException then
    Result original_url "Inactive" (PStr "Request Error") (take 100 (exn_str e))
  else
    Result original_url "Inactive" (PStr "Unknown Error") (take 100 (exn_str e)).

(** [check_url(url)]; [not normalized_url] holds for [None] and for [''] . *)
Definition check_url (line : string) : io result :=
  let original_url := line in
  match normalize_url line with
  | None => Ret (Result original_url "Skipped" (PStr "N/A") "Empty or header line")
  | Some normalized_url =>
      if is_empty normalized_url then
        Ret (Result original_url "Skipped" (PStr "N/A") "Empty or header line")
      else
        WaitForRateLimit (
          RequestsGet normalized_url TIMEOUT (fun r =>
            Ret match r with
                | Response code text => classify_response original_url code text
                | Raised e => classify_exception original_url e
                end))
  end.

(** [read_urls_from_file]: a header on the first line is dropped, then
    every non-empty stripped line is kept. *)
Definition read_urls_from_file (lines : list string) : list string :=
  let start_idx :=
    match lines with
    | first :: _ => if is_header (strip first) then 1%nat else 0%nat
    | [] => 0%nat
    end in
  List.filter (fun u => negb (is_empty u)) (List.map strip (drop start_idx lines)).

(** The tasks [main] submits, one [check_url] per entry of [urls], each in
    the network it meets. *)
Definition submitted (nets : list network) (urls : list string) : list result :=
  zip_with (fun net u => result_of net (check_url u)) nets urls.

(** [as_completed] hands the results over in some order of completion. *)
Definition completes (nets : list network) (lines : list string)
    (results : list result) : Prop :=
  length nets = length (read_urls_from_file lines)
  /\ results ≡ₚ submitted nets (read_urls_from_file lines).

Definition HEADER : list string :=
  ["URL"; "Status"; "HTTP Code"; "Error Message"].

Definition to_row (r : result) : list string :=
  [url r; status r; py_str (http_code r); error_message r].

(** The file [main] writes: its name, the header row and the data rows. *)
Definition main (results : list result)
  : string * list string * list (list string) :=
  (OUTPUT_FILE, HEADER, to_row <$> results).

(** ** Progress and cool-down (lines 170-187) *)

(** The test of line 177, at the [completed]-th result. *)
Definition reports (total_urls completed : Z) : bool :=
  (completed mod 100 =? 0) || (completed =? total_urls).

(** Whether the loop sleeps its two seconds at the [completed]-th result. *)
Definition pauses (total_urls completed : Z) : bool :=
  reports total_urls completed
  && ((completed <? total_urls) && (completed mod 100 =? 0)).

(** The seconds slept by the first [n] rounds of the loop. *)
Fixpoint cooldown (total_urls : Z) (n : nat) : Z :=
  match n with
  | O => 0
  | S n' =>
      cooldown total_urls n'
      + (if pauses total_urls (Z.of_nat n) then 2 else 0)
  end.

(** The rows of the file [main] wrote, as [csv.DictReader] reads them
    back: each cell under the name of its column. *)
Definition report (results : list result) : list (gmap string string) :=
  (fun r => list_to_map (zip HEADER (to_row r))) <$> results.

(** ** The summary (lines 203-206) *)

(** [sum(1 for r in results if r[1] == word)] *)
Definition count (word : string) (results : list result) : Z :=
  Z.of_nat (length (List.filter (fun r => String.eqb (status r) word) results)).

Definition active_count := count "Active Kayako".
Definition unavailable_count := count "Instance unavailable".
Definition inactive_count := count "Inactive".
Definition skipped_count := count "Skipped".

End UrlChecker.

(* ===================================================================== *)
(** * retest_timeouts.py *)
(* ===================================================================== *)

Module RetestTimeouts.
Import PyStr Requests Effects.

Definition TIMEOUT : Z := 30.
Definition MAX_WORKERS : Z := 20.
Definition INPUT_CSV : string := "url_check_results.csv".
Definition OUTPUT_CSV : string := "url_check_results_updated.csv".

(** The tuple [(url, status, http_code, error_message)]. *)
Record result : Type := Result {
  url : string;
  status : string;
  http_code : pyval;
  error_message : string
}.

Global Instance result_eq_dec : EqDecision result.
Proof. solve_decision. Defined.

(** [normalize_url(url_line)]; this copy knows no header line. *)
Definition normalize_url (url_line : string) : option string :=
  let url_line := strip url_line in
  if is_empty url_line then None
  else if negb (has_scheme url_line) then Some ("https://" +:+ url_line)
  else Some url_line.

Inductive method : Type := HEAD | GET.

Global Instance method_eq_dec : EqDecision method.
Proof. solve_decision. Defined.

(** [requests.head(...)] or [requests.get(..., stream=True)], by [method]. *)
Definition request (m : method) (u : string) (k : http_result -> io result)
  : io result :=
  match m with
  | HEAD => RequestsHead u TIMEOUT k
  | GET => RequestsGet u TIMEOUT k
  end.

(** The record of the last line of [check_url_with_retry] and of the
    [Timeout] clause. *)
Definition timeout_result (original_url : string) : result :=
  Result original_url "Inactive" (PStr "Timeout")
    ("Request timeout after " +:+ pretty TIMEOUT +:+ "s").

(** The [except] clauses after [Timeout], in the order of the source
    (lines 75-92). *)
Definition classify_exception (original_url : string) (e : exn) : result :=
  if isinstance e ConnectionError then
    let error_msg := exn_str e in
    if contains "SSL" error_msg || contains "certificate" (lower error_msg) then
      Result original_url "Inactive" (PStr "SSL Error") "SSL/Certificate error"
    else if contains "Name or service not known" error_msg
            || contains "nodename nor servname" error_msg then
      Result original_url "Inactive" (PStr "DNS Error") "DNS resolution failed"
    else if contains "Connection refused" error_msg
            || contains "refused" (lower error_msg) then
      Result original_url "Inactive" (PStr "Connection Refused")
        "Connection refused by server"
    else
      Result original_url "Inactive" (PStr "Connection Error") "Connection failed"
  else if isinstance e TooManyRedirects then
    Result original_url "Inactive" (PStr "Redirect Error") "Too many redirects"
  else if isinstance e SSLError then
    Result original_url "Inactive" (PStr "SSL Error")
      ("SSL error: " +:+ take 100 (exn_str e))
  else if isinstance e RequestException then
    Result original_url "Inactive" (PStr "Request Error") (take 100 (exn_str e))
  else
    Result original_url "Inactive" (PStr "Unknown Error") (take 100 (exn_str e)).

(** The record a response gives in the retest (lines 62-68). *)
Definition response_result (u : string) (code : Z) : result :=
  if (200 <=? code) && (code <? 400)
  then Result u "Active" (PInt code) ""
  else Result u "Inactive" (PInt code) ("HTTP " +:+ pretty code).

(** The loop [for method in ['HEAD', 'GET']] (lines 44-95): [continue] is
    the recursive call, falling off the end is the empty list. *)
Fixpoint attempt (original_url normalized_url : string) (methods : list method)
  : io result :=
  match methods with
  | [] => Ret (timeout_result original_url)
  | m :: rest =>
      request m normalized_url (fun r =>
        match r with
        | Response code _ =>
            Ret (response_result original_url code)
        | Raised e =>
            if isinstance e Timeout then
              if bool_decide (m = HEAD) then
                attempt original_url normalized_url rest
              else Ret (timeout_result original_url)
            else Ret (classify_exception original_url e)
        end)
  end.

(** [check_url_with_retry(url)] *)
Definition check_url_with_retry (u : string) : io result :=
  let original_url := u in
  match normalize_url u with
  | None => Ret (Result original_url "Inactive" (PStr "N/A") "Empty URL")
  | Some normalized_url =>
      if is_empty normalized_url then
        Ret (Result original_url "Inactive" (PStr "N/A") "Empty URL")
      else attempt original_url normalized_url [HEAD; GET]
  end.

(** ** The CSV pass

    A row is the dictionary [csv.DictReader] yields: column name to cell.
    The reader's cells are text; the merge may store a number. *)

(** [read_csv_and_find_timeouts]: the pair [(timeout_urls, all_rows)], or
    [None] when a row lacks a column it reads ([KeyError], caught by the
    last clause, which exits). *)
Fixpoint read_csv_and_find_timeouts (reader : list (gmap string string))
  : option (list string * list (gmap string pyval)) :=
  match reader with
  | [] => Some ([], [])
  | row :: reader' =>
      code ← row !! "HTTP Code";
      here ← (if String.eqb code "Timeout"
              then u ← row !! "URL"; Some [u]
              else Some []);
      '(timeout_urls, all_rows) ← read_csv_and_find_timeouts reader';
      Some (here ++ timeout_urls, (PStr <$> row) :: all_rows)
  end.

(** [updated_results[result[0]] = result], for each completed task in the
    order of completion. *)
Definition collect (completed : list result) : gmap string result :=
  foldl (fun updated r => <[url r := r]> updated) ∅ completed.

(** The body of [for row in all_rows] (lines 172-178); [None] is the
    [KeyError] of a row without a URL column. *)
Definition update_row (updated_results : gmap string result)
    (row : gmap string pyval) : option (gmap string pyval) :=
  key ← row !! "URL";
  match key with
  | PStr u =>
      match updated_results !! u with
      | Some r =>
          Some (<["Error Message" := PStr (error_message r)]>
                 (<["HTTP Code" := http_code r]>
                   (<["Status" := PStr (status r)]> row)))
      | None => Some row
      end
  | PInt _ => Some row
  end.

Definition fieldnames : list string :=
  ["URL"; "Status"; "HTTP Code"; "Error Message"].

(** [csv.DictWriter(fieldnames).writerows]: a key outside [fieldnames]
    raises [ValueError]; a missing one is written as the empty cell. *)
Definition dict_to_list (row : gmap string pyval) : option (list string) :=
  if bool_decide (dom row ⊆ list_to_set fieldnames)
  then Some ((fun k => from_option py_str "" (row !! k)) <$> fieldnames)
  else None.

Definition writerows (rows : list (gmap string pyval))
  : option (list (list string)) :=
  mapM dict_to_list rows.

(** What a run of [main] ends in. *)
Inductive outcome : Type :=
| Exit1
| NothingToRetest
| Crashed
| Written (filename : string) (header : list string) (rows : list (list string)).

(** [main()], given the rows of [INPUT_CSV] and the results of the retest
    tasks in the order they completed. *)
Definition main (reader : list (gmap string string)) (completed : list result)
  : outcome :=
  match read_csv_and_find_timeouts reader with
  | None => Exit1
  | Some (timeout_urls, all_rows) =>
      if bool_decide (length timeout_urls = 0%nat) then NothingToRetest
      else
        let updated_results := collect completed in
        match mapM (update_row updated_results) all_rows with
        | None => Crashed
        | Some all_rows' =>
            match writerows all_rows' with
            | None => Crashed
            | Some cells => Written OUTPUT_CSV fieldnames cells
            end
        end
  end.

(** The tasks [main] submits, one per entry of [timeout_urls], each in the
    network it meets; [as_completed] yields their results in some order. *)
Definition submitted (nets : list network) (timeout_urls : list string)
  : list result :=
  zip_with (fun net u => result_of net (check_url_with_retry u)) nets timeout_urls.

Definition completes (nets : list network) (timeout_urls : list string)
    (completed : list result) : Prop :=
  length nets = length timeout_urls ∧ completed ≡ₚ submitted nets timeout_urls.

(** A row [read_csv_and_find_timeouts] can read: it has the column it
    tests and, if that says Timeout, the column it then reads. *)
Definition readable (row : gmap string string) : Prop :=
  exists code, row !! "HTTP Code" = Some code
               /\ (code = "Timeout" -> is_Some (row !! "URL")).

(** The test of line 108. *)
Definition timed_out (row : gmap string string) : Prop :=
  row !! "HTTP Code" = Some "Timeout".

Global Instance timed_out_dec row : Decision (timed_out row).
Proof. unfold timed_out. apply _. Defined.

(** The rows as [all_rows] holds them. *)
Definition as_cells (reader : list (gmap string string))
  : list (gmap string pyval) :=
  (fun row : gmap string string => PStr <$> row) <$> reader.

(** The cells of an input row, in the order of [fieldnames]. *)
Definition cells_of (row : gmap string string) : list string :=
  (fun k => default "" (row !! k)) <$> fieldnames.

(** The dictionary an input row is after the loop of lines 172-178. *)
Definition merged_row (updated_results : gmap string result)
    (row : gmap string string) : gmap string pyval :=
  match row !! "URL" ≫= (updated_results !!.) with
  | Some r =>
      <["Error Message" := PStr (error_message r)]>
        (<["HTTP Code" := http_code r]>
           (<["Status" := PStr (status r)]> (PStr <$> row)))
  | None => PStr <$> row
  end.

(** The cells of the output row for an input row: with a retest result
    for its URL, the URL and the three fields of the result; without one,
    the cells of the input row. *)
Definition merged_cells (updated_results : gmap string result)
    (row : gmap string string) : list string :=
  match row !! "URL" ≫= (updated_results !!.) with
  | Some r =>
      [default "" (row !! "URL"); status r; py_str (http_code r);
       error_message r]
  | None => cells_of row
  end.

(** The columns of the report the retest reads: those [url_checker.py]
    writes. *)
Definition has_report_columns (row : gmap string string) : Prop :=
  dom row = list_to_set fieldnames.

End RetestTimeouts.

(* ===================================================================== *)
(** * The rate limiter: [wait_for_rate_limit] under concurrent workers *)
(* ===================================================================== *)

(** [wait_for_rate_limit] is the same text in [check_urls_status.py]
    (lines 35-43) and [url_checker.py] (lines 33-41).  The workers of the
    thread pool are modelled by an interleaving semantics: a step is one
    statement of one worker, the passing of time, or an adjustment of the
    system clock.  There are two clocks.  [time.time()] reads the system
    clock, which can be set, forwards or backwards, while the script
    runs.  [time.sleep(d)] waits on the monotonic clock, which only time
    moves: it returns when that clock has advanced by [d], give or take
    [eps], the resolution of the timer. *)

Module RateLimiter.

(** Where a worker is in [wait_for_rate_limit]. *)
Inductive pc : Type :=
| Idle                        (* not in the function, or waiting for the lock *)
| Entered                     (* inside [with rate_limiter_lock], line 38 next *)
| Read (current_time : Z)     (* [current_time] read, lines 39-40 next *)
| Sleeping (until : Z)        (* in [time.sleep(sleep_time)], to end when the
                                 monotonic clock shows [until] *)
| Awake                       (* line 43 next *)
| Stamped.                    (* line 43 done, leaving the [with] block *)

Global Instance pc_eq_dec : EqDecision pc.
Proof. solve_decision. Defined.

Record state : Type := State {
  now : Z;                        (* what [time.time()] would return *)
  monotonic : Z;                  (* the clock [time.sleep] waits on *)
  last_request_time : Z;          (* [last_request_time[0]] *)
  rate_limiter_lock : option nat; (* the worker inside the [with] block *)
  workers : list pc;
  grants : list Z                 (* the values line 43 stored, newest first *)
}.

(** The state at start-up: [last_request_time = [0]], the lock free.  The
    origin of the monotonic clock is arbitrary. *)
Definition init (n : nat) (t0 : Z) : state :=
  State t0 0 0 None (replicate n Idle) [].

Inductive label : Type :=
| Tick (d : Z)     (* [d] milliseconds pass: both clocks advance *)
| Adjust (d : Z)   (* the system clock is set [d] milliseconds forward, or
                      back when [d] is negative *)
| Run (i : nat).   (* worker [i] executes its next statement *)

(** The step does not set the system clock back. *)
Definition steady (l : label) : Prop :=
  match l with
  | Adjust d => 0 <= d
  | _ => True
  end.

(** By how much the steps of a schedule set the system clock back, in
    all. *)
Fixpoint setback (ls : list label) : Z :=
  match ls with
  | [] => 0
  | Adjust d :: ls' => Z.max 0 (- d) + setback ls'
  | _ :: ls' => setback ls'
  end.

Section Limiter.

Variable REQUEST_DELAY : Z.
Variable eps : Z.

Definition set_pc (s : state) (i : nat) (p : pc) : state :=
  State (now s) (monotonic s) (last_request_time s) (rate_limiter_lock s)
        (<[i := p]> (workers s)) (grants s).

(** One step; [None] when the step is not enabled. *)
Definition step (l : label) (s : state) : option state :=
  match l with
  | Tick d =>
      if bool_decide (0 <= d)
      then Some (State (now s + d) (monotonic s + d) (last_request_time s)
                       (rate_limiter_lock s) (workers s) (grants s))
      else None
  | Adjust d =>
      Some (State (now s + d) (monotonic s) (last_request_time s)
                  (rate_limiter_lock s) (workers s) (grants s))
  | Run i =>
      p ← workers s !! i;
      match p with
      | Idle =>
          match rate_limiter_lock s with
          | None =>
              Some (State (now s) (monotonic s) (last_request_time s) (Some i)
                          (<[i := Entered]> (workers s)) (grants s))
          | Some _ => None
          end
      | Entered => Some (set_pc s i (Read (now s)))
      | Read current_time =>
          let time_since_last := current_time - last_request_time s in
          if bool_decide (time_since_last < REQUEST_DELAY) then
            let sleep_time := REQUEST_DELAY - time_since_last in
            Some (set_pc s i (Sleeping (monotonic s + sleep_time)))
          else Some (set_pc s i Awake)
      | Sleeping until =>
          if bool_decide (until - eps <= monotonic s)
          then Some (set_pc s i Awake)
          else None
      | Awake =>
          Some (State (now s) (monotonic s) (now s) (rate_limiter_lock s)
                      (<[i := Stamped]> (workers s)) (now s :: grants s))
      | Stamped =>
          Some (State (now s) (monotonic s) (last_request_time s) None
                      (<[i := Idle]> (workers s)) (grants s))
      end
  end.

(** A run: the steps of a schedule, one after the other. *)
Fixpoint exec (ls : list label) (s : state) : option state :=
  match ls with
  | [] => Some s
  | l :: ls' => s' ← step l s; exec ls' s'
  end.

(** Worker [i] is inside the critical section. *)
Definition in_section (s : state) (i : nat) : Prop :=
  exists p, workers s !! i = Some p /\ p <> Idle.

(** Consecutive stamps of an ascending list are at least
    [REQUEST_DELAY - eps] apart. *)
Fixpoint spaced (stamps : list Z) : Prop :=
  match stamps with
  | a :: (b :: _) as rest => a + (REQUEST_DELAY - eps) <= b /\ spaced rest
  | _ => True
  end.

(** ** The invariant *)

(** What is known at each point of the critical section, as long as the
    system clock is not set back.  A sleep ends when the monotonic clock
    shows [until]; the system clock then shows [until] and what it is
    ahead of the monotonic one by. *)
Definition pc_ok (s : state) (p : pc) : Prop :=
  match p with
  | Read current_time => current_time <= now s
  | Sleeping until =>
      last_request_time s + REQUEST_DELAY <= until + (now s - monotonic s)
  | Awake => last_request_time s + REQUEST_DELAY - eps <= now s
  | _ => True
  end.

(** The grants, newest first: each is later than the one before it by the
    delay, and not earlier. *)
Fixpoint chain (gs : list Z) : Prop :=
  match gs with
  | b :: (a :: _) as rest =>
      a <= b /\ a + (REQUEST_DELAY - eps) <= b /\ chain rest
  | _ => True
  end.

(** The invariant of a run in which the system clock is not set back. *)
Record inv (s : state) : Prop := Inv {
  inv_lock : forall i p,
    workers s !! i = Some p -> p <> Idle -> rate_limiter_lock s = Some i;
  inv_pc : forall i p, workers s !! i = Some p -> pc_ok s p;
  inv_head : forall g rest,
    grants s = g :: rest -> g = last_request_time s /\ g <= now s;
  inv_chain : chain (grants s)
}.

End Limiter.

(** A worker that is inside the section holds the lock; this needs nothing
    of the clocks. *)
Definition excl (s : state) : Prop :=
  forall i p, workers s !! i = Some p -> p <> Idle ->
              rate_limiter_lock s = Some i.

(** The stamp is ahead of the system clock, and of a reading of it made
    inside the section, by at most [back]: by what the clock was set back
    since. *)
Definition timely (back : Z) (s : state) : Prop :=
  last_request_time s <= now s + back
  /\ forall i current_time, workers s !! i = Some (Read current_time) ->
                         last_request_time s <= current_time + back.

(** The lock is held by a worker that is inside the section. *)
Definition owned (s : state) : Prop :=
  forall i, rate_limiter_lock s = Some i ->
            exists p, workers s !! i = Some p /\ p <> Idle.

(** Worker [i] has left the [with] block it was in. *)
Definition finished (i : nat) (s s' : state) : Prop :=
  workers s' = <[i := Idle]> (workers s)
  /\ rate_limiter_lock s' = None.

(** A step of worker [i], or the passing of time. *)
Definition solo (i : nat) (l : label) : Prop :=
  match l with
  | Run j => j = i
  | Tick _ => True
  | Adjust _ => False
  end.

End RateLimiter.

(* ===================================================================== *)
(** * The classification, in the words of the specification *)
(* ===================================================================== *)

Module Spec.
Import PyStr Requests.

(** The kinds of failure that step 7 of the prober's algorithm names. *)
Definition timeout (e : exn) : bool := isinstance e Timeout.
Definition tls_failure (e : exn) : bool := isinstance e SSLError.
Definition connection_failure (e : exn) : bool := isinstance e ConnectionError.
Definition too_many_redirects (e : exn) : bool := isinstance e TooManyRedirects.
Definition request_layer (e : exn) : bool := isinstance e RequestException.

(** "whose message indicates name resolution failure", whatever the case
    of the letters. *)
Definition indicates_resolution_failure (msg : string) : bool :=
  contains "name or service not known" (lower msg)
  || contains "nodename nor servname" (lower msg).

(** "whose message indicates refusal" *)
Definition indicates_refusal (msg : string) : bool :=
  contains "refused" (lower msg).

(** The precedence of step 7. *)
Definition exception_kind (e : exn) : string :=
  if timeout e then "Timeout"
  else if tls_failure e then "SSL Error"
  else if connection_failure e && indicates_resolution_failure (exn_str e)
  then "DNS Error"
  else if connection_failure e && indicates_refusal (exn_str e)
  then "Connection Refused"
  else if connection_failure e then "Connection Error"
  else if too_many_redirects e then "Redirect Error"
  else if request_layer e then "Request Error"
  else "Unknown Error".

(** The two tests on the message of a connection failure that
    [url_checker.py] and [retest_timeouts.py] make: the message mentions
    SSL or a certificate; it names the resolver's error, in these very
    letters. *)
Definition mentions_tls (msg : string) : bool :=
  contains "SSL" msg || contains "certificate" (lower msg).

Definition names_resolution_failure (msg : string) : bool :=
  contains "Name or service not known" msg
  || contains "nodename nor servname" msg.

(** The precedence [url_checker.py] follows; it has no kind for a refused
    connection. *)
Definition kayako_exception_kind (e : exn) : string :=
  if timeout e then "Timeout"
  else if connection_failure e && mentions_tls (exn_str e) then "SSL Error"
  else if connection_failure e && names_resolution_failure (exn_str e)
  then "DNS Error"
  else if connection_failure e then "Connection Error"
  else if too_many_redirects e then "Redirect Error"
  else if request_layer e then "Request Error"
  else "Unknown Error".

(** The precedence [retest_timeouts.py] follows for the attempt that
    decides. *)
Definition retest_exception_kind (e : exn) : string :=
  if timeout e then "Timeout"
  else if connection_failure e && mentions_tls (exn_str e) then "SSL Error"
  else if connection_failure e && names_resolution_failure (exn_str e)
  then "DNS Error"
  else if connection_failure e && indicates_refusal (exn_str e)
  then "Connection Refused"
  else if connection_failure e then "Connection Error"
  else if too_many_redirects e then "Redirect Error"
  else if request_layer e then "Request Error"
  else "Unknown Error".

(** "the body contains the marker, compared case-insensitively" *)
Definition has_marker (marker body : string) : bool :=
  contains (lower marker) (lower body).

(** The generic phrase of a browser's error page. *)
Definition SITE_UNREACHABLE : string := "site can't be reached".

(** The statuses a record of [check_urls_status.py] can carry, apart from
    ["HTTP <code>"]. *)
Definition status_taxonomy : list string :=
  ["Skipped"; "DNS Error"; "Error Page"; "Site Unreachable"; "Working";
   "Unknown Status"; "Timeout"; "SSL Error"; "Connection Refused";
   "Connection Error"; "Redirect Error"; "Request Error"; "Unknown Error"].

Definition kayako_taxonomy : list string :=
  ["Skipped"; "Instance unavailable"; "Active Kayako"; "Inactive"].

Definition retest_taxonomy : list string := ["Active"; "Inactive"].

End Spec.

(* ===================================================================== *)
(** * Sample networks and inputs *)
(* ===================================================================== *)

Module Samples.
Import Requests Effects.

(** A network in which every name resolves and every request ends in [r]. *)
Definition answering (r : http_result) : network :=
  Network (fun _ => Resolved) (fun _ => r) (fun _ => r).

(** A network in which HEAD ends in [h] and GET in [g]. *)
Definition head_then_get (h g : http_result) : network :=
  Network (fun _ => Resolved) (fun _ => g) (fun _ => h).

(** The connection is refused. *)
Definition refused : exn :=
  Exn ConnectionError "[Errno 111] Connection refused".

Definition read_timed_out : exn := Exn ReadTimeout "Read timed out.".

(** A line feed, and an input file: a header, an empty line, a host, a
    header further down, a host with a comment. *)
Definition nl : string := String (ascii_of_nat 10) "".

Definition input_file : list string :=
  ["URL" +:+ nl; nl; "example.com" +:+ nl; "Domain" +:+ nl;
   "example.org # old" +:+ nl].

Definition ok : http_result := Response 200 "ok".

(** A row of the report of [url_checker.py], and a report in which one
    URL timed out twice and also has a row that did not. *)
Definition row (u st code msg : string) : gmap string string :=
  list_to_map [("URL", u); ("Status", st); ("HTTP Code", code);
               ("Error Message", msg)].

Definition report : list (gmap string string) :=
  [row "a.example" "Active Kayako" "200" "";
   row "b.example" "Inactive" "Timeout" "Request timeout";
   row "c.example" "Inactive" "404" "HTTP 404";
   row "b.example" "Inactive" "Timeout" "Request timeout";
   row "b.example" "Inactive" "503" "HTTP 503"].

End Samples.

(* ===================================================================== *)
(** * Properties of the rate limiter *)
(* ===================================================================== *)

Section Exclusion.
Import RateLimiter.

Variable REQUEST_DELAY : Z.
Variable eps : Z.

Lemma excl_init n t0 : excl (init n t0).
Proof.
  intros i p Hp Hne. simpl in Hp.
  apply lookup_replicate_1 in Hp as [-> _]. done.
Qed.

(** The other workers are idle while worker [i] is in the section. *)
Lemma holder_alone s i j p q :
  excl s -> workers s !! i = Some p -> p <> Idle ->
  workers s !! j = Some q -> i <> j -> q = Idle.
Proof.
  intros Hex Hi Hp Hj Hij.
  destruct (decide (q = Idle)) as [|Hq]; [done|].
  pose proof (Hex i p Hi Hp) as E1. pose proof (Hex j q Hj Hq) as E2.
  congruence.
Qed.

(** Whatever the clocks do, a step keeps the lock with the worker that is
    inside the section. *)
Lemma excl_step l s s' :
  excl s -> step REQUEST_DELAY eps l s = Some s' -> excl s'.
Proof.
  intros Hex Hstep. destruct l as [d|d|i]; simpl in Hstep.
  - case_bool_decide; [|discriminate]. injection Hstep as <-. exact Hex.
  - injection Hstep as <-. exact Hex.
  - destruct (workers s !! i) as [p|] eqn:Hi; simpl in Hstep; [|discriminate].
    assert (Hkeep : forall q t m t' gs, p <> Idle ->
              excl (State t m t' (rate_limiter_lock s)
                      (<[i := q]> (workers s)) gs)).
    { intros q t m t' gs Hp j r Hr Hne. simpl in *.
      apply list_lookup_insert_Some in Hr as [(-> & _ & _)|(Hij & Hr)].
      - exact (Hex j p Hi Hp).
      - exact (Hex j r Hr Hne). }
    destruct p as [| |c|w| |].
    + destruct (rate_limiter_lock s) as [h|] eqn:Hlock; [discriminate|].
      injection Hstep as <-. intros j r Hr Hne. simpl in *.
      apply list_lookup_insert_Some in Hr as [(-> & _ & _)|(Hij & Hr)]; [done|].
      pose proof (Hex j r Hr Hne). congruence.
    + injection Hstep as <-. by apply Hkeep.
    + case_bool_decide; injection Hstep as <-; by apply Hkeep.
    + case_bool_decide; [|discriminate]. injection Hstep as <-.
      by apply Hkeep.
    + injection Hstep as <-. by apply Hkeep.
    + injection Hstep as <-. intros j r Hr Hne. simpl in *.
      apply list_lookup_insert_Some in Hr as [(-> & <- & _)|(Hij & Hr)]; [done|].
      by rewrite (holder_alone s i j Stamped r) in Hne.
Qed.

Lemma excl_exec ls : forall s s',
  excl s -> exec REQUEST_DELAY eps ls s = Some s' -> excl s'.
Proof.
  induction ls as [|l ls IH]; intros s s' Hex Hrun; simpl in Hrun.
  - by injection Hrun as <-.
  - destruct (step REQUEST_DELAY eps l s) as [s1|] eqn:Hstep; [|discriminate].
    simpl in Hrun. eapply IH; [|exact Hrun]. by eapply excl_step.
Qed.

End Exclusion.

Section LimiterFacts.
Import RateLimiter.

Variable REQUEST_DELAY : Z.
Variable eps : Z.
Hypothesis eps_nonneg : 0 <= eps.

Local Abbreviation inv := (RateLimiter.inv REQUEST_DELAY eps).
Local Abbreviation chain := (RateLimiter.chain REQUEST_DELAY eps).
Local Abbreviation pc_ok := (RateLimiter.pc_ok REQUEST_DELAY eps).
Local Abbreviation inv_lock := (RateLimiter.inv_lock REQUEST_DELAY eps).
Local Abbreviation inv_pc := (RateLimiter.inv_pc REQUEST_DELAY eps).
Local Abbreviation inv_head := (RateLimiter.inv_head REQUEST_DELAY eps).
Local Abbreviation inv_chain := (RateLimiter.inv_chain REQUEST_DELAY eps).


Lemma inv_init n t0 : inv (init n t0).
Proof.
  split; simpl.
  - intros i p Hp Hne. apply lookup_replicate_1 in Hp as [-> _]. done.
  - intros i p Hp. apply lookup_replicate_1 in Hp as [-> _]. done.
  - intros g rest Hg. discriminate.
  - exact I.
Qed.

(** The other workers are idle while worker [i] is in the section. *)
Lemma others_idle s i j p q :
  inv s -> workers s !! i = Some p -> p <> Idle ->
  workers s !! j = Some q -> i <> j -> q = Idle.
Proof.
  intros Hinv Hi Hp Hj Hij.
  destruct (decide (q = Idle)) as [|Hq]; [done|].
  pose proof (inv_lock s Hinv i p Hi Hp) as E1.
  pose proof (inv_lock s Hinv j q Hj Hq) as E2.
  congruence.
Qed.

(** A step inside the section that leaves the clock, the stamp, the lock
    and the log alone keeps the invariant, if the new point is justified. *)
Lemma inv_set_pc s i p p' :
  inv s -> workers s !! i = Some p -> p <> Idle -> p' <> Idle ->
  pc_ok s p' -> inv (set_pc s i p').
Proof.
  intros Hinv Hi Hp Hp' Hok. split; simpl.
  - intros j q Hq Hne.
    apply list_lookup_insert_Some in Hq as [(-> & _ & _)|(Hij & Hq)].
    + exact (inv_lock s Hinv j p Hi Hp).
    + exact (inv_lock s Hinv j q Hq Hne).
  - intros j q Hq.
    apply list_lookup_insert_Some in Hq as [(-> & <- & _)|(Hij & Hq)].
    + destruct p'; exact Hok.
    + pose proof (inv_pc s Hinv j q Hq) as Hq'. destruct q; exact Hq'.
  - exact (inv_head s Hinv).
  - exact (inv_chain s Hinv).
Qed.

Lemma inv_step l s s' :
  steady l -> inv s -> step REQUEST_DELAY eps l s = Some s' -> inv s'.
Proof.
  intros Hl Hinv Hstep. destruct l as [d|d|i]; simpl in Hstep, Hl.
  - (* time passes *)
    case_bool_decide as Hd; [|discriminate]. injection Hstep as <-.
    split; simpl.
    + exact (inv_lock s Hinv).
    + intros j q Hq. pose proof (inv_pc s Hinv j q Hq) as Hq'.
      destruct q; simpl in *; lia.
    + intros g rest Hg. destruct (inv_head s Hinv g rest Hg). lia.
    + exact (inv_chain s Hinv).
  - (* the system clock is set forward *)
    injection Hstep as <-. split; simpl.
    + exact (inv_lock s Hinv).
    + intros j q Hq. pose proof (inv_pc s Hinv j q Hq) as Hq'.
      destruct q; simpl in *; lia.
    + intros g rest Hg. destruct (inv_head s Hinv g rest Hg). lia.
    + exact (inv_chain s Hinv).
  - destruct (workers s !! i) as [p|] eqn:Hi; simpl in Hstep; [|discriminate].
    pose proof (inv_pc s Hinv i p Hi) as Hok.
    destruct p as [| |c|w| |]; simpl in Hok.
    + (* taking the lock *)
      destruct (rate_limiter_lock s) as [h|] eqn:Hlock; [discriminate|].
      injection Hstep as <-. split; simpl.
      * intros j q Hq Hne.
        apply list_lookup_insert_Some in Hq as [(-> & _ & _)|(Hij & Hq)]; [done|].
        pose proof (inv_lock s Hinv j q Hq Hne). congruence.
      * intros j q Hq.
        apply list_lookup_insert_Some in Hq as [(-> & <- & _)|(Hij & Hq)]; [done|].
        pose proof (inv_pc s Hinv j q Hq) as Hq'. destruct q; exact Hq'.
      * exact (inv_head s Hinv).
      * exact (inv_chain s Hinv).
    + (* reading the clock *)
      injection Hstep as <-.
      apply (inv_set_pc s i Entered); [done..|]. simpl. lia.
    + (* the test of line 40 *)
      case_bool_decide as Hlt; injection Hstep as <-.
      * apply (inv_set_pc s i (Read c)); [done..|]. simpl. lia.
      * apply (inv_set_pc s i (Read c)); [done..|]. simpl. lia.
    + (* the sleep returns *)
      case_bool_decide as Hw; [|discriminate]. injection Hstep as <-.
      apply (inv_set_pc s i (Sleeping w)); [done..|]. simpl. lia.
    + (* line 43 *)
      injection Hstep as <-. split; simpl.
      * intros j q Hq Hne.
        apply list_lookup_insert_Some in Hq as [(-> & _ & _)|(Hij & Hq)].
        -- exact (inv_lock s Hinv j Awake Hi ltac:(done)).
        -- exact (inv_lock s Hinv j q Hq Hne).
      * intros j q Hq.
        apply list_lookup_insert_Some in Hq as [(-> & <- & _)|(Hij & Hq)]; [done|].
        rewrite (others_idle s i j Awake q); done.
      * intros g rest [= <- <-]. lia.
      * destruct (grants s) as [|g rest] eqn:Hg; [done|].
        destruct (inv_head s Hinv g rest Hg) as [-> Hle].
        pose proof (inv_chain s Hinv) as Hc. rewrite Hg in Hc.
        simpl. repeat split; [lia|lia|exact Hc].
    + (* leaving the block *)
      injection Hstep as <-. split; simpl.
      * intros j q Hq Hne.
        apply list_lookup_insert_Some in Hq as [(-> & <- & _)|(Hij & Hq)]; [done|].
        rewrite (others_idle s i j Stamped q) in Hne; done.
      * intros j q Hq.
        apply list_lookup_insert_Some in Hq as [(-> & <- & _)|(Hij & Hq)]; [done|].
        pose proof (inv_pc s Hinv j q Hq) as Hq'. destruct q; exact Hq'.
      * exact (inv_head s Hinv).
      * exact (inv_chain s Hinv).
Qed.

Lemma inv_exec ls : forall s s',
  Forall steady ls ->
  inv s -> exec REQUEST_DELAY eps ls s = Some s' -> inv s'.
Proof.
  induction ls as [|l ls IH]; intros s s' Hls Hinv Hrun; simpl in Hrun.
  - by injection Hrun as <-.
  - destruct (step REQUEST_DELAY eps l s) as [s1|] eqn:Hstep; [|discriminate].
    simpl in Hrun. apply Forall_cons in Hls as [Hl Hls].
    eapply IH; [exact Hls| |exact Hrun]. by eapply inv_step.
Qed.

Lemma chain_sorted gs : chain gs -> Sorted (flip Z.le) gs.
Proof.
  induction gs as [|b [|a gs'] IH]; intros Hc.
  - constructor.
  - repeat constructor.
  - destruct Hc as (Hab & _ & Hc). constructor; [by apply IH|].
    constructor. exact Hab.
Qed.

Lemma spaced_snoc l b :
  spaced REQUEST_DELAY eps l ->
  (forall a, last l = Some a -> a + (REQUEST_DELAY - eps) <= b) ->
  spaced REQUEST_DELAY eps (l ++ [b]).
Proof.
  induction l as [|x [|y l'] IH]; intros Hsp Hlast.
  - done.
  - simpl. split; [|done]. by apply Hlast.
  - destruct Hsp as [Hxy Hsp]. split; [exact Hxy|].
    apply IH; [exact Hsp|]. intros a Ha. by apply Hlast.
Qed.

(** The log read oldest first is spaced. *)
Lemma chain_spaced gs : chain gs -> spaced REQUEST_DELAY eps (reverse gs).
Proof.
  induction gs as [|b [|a gs'] IH]; intros Hc.
  - done.
  - done.
  - destruct Hc as (_ & Hgap & Hc). rewrite reverse_cons.
    apply spaced_snoc; [by apply IH|].
    intros a'. rewrite reverse_cons, last_snoc. by intros [= <-].
Qed.

(** Sorting the log gives the log in the order the grants were made. *)
Lemma sorted_grants gs : chain gs -> merge_sort Z.le gs = reverse gs.
Proof.
  intros Hc. apply (Sorted_unique Z.le).
  - apply (Sorted_merge_sort Z.le).
  - exact (Sorted_reverse (flip Z.le) gs (chain_sorted gs Hc)).
  - rewrite merge_sort_Permutation. symmetry. apply reverse_Permutation.
Qed.

(** No stamp is ahead of the clock. *)
Lemma inv_grants_past s : inv s -> Forall (fun g => g <= now s) (grants s).
Proof.
  intros Hinv. pose proof (inv_head s Hinv) as Hhead.
  pose proof (chain_sorted _ (inv_chain s Hinv)) as Hsorted.
  destruct (grants s) as [|g rest]; [constructor|].
  destruct (Hhead g rest eq_refl) as [_ Hg].
  apply Sorted_StronglySorted in Hsorted; [|intros x y z; unfold flip; lia].
  apply StronglySorted_inv in Hsorted as [_ Hall].
  constructor; [exact Hg|].
  eapply Forall_impl; [exact Hall|]. intros a Ha. unfold flip in Ha. lia.
Qed.

End LimiterFacts.

(* ===================================================================== *)
(** * Facts about strings *)
(* ===================================================================== *)

Section StringFacts.
Import PyStr.

Lemma append_cons a s t : String a s +:+ t = String a (s +:+ t).
Proof. reflexivity. Qed.

Lemma length_append s t :
  String.length (s +:+ t) = (String.length s + String.length t)%nat.
Proof.
  induction s as [|a s IH]; [done|].
  rewrite append_cons. simpl. by rewrite IH.
Qed.

Lemma length_take n s : (String.length (take n s) <= n)%nat.
Proof.
  revert s. induction n as [|n IH]; intros [|a s]; simpl; try lia.
  specialize (IH s). lia.
Qed.

Lemma startswith_append p s : startswith p (p +:+ s) = true.
Proof.
  induction p as [|a p IH]; [done|].
  rewrite append_cons. simpl. by rewrite Ascii.eqb_refl.
Qed.

Lemma has_scheme_https s : has_scheme ("https://" +:+ s) = true.
Proof.
  unfold has_scheme. rewrite (startswith_append "https://" s).
  apply orb_true_r.
Qed.

(** Prepending the scheme changes the text. *)
Lemma https_prefix_neq s : "https://" +:+ s <> s.
Proof.
  intros E. apply (f_equal String.length) in E.
  rewrite length_append in E. simpl in E. lia.
Qed.

Lemma is_empty_true s : is_empty s = true <-> s = "".
Proof. destruct s; simpl; split; congruence. Qed.

Lemma is_empty_append_https s : is_empty ("https://" +:+ s) = false.
Proof. reflexivity. Qed.

Lemma startswith_spec p s :
  startswith p s = true <-> exists t, s = p +:+ t.
Proof.
  revert s. induction p as [|a p IH]; intros s.
  - split; [intros _; by exists s|done].
  - destruct s as [|b s]; simpl.
    + split; [done|]. intros [t Ht]. rewrite append_cons in Ht. discriminate.
    + destruct (Ascii.eqb_spec a b) as [->|Hne].
      * rewrite IH. split; intros [t Ht]; exists t.
        -- rewrite append_cons. by rewrite Ht.
        -- rewrite append_cons in Ht. by injection Ht.
      * split; [done|]. intros [t Ht]. rewrite append_cons in Ht.
        injection Ht as Hb _. congruence.
Qed.

Lemma contains_spec p s :
  contains p s = true <-> exists a b, s = a +:+ p +:+ b.
Proof.
  induction s as [|c s IH].
  - simpl. rewrite orb_false_r, startswith_spec. split.
    + intros [t Ht]. by exists "", t.
    + intros ([|x a] & b & H); [by exists b|].
      rewrite append_cons in H. discriminate.
  - simpl. rewrite orb_true_iff, IH, startswith_spec. split.
    + intros [[t Ht]|(a & b & Hab)].
      * by exists "", t.
      * exists (String c a), b. rewrite append_cons. by rewrite Hab.
    + intros ([|x a] & b & H).
      * left. by exists b.
      * right. rewrite append_cons in H. injection H as _ H. by exists a, b.
Qed.

Lemma lower_append s t : lower (s +:+ t) = lower s +:+ lower t.
Proof.
  induction s as [|a s IH]; [done|].
  rewrite append_cons. simpl. rewrite append_cons. by rewrite IH.
Qed.

Lemma append_assoc s t u : (s +:+ t) +:+ u = s +:+ t +:+ u.
Proof.
  induction s as [|a s IH]; [done|].
  rewrite !append_cons. by rewrite IH.
Qed.

(** A text in which ["Connection refused"] occurs has ["refused"] in its
    lower-case form. *)
Lemma connection_refused_lower msg :
  contains "Connection refused" msg = true ->
  contains "refused" (lower msg) = true.
Proof.
  rewrite !contains_spec. intros (a & b & ->).
  exists (lower a +:+ "connection "), (lower b).
  rewrite !lower_append. change (lower "Connection refused")
    with ("connection " +:+ "refused").
  by rewrite !append_assoc.
Qed.

Lemma rstrip_idempotent s : rstrip (rstrip s) = rstrip s.
Proof.
  induction s as [|c s IH]; [done|]. simpl.
  destruct (rstrip s) as [|d r] eqn:Hr.
  - destruct (is_space c) eqn:Hc; [done|]. simpl. by rewrite Hc.
  - change (rstrip (String c (String d r))) with
      (match rstrip (String d r) with
       | "" => if is_space c then "" else String c ""
       | r' => String c r'
       end).
    by rewrite IH.
Qed.

Lemma lstrip_head s :
  lstrip s = "" \/ exists c t, lstrip s = String c t /\ is_space c = false.
Proof.
  induction s as [|c s IH]; [by left|]. simpl.
  destruct (is_space c) eqn:Hc; [exact IH|]. right. by exists c, s.
Qed.

Lemma rstrip_head c t :
  is_space c = false -> exists t', rstrip (String c t) = String c t'.
Proof.
  intros Hc. simpl. destruct (rstrip t) as [|d r].
  - rewrite Hc. by exists "".
  - by exists (String d r).
Qed.

(** Stripping a stripped text changes nothing. *)
Lemma strip_idempotent s : strip (strip s) = strip s.
Proof.
  unfold strip. destruct (lstrip_head s) as [->|(c & t & -> & Hc)]; [done|].
  destruct (rstrip_head c t Hc) as [t' Ht']. rewrite Ht'.
  simpl lstrip. rewrite Hc. rewrite <- Ht'. apply rstrip_idempotent.
Qed.

End StringFacts.

(* ===================================================================== *)
(** * What one prober call does *)
(* ===================================================================== *)

Section ProberRuns.
Import PyStr Requests Effects.


Lemma status_run_skipped net line :
  CheckUrlsStatus.skips line = true ->
  run net (CheckUrlsStatus.check_url line)
  = (CheckUrlsStatus.Result (strip line) "Skipped" (PStr "N/A")
       "Empty or header line" "N/A", []).
Proof.
  intros H. unfold CheckUrlsStatus.check_url, CheckUrlsStatus.skips in *.
  by rewrite H.
Qed.

Lemma status_run_probed net line :
  CheckUrlsStatus.skips line = false ->
  run net (CheckUrlsStatus.check_url line)
  = let o := CheckUrlsStatus.original line in
    let n := CheckUrlsStatus.target line in
    match net_dns net n with
    | GaiError m =>
        (CheckUrlsStatus.Result o "DNS Error" (PStr "N/A")
           (CheckUrlsStatus.or_default (Some ("DNS Error: " +:+ m))
              "DNS_PROBE_FINISHED_NXDOMAIN") "DNS Error",
         [EvRateLimit; EvDns n])
    | _ =>
        (match net_get net n with
         | Response code text => CheckUrlsStatus.classify_response o code text
         | Raised e => CheckUrlsStatus.classify_exception o e
         end,
         [EvRateLimit; EvDns n; EvGet n CheckUrlsStatus.TIMEOUT])
    end.
Proof.
  intros H. unfold CheckUrlsStatus.check_url, CheckUrlsStatus.skips in *.
  rewrite H. unfold CheckUrlsStatus.target, CheckUrlsStatus.original.
  unfold mbind, io_bind, CheckUrlsStatus.check_dns. simpl.
  destruct (net_dns net _); simpl; try done.
Qed.

(** When the DNS check does not fail, the request is made. *)
Lemma status_run_requested net line :
  CheckUrlsStatus.skips line = false ->
  (forall m, net_dns net (CheckUrlsStatus.target line) <> GaiError m) ->
  run net (CheckUrlsStatus.check_url line)
  = (match net_get net (CheckUrlsStatus.target line) with
     | Response code text =>
         CheckUrlsStatus.classify_response (CheckUrlsStatus.original line)
           code text
     | Raised e =>
         CheckUrlsStatus.classify_exception (CheckUrlsStatus.original line) e
     end,
     [EvRateLimit; EvDns (CheckUrlsStatus.target line);
      EvGet (CheckUrlsStatus.target line) CheckUrlsStatus.TIMEOUT]).
Proof.
  intros Hs Hdns. rewrite (status_run_probed net line Hs). cbv zeta.
  destruct (net_dns net (CheckUrlsStatus.target line)) as [|m|m];
    [done|by destruct (Hdns m)|done].
Qed.

Lemma kayako_normalized_nonempty line n :
  UrlChecker.normalize_url line = Some n -> is_empty n = false.
Proof.
  unfold UrlChecker.normalize_url.
  destruct (is_empty (strip line)) eqn:He; [discriminate|].
  destruct (UrlChecker.is_header (strip line)); [discriminate|].
  destruct (has_scheme (strip line)); simpl; intros [= <-]; done.
Qed.

Lemma kayako_run_skipped net line :
  UrlChecker.normalize_url line = None ->
  run net (UrlChecker.check_url line)
  = (UrlChecker.Result line "Skipped" (PStr "N/A") "Empty or header line", []).
Proof. intros H. unfold UrlChecker.check_url. by rewrite H. Qed.

Lemma kayako_run_probed net line n :
  UrlChecker.normalize_url line = Some n ->
  run net (UrlChecker.check_url line)
  = (match net_get net n with
     | Response code text => UrlChecker.classify_response line code text
     | Raised e => UrlChecker.classify_exception line e
     end,
     [EvRateLimit; EvGet n UrlChecker.TIMEOUT]).
Proof.
  intros H. unfold UrlChecker.check_url. rewrite H.
  rewrite (kayako_normalized_nonempty line n H). simpl.
  by destruct (net_get net n).
Qed.

Lemma retest_normalized_nonempty u n :
  RetestTimeouts.normalize_url u = Some n -> is_empty n = false.
Proof.
  unfold RetestTimeouts.normalize_url.
  destruct (is_empty (strip u)) eqn:He; [discriminate|].
  destruct (has_scheme (strip u)); simpl; intros [= <-]; done.
Qed.


Lemma retest_run_probed net u n :
  RetestTimeouts.normalize_url u = Some n ->
  run net (RetestTimeouts.check_url_with_retry u)
  = match net_head net n with
    | Response code _ => (RetestTimeouts.response_result u code, [EvHead n RetestTimeouts.TIMEOUT])
    | Raised e =>
        if isinstance e Timeout then
          (match net_get net n with
           | Response code _ => RetestTimeouts.response_result u code
           | Raised e' =>
               if isinstance e' Timeout then RetestTimeouts.timeout_result u
               else RetestTimeouts.classify_exception u e'
           end,
           [EvHead n RetestTimeouts.TIMEOUT; EvGet n RetestTimeouts.TIMEOUT])
        else
          (RetestTimeouts.classify_exception u e, [EvHead n RetestTimeouts.TIMEOUT])
    end.
Proof.
  intros H. unfold RetestTimeouts.check_url_with_retry. rewrite H.
  rewrite (retest_normalized_nonempty u n H). simpl.
  unfold RetestTimeouts.response_result.
  destruct (net_head net n) as [code text|e]; simpl.
  - by destruct ((200 <=? code) && (code <? 400)).
  - destruct (isinstance e Timeout); simpl; [|done].
    destruct (net_get net n) as [code text|e']; simpl.
    + by destruct ((200 <=? code) && (code <? 400)).
    + by destruct (isinstance e' Timeout).
Qed.

Lemma retest_run_empty net u :
  RetestTimeouts.normalize_url u = None ->
  run net (RetestTimeouts.check_url_with_retry u)
  = (RetestTimeouts.Result u "Inactive" (PStr "N/A") "Empty URL", []).
Proof. intros H. unfold RetestTimeouts.check_url_with_retry. by rewrite H. Qed.

End ProberRuns.

(* ===================================================================== *)
(** * The [except] clauses *)
(* ===================================================================== *)

Section ExceptionFacts.
Import PyStr Requests Effects.

(** The decision procedure for the handlers: split on every test. *)
Local Ltac split_tests :=
  repeat match goal with
         | |- context [if ?b then _ else _] => destruct b eqn:?; simpl
         end.

Lemma status_exception_kind o e :
  CheckUrlsStatus.status (CheckUrlsStatus.classify_exception o e)
  = Spec.exception_kind e.
Proof.
  unfold CheckUrlsStatus.classify_exception, Spec.exception_kind,
    Spec.timeout, Spec.tls_failure, Spec.connection_failure,
    Spec.too_many_redirects, Spec.request_layer,
    Spec.indicates_resolution_failure, Spec.indicates_refusal.
  destruct (isinstance e Timeout); [done|].
  destruct (isinstance e SSLError); [done|].
  destruct (isinstance e ConnectionError); simpl.
  - destruct (contains "name or service not known" (lower (exn_str e))
              || contains "nodename nor servname" (lower (exn_str e))); [done|].
    by destruct (contains "refused" (lower (exn_str e))).
  - destruct (isinstance e TooManyRedirects); [done|].
    by destruct (isinstance e RequestException).
Qed.

Lemma status_exception_type o e :
  CheckUrlsStatus.error_type (CheckUrlsStatus.classify_exception o e)
  = (if String.eqb (Spec.exception_kind e) "Connection Refused"
     then "Connection Error" else Spec.exception_kind e).
Proof.
  unfold CheckUrlsStatus.classify_exception, Spec.exception_kind,
    Spec.timeout, Spec.tls_failure, Spec.connection_failure,
    Spec.too_many_redirects, Spec.request_layer,
    Spec.indicates_resolution_failure, Spec.indicates_refusal.
  destruct (isinstance e Timeout); [done|].
  destruct (isinstance e SSLError); [done|].
  destruct (isinstance e ConnectionError); simpl.
  - destruct (contains "name or service not known" (lower (exn_str e))
              || contains "nodename nor servname" (lower (exn_str e))); [done|].
    by destruct (contains "refused" (lower (exn_str e))).
  - destruct (isinstance e TooManyRedirects); [done|].
    by destruct (isinstance e RequestException).
Qed.

Lemma status_exception_message o e :
  (String.length
     (CheckUrlsStatus.error_message (CheckUrlsStatus.classify_exception o e))
   <= 150)%nat.
Proof.
  pose proof (length_take 100 (exn_str e)).
  pose proof (length_take 150 (exn_str e)).
  unfold CheckUrlsStatus.classify_exception.
  remember (take 100 (exn_str e)) as t100.
  remember (take 150 (exn_str e)) as t150.
  split_tests; rewrite ?length_append; simpl; lia.
Qed.

Lemma kayako_exception_kind o e :
  UrlChecker.status (UrlChecker.classify_exception o e) = "Inactive"
  /\ UrlChecker.http_code (UrlChecker.classify_exception o e)
     = PStr (Spec.kayako_exception_kind e).
Proof.
  unfold UrlChecker.classify_exception, Spec.kayako_exception_kind,
    Spec.timeout, Spec.connection_failure, Spec.too_many_redirects,
    Spec.request_layer, Spec.mentions_tls, Spec.names_resolution_failure.
  destruct (isinstance e Timeout); [done|].
  destruct (isinstance e ConnectionError); simpl.
  - destruct (contains "SSL" (exn_str e)
              || contains "certificate" (lower (exn_str e))); [done|].
    by destruct (contains "Name or service not known" (exn_str e)
                 || contains "nodename nor servname" (exn_str e)).
  - destruct (isinstance e TooManyRedirects); [done|].
    by destruct (isinstance e RequestException).
Qed.

Lemma kayako_exception_message o e :
  (String.length
     (UrlChecker.error_message (UrlChecker.classify_exception o e)) <= 100)%nat.
Proof.
  pose proof (length_take 100 (exn_str e)).
  unfold UrlChecker.classify_exception.
  remember (take 100 (exn_str e)) as t100.
  split_tests; lia.
Qed.

(** [SSLError] is a [ConnectionError]: in [retest_timeouts.py] its own
    clause comes after the clause for [ConnectionError] and never runs. *)
Lemma ssl_error_is_connection_error e :
  isinstance e SSLError = true -> isinstance e ConnectionError = true.
Proof. destruct e as [[] msg]; done. Qed.

Lemma retest_exception_kind o e :
  isinstance e Timeout = false ->
  RetestTimeouts.status (RetestTimeouts.classify_exception o e) = "Inactive"
  /\ RetestTimeouts.http_code (RetestTimeouts.classify_exception o e)
     = PStr (Spec.retest_exception_kind e).
Proof.
  intros Ht.
  unfold RetestTimeouts.classify_exception, Spec.retest_exception_kind,
    Spec.timeout, Spec.connection_failure, Spec.too_many_redirects,
    Spec.request_layer, Spec.mentions_tls, Spec.names_resolution_failure,
    Spec.indicates_refusal.
  rewrite Ht.
  destruct (isinstance e ConnectionError) eqn:Hc; simpl.
  - destruct (contains "SSL" (exn_str e)
              || contains "certificate" (lower (exn_str e))); [done|].
    destruct (contains "Name or service not known" (exn_str e)
              || contains "nodename nor servname" (exn_str e)); [done|].
    destruct (contains "refused" (lower (exn_str e))) eqn:Hl.
    + by rewrite orb_true_r.
    + rewrite orb_false_r.
      destruct (contains "Connection refused" (exn_str e)) eqn:Hr; [|done].
      apply connection_refused_lower in Hr. congruence.
  - destruct (isinstance e TooManyRedirects); [done|].
    destruct (isinstance e SSLError) eqn:Hs.
    { apply ssl_error_is_connection_error in Hs. congruence. }
    by destruct (isinstance e RequestException).
Qed.

Lemma retest_exception_message o e :
  (String.length
     (RetestTimeouts.error_message (RetestTimeouts.classify_exception o e))
   <= 111)%nat.
Proof.
  pose proof (length_take 100 (exn_str e)).
  unfold RetestTimeouts.classify_exception.
  remember (take 100 (exn_str e)) as t100.
  split_tests; rewrite ?length_append; simpl; lia.
Qed.

End ExceptionFacts.

(* ===================================================================== *)
(** * Every record is a classified one *)
(* ===================================================================== *)

Section Taxonomy.
Import PyStr Requests Effects.

Local Ltac listed := apply (bool_decide_unpack _); by vm_compute.

Lemma exception_kind_listed e : Spec.exception_kind e ∈ Spec.status_taxonomy.
Proof.
  unfold Spec.exception_kind.
  repeat match goal with
         | |- context [if ?b then _ else _] => destruct b
         end; listed.
Qed.

Lemma status_response_listed o code text :
  CheckUrlsStatus.status (CheckUrlsStatus.classify_response o code text)
    ∈ Spec.status_taxonomy
  \/ CheckUrlsStatus.status (CheckUrlsStatus.classify_response o code text)
     = "HTTP " +:+ pretty code.
Proof.
  unfold CheckUrlsStatus.classify_response.
  repeat match goal with
         | |- context [if ?b then _ else _] => destruct b
         end; simpl; first [by right | left; listed].
Qed.

Lemma status_listed net line :
  let r := result_of net (CheckUrlsStatus.check_url line) in
  CheckUrlsStatus.status r ∈ Spec.status_taxonomy
  \/ exists code : Z, CheckUrlsStatus.status r = "HTTP " +:+ pretty code.
Proof.
  unfold result_of. destruct (CheckUrlsStatus.skips line) eqn:Hs.
  - rewrite (status_run_skipped net line Hs). left. listed.
  - rewrite (status_run_probed net line Hs). cbv zeta.
    assert (Hget :
      let r := match net_get net (CheckUrlsStatus.target line) with
               | Response code text =>
                   CheckUrlsStatus.classify_response
                     (CheckUrlsStatus.original line) code text
               | Raised e =>
                   CheckUrlsStatus.classify_exception
                     (CheckUrlsStatus.original line) e
               end in
      CheckUrlsStatus.status r ∈ Spec.status_taxonomy
      \/ exists code : Z, CheckUrlsStatus.status r = "HTTP " +:+ pretty code).
    { cbv zeta.
      destruct (net_get net (CheckUrlsStatus.target line)) as [code text|e].
      - destruct (status_response_listed
                    (CheckUrlsStatus.original line) code text);
          [by left | right; by exists code].
      - left. rewrite status_exception_kind. apply exception_kind_listed. }
    destruct (net_dns net (CheckUrlsStatus.target line)) as [|m|m];
      cbn [fst CheckUrlsStatus.status]; [exact Hget| |exact Hget].
    left. listed.
Qed.

Lemma kayako_listed net line :
  UrlChecker.status (result_of net (UrlChecker.check_url line))
    ∈ Spec.kayako_taxonomy.
Proof.
  unfold result_of. destruct (UrlChecker.normalize_url line) as [n|] eqn:Hn.
  - rewrite (kayako_run_probed net line n Hn).
    destruct (net_get net n) as [code text|e]; simpl.
    + unfold UrlChecker.classify_response.
      repeat match goal with
             | |- context [if ?b then _ else _] => destruct b
             end; listed.
    + destruct (kayako_exception_kind line e) as [-> _]. listed.
  - rewrite (kayako_run_skipped net line Hn). listed.
Qed.

Lemma retest_listed net u :
  RetestTimeouts.status (result_of net (RetestTimeouts.check_url_with_retry u))
    ∈ Spec.retest_taxonomy.
Proof.
  assert (Hresp : forall code,
    RetestTimeouts.status (RetestTimeouts.response_result u code)
      ∈ Spec.retest_taxonomy).
  { intros code. unfold RetestTimeouts.response_result.
    destruct ((200 <=? code) && (code <? 400)); listed. }
  assert (Hexc : forall e,
    RetestTimeouts.status (RetestTimeouts.classify_exception u e)
      ∈ Spec.retest_taxonomy).
  { intros e. unfold RetestTimeouts.classify_exception.
    repeat match goal with
           | |- context [if ?b then _ else _] => destruct b
           end; listed. }
  unfold result_of. destruct (RetestTimeouts.normalize_url u) as [n|] eqn:Hn.
  - rewrite (retest_run_probed net u n Hn).
    destruct (net_head net n) as [code text|e]; simpl; [apply Hresp|].
    destruct (isinstance e Timeout); simpl; [|apply Hexc].
    destruct (net_get net n) as [code text|e']; simpl; [apply Hresp|].
    destruct (isinstance e' Timeout); [listed|apply Hexc].
  - rewrite (retest_run_empty net u Hn). listed.
Qed.

End Taxonomy.

(* ===================================================================== *)
(** * The claims *)
(* ===================================================================== *)




(** C2, as amended.  Every prober returns one record whose status is a
    listed one, whatever the network does.  When the HTTP request raises:
    [check_urls_status.check_url] gives the record the status of the
    specification's precedence (timeout, TLS failure, connection failure
    by message, too many redirects, other request-layer, other) and a
    message of at most 150 characters; [url_checker.check_url] gives it
    status ["Inactive"] and puts the kind in the HTTP-code field, where a
    connection failure is an SSL Error when its message mentions SSL or a
    certificate, else a DNS Error when it names the resolver's error, else
    a Connection Error (refusals included), with a message of at most 100
    characters; [check_url_with_retry] does the same for the attempt that
    decides (HEAD unless it timed out, else GET), with a kind for
    refusals. *)
Theorem prober_exception_classification
    (net : Effects.network) (line : string) (e : Requests.exn) :
  (* every record is classified *)
  ((CheckUrlsStatus.status (Effects.result_of net (CheckUrlsStatus.check_url line))
      ∈ Spec.status_taxonomy
    \/ exists code : Z,
        CheckUrlsStatus.status (Effects.result_of net (CheckUrlsStatus.check_url line))
        = "HTTP " +:+ pretty code)
   /\ UrlChecker.status (Effects.result_of net (UrlChecker.check_url line))
        ∈ Spec.kayako_taxonomy
   /\ RetestTimeouts.status
        (Effects.result_of net (RetestTimeouts.check_url_with_retry line))
        ∈ Spec.retest_taxonomy)
  /\ (* check_urls_status.py *)
  (CheckUrlsStatus.skips line = false ->
   (forall m, Effects.net_dns net (CheckUrlsStatus.target line)
              <> Effects.GaiError m) ->
   Effects.net_get net (CheckUrlsStatus.target line) = Requests.Raised e ->
   let r := Effects.result_of net (CheckUrlsStatus.check_url line) in
   CheckUrlsStatus.status r = Spec.exception_kind e
   /\ (String.length (CheckUrlsStatus.error_message r) <= 150)%nat)
  /\ (* url_checker.py *)
  (forall n, UrlChecker.normalize_url line = Some n ->
   Effects.net_get net n = Requests.Raised e ->
   let r := Effects.result_of net (UrlChecker.check_url line) in
   UrlChecker.status r = "Inactive"
   /\ UrlChecker.http_code r = PStr (Spec.kayako_exception_kind e)
   /\ (String.length (UrlChecker.error_message r) <= 100)%nat)
  /\ (* retest_timeouts.py *)
  (forall n, RetestTimeouts.normalize_url line = Some n ->
   (Effects.net_head net n = Requests.Raised e
    /\ Requests.isinstance e Requests.Timeout = false)
   \/ (exists e0, Effects.net_head net n = Requests.Raised e0
       /\ Requests.isinstance e0 Requests.Timeout = true
       /\ Effects.net_get net n = Requests.Raised e) ->
   let r := Effects.result_of net (RetestTimeouts.check_url_with_retry line) in
   RetestTimeouts.status r = "Inactive"
   /\ RetestTimeouts.http_code r = PStr (Spec.retest_exception_kind e)
   /\ (String.length (RetestTimeouts.error_message r) <= 111)%nat).
Proof.
  split; [|split; [|split]].
  - split; [apply status_listed|split; [apply kayako_listed|apply retest_listed]].
  - intros Hs Hdns Hget r. subst r. unfold Effects.result_of.
    rewrite (status_run_requested net line Hs Hdns), Hget. simpl.
    split; [apply status_exception_kind|apply status_exception_message].
  - intros n Hn Hget r. subst r. unfold Effects.result_of.
    rewrite (kayako_run_probed net line n Hn), Hget. simpl.
    destruct (kayako_exception_kind line e) as [H1 H2].
    split; [exact H1|split; [exact H2|apply kayako_exception_message]].
  - intros n Hn Hcase r. subst r. unfold Effects.result_of.
    rewrite (retest_run_probed net line n Hn).
    destruct Hcase as [[Hh Ht]|(e0 & Hh & Ht0 & Hg)]; rewrite Hh.
    + rewrite Ht. simpl.
      destruct (retest_exception_kind line e Ht) as [H1 H2].
      split; [exact H1|split; [exact H2|apply retest_exception_message]].
    + rewrite Ht0, Hg. simpl.
      destruct (Requests.isinstance e Requests.Timeout) eqn:Ht.
      * unfold Spec.retest_exception_kind, Spec.timeout. rewrite Ht.
        repeat split. simpl. lia.
      * destruct (retest_exception_kind line e Ht) as [H1 H2].
        split; [exact H1|split; [exact H2|apply retest_exception_message]].
Qed.

(** C2 fails as stated on [url_checker.py]: for a refused connection the
    precedence of the claim gives Connection Refused, but the record has
    status ["Inactive"] and kind ["Connection Error"]. *)
Lemma prober_exception_classification_counterexample :
  Spec.exception_kind Samples.refused = "Connection Refused"
  /\ Effects.result_of (Samples.answering (Requests.Raised Samples.refused))
       (UrlChecker.check_url "example.com")
     = UrlChecker.Result "example.com" "Inactive" (PStr "Connection Error")
         "Connection failed".
Proof. split; reflexivity. Qed.

Lemma prober_exception_classification_witness :
  (CheckUrlsStatus.status
     (Effects.result_of (Samples.answering (Requests.Raised Samples.refused))
        (CheckUrlsStatus.check_url "example.com"))
   = Spec.exception_kind Samples.refused
   /\ (String.length
         (CheckUrlsStatus.error_message
            (Effects.result_of
               (Samples.answering (Requests.Raised Samples.refused))
               (CheckUrlsStatus.check_url "example.com"))) <= 150)%nat)
  /\ UrlChecker.http_code
       (Effects.result_of (Samples.answering (Requests.Raised Samples.refused))
          (UrlChecker.check_url "example.com"))
     = PStr (Spec.kayako_exception_kind Samples.refused)
  /\ RetestTimeouts.http_code
       (Effects.result_of
          (Samples.head_then_get (Requests.Raised Samples.read_timed_out)
             (Requests.Raised Samples.refused))
          (RetestTimeouts.check_url_with_retry "example.com"))
     = PStr (Spec.retest_exception_kind Samples.refused).
Proof.
  split; [|split].
  - apply (proj1 (proj2 (prober_exception_classification
             (Samples.answering (Requests.Raised Samples.refused))
             "example.com" Samples.refused))).
    + reflexivity.
    + intros m. discriminate.
    + reflexivity.
  - apply (proj1 (proj2 (proj2 (prober_exception_classification
             (Samples.answering (Requests.Raised Samples.refused))
             "example.com" Samples.refused))) "https://example.com").
    + reflexivity.
    + reflexivity.
  - apply (proj2 (proj2 (proj2 (prober_exception_classification
             (Samples.head_then_get (Requests.Raised Samples.read_timed_out)
                (Requests.Raised Samples.refused))
             "example.com" Samples.refused))) "https://example.com").
    + reflexivity.
    + right. exists Samples.read_timed_out. repeat split.
Defined.

(** C3, as amended.  In [check_urls_status.check_url] a response whose
    body holds the "Oops" text, compared without regard to case, gives an
    Error Page record with that text as message, and otherwise one whose
    body holds "site can't be reached" gives a Site Unreachable record,
    whatever the status code.  In [url_checker.check_url] the Kayako text
    is looked for only when the code is in 200..399 and then gives an
    Instance unavailable record with that text as message; with any other
    code the record is Inactive with message "HTTP <code>", whatever the
    body. *)
Theorem error_page_markers
    (net : Effects.network) (line : string) (code : Z) (text : string) :
  (CheckUrlsStatus.skips line = false ->
   (forall m, Effects.net_dns net (CheckUrlsStatus.target line)
              <> Effects.GaiError m) ->
   Effects.net_get net (CheckUrlsStatus.target line)
     = Requests.Response code text ->
   let r := Effects.result_of net (CheckUrlsStatus.check_url line) in
   (Spec.has_marker CheckUrlsStatus.ERROR_MESSAGE_OOPS text = true ->
    r = CheckUrlsStatus.Result (CheckUrlsStatus.original line) "Error Page"
          (PInt code) CheckUrlsStatus.ERROR_MESSAGE_OOPS "Application Error")
   /\ (Spec.has_marker CheckUrlsStatus.ERROR_MESSAGE_OOPS text = false ->
       Spec.has_marker Spec.SITE_UNREACHABLE text = true ->
       r = CheckUrlsStatus.Result (CheckUrlsStatus.original line)
             "Site Unreachable" (PInt code) "Site can't be reached"
             "Connection Error"))
  /\ (forall n, UrlChecker.normalize_url line = Some n ->
      Effects.net_get net n = Requests.Response code text ->
      let r := Effects.result_of net (UrlChecker.check_url line) in
      (200 <= code < 400 ->
       Spec.has_marker UrlChecker.KAYAKO_ERROR_MESSAGE text = true ->
       r = UrlChecker.Result line "Instance unavailable" (PInt code)
             UrlChecker.KAYAKO_ERROR_MESSAGE)
      /\ (~ 200 <= code < 400 ->
          r = UrlChecker.Result line "Inactive" (PInt code)
                ("HTTP " +:+ pretty code))).
Proof.
  split.
  - intros Hs Hdns Hget r. subst r. unfold Effects.result_of.
    rewrite (status_run_requested net line Hs Hdns), Hget. simpl.
    unfold CheckUrlsStatus.classify_response, Spec.has_marker.
    split.
    + intros ->. done.
    + intros -> Hsite.
      change (PyStr.lower Spec.SITE_UNREACHABLE)
        with "site can't be reached" in Hsite.
      rewrite Hsite, orb_true_r. done.
  - intros n Hn Hget r. subst r. unfold Effects.result_of.
    rewrite (kayako_run_probed net line n Hn), Hget. simpl.
    unfold UrlChecker.classify_response, Spec.has_marker. split.
    + intros [H1 H2] ->.
      by rewrite (proj2 (Z.leb_le 200 code) H1), (proj2 (Z.ltb_lt code 400) H2).
    + intros Hout.
      destruct ((200 <=? code) && (code <? 400)) eqn:Hc; [|done].
      apply andb_true_iff in Hc as [H1%Z.leb_le H2%Z.ltb_lt]. lia.
Qed.

(** C3 fails as stated on [url_checker.py]: a 500 response whose body
    holds the Kayako text is recorded as Inactive, "HTTP 500". *)
Lemma error_page_markers_counterexample :
  Spec.has_marker UrlChecker.KAYAKO_ERROR_MESSAGE
    ("<h1>" +:+ UrlChecker.KAYAKO_ERROR_MESSAGE +:+ "</h1>") = true
  /\ Effects.result_of
       (Samples.answering
          (Requests.Response 500
             ("<h1>" +:+ UrlChecker.KAYAKO_ERROR_MESSAGE +:+ "</h1>")))
       (UrlChecker.check_url "example.com")
     = UrlChecker.Result "example.com" "Inactive" (PInt 500) "HTTP 500".
Proof. split; reflexivity. Qed.

Lemma error_page_markers_witness :
  Effects.result_of
    (Samples.answering
       (Requests.Response 503 ("OOPS, SOMETHING HAS GONE WRONG. PLEASE TRY "
          +:+ "AGAIN LATER WHILE WE TRY AND FIX THIS.")))
    (CheckUrlsStatus.check_url "example.com")
  = CheckUrlsStatus.Result "example.com" "Error Page" (PInt 503)
      CheckUrlsStatus.ERROR_MESSAGE_OOPS "Application Error"
  /\ Effects.result_of
       (Samples.answering
          (Requests.Response 200 UrlChecker.KAYAKO_ERROR_MESSAGE))
       (UrlChecker.check_url "example.com")
     = UrlChecker.Result "example.com" "Instance unavailable" (PInt 200)
         UrlChecker.KAYAKO_ERROR_MESSAGE.
Proof.
  split.
  - apply (proj1 (proj1 (error_page_markers
      (Samples.answering
         (Requests.Response 503 ("OOPS, SOMETHING HAS GONE WRONG. PLEASE TRY "
            +:+ "AGAIN LATER WHILE WE TRY AND FIX THIS.")))
      "example.com" 503
      ("OOPS, SOMETHING HAS GONE WRONG. PLEASE TRY "
         +:+ "AGAIN LATER WHILE WE TRY AND FIX THIS."))
      ltac:(reflexivity) ltac:(intros m; discriminate) ltac:(reflexivity))).
    reflexivity.
  - apply (proj1 (proj2 (error_page_markers
      (Samples.answering
         (Requests.Response 200 UrlChecker.KAYAKO_ERROR_MESSAGE))
      "example.com" 200 UrlChecker.KAYAKO_ERROR_MESSAGE)
      "https://example.com" ltac:(reflexivity) ltac:(reflexivity))).
    + lia.
    + reflexivity.
Defined.

(* ===================================================================== *)
(** * Further properties: the input file and the lines skipped *)
(* ===================================================================== *)

Section InputFacts.
Import PyStr Requests Effects.

Lemma status_urls_spec lines u :
  u ∈ CheckUrlsStatus.read_urls_from_file lines
  <-> exists line, line ∈ lines /\ u = strip line
                   /\ is_empty u = false /\ lower u <> "url".
Proof.
  unfold CheckUrlsStatus.read_urls_from_file.
  rewrite list_elem_of_In, filter_In, in_map_iff, andb_true_iff,
    !negb_true_iff, String.eqb_neq.
  split.
  - intros [(line & <- & Hin) [He Hu]]. exists line.
    by rewrite list_elem_of_In.
  - intros (line & Hin & -> & He & Hu). split; [|done].
    exists line. by rewrite <- list_elem_of_In.
Qed.

Lemma kayako_urls_spec lines u :
  u ∈ UrlChecker.read_urls_from_file lines ->
  exists line, line ∈ lines /\ u = strip line /\ is_empty u = false.
Proof.
  unfold UrlChecker.read_urls_from_file.
  rewrite list_elem_of_In, filter_In, in_map_iff, negb_true_iff.
  intros [(line & <- & Hin) He]. exists line. split; [|done].
  apply list_elem_of_In in Hin.
  destruct lines as [|first rest]; [done|].
  destruct (UrlChecker.is_header (strip first)); [|done].
  by apply list_elem_of_further.
Qed.

(** A line that is not skipped gets a status other than Skipped. *)
Lemma status_probed_not_skipped net line :
  CheckUrlsStatus.skips line = false ->
  CheckUrlsStatus.status (result_of net (CheckUrlsStatus.check_url line))
  <> "Skipped".
Proof.
  intros Hs. unfold result_of. rewrite (status_run_probed net line Hs).
  cbv zeta.
  assert (Hget :
    CheckUrlsStatus.status
      match net_get net (CheckUrlsStatus.target line) with
      | Response code text =>
          CheckUrlsStatus.classify_response (CheckUrlsStatus.original line)
            code text
      | Raised e =>
          CheckUrlsStatus.classify_exception (CheckUrlsStatus.original line) e
      end <> "Skipped").
  { destruct (net_get net (CheckUrlsStatus.target line)) as [code text|e].
    - unfold CheckUrlsStatus.classify_response.
      repeat match goal with
             | |- context [if ?b then _ else _] => destruct b
             end; cbn [CheckUrlsStatus.status]; rewrite ?append_cons;
        discriminate.
    - rewrite status_exception_kind. unfold Spec.exception_kind.
      repeat match goal with
             | |- context [if ?b then _ else _] => destruct b
             end; discriminate. }
  destruct (net_dns net (CheckUrlsStatus.target line));
    cbn [fst CheckUrlsStatus.status]; [exact Hget|discriminate|exact Hget].
Qed.

Lemma status_kept_not_skipped lines u :
  u ∈ CheckUrlsStatus.read_urls_from_file lines ->
  CheckUrlsStatus.skips u = false.
Proof.
  intros (line & _ & -> & He & Hu)%status_urls_spec.
  unfold CheckUrlsStatus.skips. rewrite strip_idempotent, He. simpl.
  by apply String.eqb_neq.
Qed.

End InputFacts.

(** X1. In a run of [check_urls_status.py] no record is a Skipped one:
    [read_urls_from_file] has already dropped every line on which
    [check_url] would return at line 70, so each task acquires the rate
    limiter and the output holds no Skipped row. *)
Theorem status_run_never_skips
    (nets : list Effects.network) (lines : list string)
    (results : list CheckUrlsStatus.result) (r : CheckUrlsStatus.result) :
  CheckUrlsStatus.completes nets lines results ->
  r ∈ results ->
  CheckUrlsStatus.status r <> "Skipped".
Proof.
  intros [_ Hperm] Hr. rewrite Hperm in Hr.
  apply elem_of_zip_with in Hr as (net & u & -> & _ & Hu).
  apply status_probed_not_skipped.
  by apply (status_kept_not_skipped lines).
Qed.

Lemma status_run_never_skips_witness :
  CheckUrlsStatus.status
    (CheckUrlsStatus.Result "example.com" "Working" (PInt 200) "" "Success")
  <> "Skipped".
Proof.
  apply (status_run_never_skips [Samples.answering Samples.ok]
           ["URL" +:+ Samples.nl; Samples.nl; "example.com" +:+ Samples.nl]
           [CheckUrlsStatus.Result "example.com" "Working" (PInt 200) ""
              "Success"]).
  - split; reflexivity.
  - apply list_elem_of_here.
Defined.

Section CountFacts.
Import PyStr Requests Effects.

Lemma filter_length_lt {A} (f : A -> bool) (l : list A) (x : A) :
  In x l -> f x = false -> (length (List.filter f l) < length l)%nat.
Proof.
  induction l as [|a l IH]; [done|]. intros [->|Hin] Hx; simpl.
  - rewrite Hx. pose proof (filter_length_le f l). lia.
  - specialize (IH Hin Hx). destruct (f a); simpl; lia.
Qed.

Lemma kayako_url_field net line :
  UrlChecker.url (result_of net (UrlChecker.check_url line)) = line.
Proof.
  unfold result_of. destruct (UrlChecker.normalize_url line) as [n|] eqn:Hn.
  - rewrite (kayako_run_probed net line n Hn). cbn [fst].
    destruct (net_get net n) as [code text|e].
    + unfold UrlChecker.classify_response.
      repeat match goal with
             | |- context [if ?b then _ else _] => destruct b
             end; done.
    + unfold UrlChecker.classify_exception.
      repeat match goal with
             | |- context [if ?b then _ else _] => destruct b
             end; done.
  - by rewrite (kayako_run_skipped net line Hn).
Qed.

Lemma kayako_probed_not_skipped net line n :
  UrlChecker.normalize_url line = Some n ->
  UrlChecker.status (result_of net (UrlChecker.check_url line)) <> "Skipped".
Proof.
  intros Hn. unfold result_of. rewrite (kayako_run_probed net line n Hn).
  cbn [fst]. destruct (net_get net n) as [code text|e].
  - unfold UrlChecker.classify_response.
    repeat match goal with
           | |- context [if ?b then _ else _] => destruct b
           end; discriminate.
  - destruct (kayako_exception_kind line e) as [-> _]. discriminate.
Qed.

End CountFacts.

(** X2. [check_urls_status.py] writes one data row per line that
    [read_urls_from_file] keeps, never more rows than the file has lines,
    and strictly fewer as soon as one line is empty or is the header
    ["url"] (in any case of the letters) once stripped. *)
Theorem status_rows_written
    (nets : list Effects.network) (lines : list string)
    (results : list CheckUrlsStatus.result) :
  CheckUrlsStatus.completes nets lines results ->
  length (CheckUrlsStatus.main results).2
  = length (CheckUrlsStatus.read_urls_from_file lines)
  /\ (length (CheckUrlsStatus.main results).2 <= length lines)%nat
  /\ (forall line, line ∈ lines -> CheckUrlsStatus.skips line = true ->
      (length (CheckUrlsStatus.main results).2 < length lines)%nat).
Proof.
  intros [Hlen Hperm]. cbn [CheckUrlsStatus.main snd].
  assert (Hrows : length (CheckUrlsStatus.to_row <$> results)
                  = length (CheckUrlsStatus.read_urls_from_file lines)).
  { rewrite length_fmap, Hperm. unfold CheckUrlsStatus.submitted.
    rewrite length_zip_with_l_eq by done. exact Hlen. }
  rewrite Hrows.
  unfold CheckUrlsStatus.read_urls_from_file. split; [done|split].
  - etrans; [apply filter_length_le|]. by rewrite length_map.
  - intros line Hin Hskip.
    rewrite <- (length_map PyStr.strip lines).
    apply (filter_length_lt _ _ (PyStr.strip line)).
    + apply in_map. by apply list_elem_of_In.
    + unfold CheckUrlsStatus.skips in Hskip.
      apply orb_true_iff in Hskip as [->| ->]; [done|].
      by rewrite andb_false_r.
Qed.

Lemma status_rows_written_witness :
  (length (CheckUrlsStatus.main
             [CheckUrlsStatus.Result "example.com" "Working" (PInt 200) ""
                "Success"]).2 < 3)%nat.
Proof.
  apply (proj2 (proj2 (status_rows_written [Samples.answering Samples.ok]
           ["URL" +:+ Samples.nl; Samples.nl; "example.com" +:+ Samples.nl]
           [CheckUrlsStatus.Result "example.com" "Working" (PInt 200) ""
              "Success"] ltac:(split; reflexivity))) Samples.nl).
  - apply list_elem_of_further, list_elem_of_here.
  - reflexivity.
Defined.

(** X3. [url_checker.py] writes one data row per line that its
    [read_urls_from_file] keeps; a record of the run is a Skipped one
    exactly when its line, stripped, is one of the header words, which can
    only be a line after the first; and its URL cell is the stripped line
    as it stands. *)
Theorem kayako_rows_written
    (nets : list Effects.network) (lines : list string)
    (results : list UrlChecker.result) :
  UrlChecker.completes nets lines results ->
  length (UrlChecker.main results).2
  = length (UrlChecker.read_urls_from_file lines)
  /\ (length (UrlChecker.main results).2 <= length lines)%nat
  /\ (forall r, r ∈ results ->
      (exists line, line ∈ lines /\ UrlChecker.url r = PyStr.strip line)
      /\ (UrlChecker.status r = "Skipped"
          <-> UrlChecker.is_header (UrlChecker.url r) = true)).
Proof.
  intros [Hlen Hperm]. cbn [UrlChecker.main snd].
  assert (Hrows : length (UrlChecker.to_row <$> results)
                  = length (UrlChecker.read_urls_from_file lines)).
  { rewrite length_fmap, Hperm. unfold UrlChecker.submitted.
    rewrite length_zip_with_l_eq by done. exact Hlen. }
  rewrite Hrows. split; [done|split].
  - unfold UrlChecker.read_urls_from_file.
    etrans; [apply filter_length_le|]. rewrite length_map, length_drop. lia.
  - intros r Hr. rewrite Hperm in Hr.
    apply elem_of_zip_with in Hr as (net & u & -> & _ & Hu).
    rewrite kayako_url_field.
    destruct (kayako_urls_spec lines u Hu) as (line & Hin & -> & He).
    split; [by exists line|].
    destruct (UrlChecker.normalize_url (PyStr.strip line)) as [n|] eqn:Hn.
    + split.
      * intros Hs. by destruct (kayako_probed_not_skipped net _ n Hn).
      * intros Hh. unfold UrlChecker.normalize_url in Hn.
        rewrite strip_idempotent, He, Hh in Hn. discriminate.
    + unfold Effects.result_of. rewrite (kayako_run_skipped net _ Hn).
      split; [|done]. intros _. unfold UrlChecker.normalize_url in Hn.
      rewrite strip_idempotent, He in Hn.
      destruct (UrlChecker.is_header (PyStr.strip line)); [done|].
      by destruct (PyStr.has_scheme (PyStr.strip line)).
Qed.

Lemma kayako_rows_written_witness :
  length (UrlChecker.main
            (UrlChecker.submitted
               [Samples.answering Samples.ok; Samples.answering Samples.ok;
                Samples.answering Samples.ok]
               (UrlChecker.read_urls_from_file Samples.input_file))).2
  = 3%nat.
Proof.
  apply (proj1 (kayako_rows_written
           [Samples.answering Samples.ok; Samples.answering Samples.ok;
            Samples.answering Samples.ok] Samples.input_file
           (UrlChecker.submitted
              [Samples.answering Samples.ok; Samples.answering Samples.ok;
               Samples.answering Samples.ok]
              (UrlChecker.read_urls_from_file Samples.input_file))
           ltac:(split; reflexivity))).
Defined.

Section SkipFacts.
Import PyStr Requests Effects.

Lemma status_skips_spec line :
  CheckUrlsStatus.skips line = true
  <-> strip line = "" \/ lower (strip line) = "url".
Proof.
  unfold CheckUrlsStatus.skips.
  by rewrite orb_true_iff, is_empty_true, String.eqb_eq.
Qed.

Lemma kayako_skips_spec line :
  UrlChecker.normalize_url line = None
  <-> strip line = ""
      \/ lower (strip line) ∈ ["instance name"; "url"; "domain"].
Proof.
  unfold UrlChecker.normalize_url, UrlChecker.is_header.
  destruct (is_empty (strip line)) eqn:He.
  - apply is_empty_true in He. by split; [left|].
  - case_bool_decide as Hh.
    + by split; [right|].
    + destruct (has_scheme (strip line)); simpl; split; try done;
        intros [Hs|Hs]; try done; apply is_empty_true in Hs; congruence.
Qed.

End SkipFacts.

(** X4. The calls of one [check_urls_status.check_url]: a line that is
    empty or the word ["url"] once stripped costs nothing, not even a turn
    at the rate limiter; any other line takes its turn at the rate limiter
    first, then has its host looked up, and the GET follows unless the
    lookup failed with [gaierror], in which case the record is a DNS Error
    without HTTP code and no request is sent. *)
Theorem status_call_protocol (net : Effects.network) (line : string) :
  (PyStr.strip line = "" \/ PyStr.lower (PyStr.strip line) = "url" ->
   Effects.run net (CheckUrlsStatus.check_url line)
   = (CheckUrlsStatus.Result (PyStr.strip line) "Skipped" (PStr "N/A")
        "Empty or header line" "N/A", []))
  /\ (PyStr.strip line <> "" -> PyStr.lower (PyStr.strip line) <> "url" ->
      (forall m,
         Effects.net_dns net (CheckUrlsStatus.target line) = Effects.GaiError m ->
         Effects.run net (CheckUrlsStatus.check_url line)
         = (CheckUrlsStatus.Result (CheckUrlsStatus.original line) "DNS Error"
              (PStr "N/A") ("DNS Error: " +:+ m) "DNS Error",
            [Effects.EvRateLimit; Effects.EvDns (CheckUrlsStatus.target line)]))
      /\ ((forall m, Effects.net_dns net (CheckUrlsStatus.target line)
                     <> Effects.GaiError m) ->
          Effects.trace_of net (CheckUrlsStatus.check_url line)
          = [Effects.EvRateLimit; Effects.EvDns (CheckUrlsStatus.target line);
             Effects.EvGet (CheckUrlsStatus.target line)
               CheckUrlsStatus.TIMEOUT])).
Proof.
  split.
  - intros H%status_skips_spec. by apply status_run_skipped.
  - intros H1 H2.
    assert (Hs : CheckUrlsStatus.skips line = false).
    { destruct (CheckUrlsStatus.skips line) eqn:Hs; [|done].
      apply status_skips_spec in Hs as [?|?]; done. }
    split.
    + intros m Hm. rewrite (status_run_probed net line Hs). cbv zeta.
      rewrite Hm. done.
    + intros Hdns. unfold Effects.trace_of.
      by rewrite (status_run_requested net line Hs Hdns).
Qed.

Lemma status_call_protocol_witness :
  Effects.run (Samples.answering Samples.ok) (CheckUrlsStatus.check_url "  Url ")
  = (CheckUrlsStatus.Result "Url" "Skipped" (PStr "N/A")
       "Empty or header line" "N/A", [])
  /\ Effects.trace_of (Samples.answering Samples.ok)
       (CheckUrlsStatus.check_url "example.com")
     = [Effects.EvRateLimit; Effects.EvDns "https://example.com";
        Effects.EvGet "https://example.com" 15].
Proof.
  split.
  - apply (proj1 (status_call_protocol (Samples.answering Samples.ok) "  Url ")).
    right. reflexivity.
  - apply (proj2 (proj2 (status_call_protocol (Samples.answering Samples.ok)
             "example.com") ltac:(discriminate) ltac:(discriminate))).
    intros m. discriminate.
Defined.

(** X5. The calls of one [url_checker.check_url]: a line that is empty or
    one of the header words once stripped gives a Skipped record with the
    line as given and costs nothing; any other line takes one turn at the
    rate limiter and then sends one GET, to the stripped line itself when
    it starts with a scheme and to ["https://"] followed by it otherwise. *)
Theorem kayako_call_protocol (net : Effects.network) (line : string) :
  (PyStr.strip line = ""
   \/ PyStr.lower (PyStr.strip line) ∈ ["instance name"; "url"; "domain"] ->
   Effects.run net (UrlChecker.check_url line)
   = (UrlChecker.Result line "Skipped" (PStr "N/A") "Empty or header line", []))
  /\ (PyStr.strip line <> "" ->
      PyStr.lower (PyStr.strip line) ∉ ["instance name"; "url"; "domain"] ->
      Effects.trace_of net (UrlChecker.check_url line)
      = [Effects.EvRateLimit;
         Effects.EvGet
           (if PyStr.has_scheme (PyStr.strip line) then PyStr.strip line
            else "https://" +:+ PyStr.strip line)
           UrlChecker.TIMEOUT]).
Proof.
  split.
  - intros H%kayako_skips_spec. by apply kayako_run_skipped.
  - intros H1 H2. unfold Effects.trace_of.
    assert (Hn : UrlChecker.normalize_url line
                 = Some (if PyStr.has_scheme (PyStr.strip line)
                         then PyStr.strip line
                         else "https://" +:+ PyStr.strip line)).
    { unfold UrlChecker.normalize_url, UrlChecker.is_header.
      destruct (PyStr.is_empty (PyStr.strip line)) eqn:He.
      { by apply is_empty_true in He. }
      rewrite bool_decide_eq_false_2 by done.
      by destruct (PyStr.has_scheme (PyStr.strip line)). }
    by rewrite (kayako_run_probed net line _ Hn).
Qed.

Lemma kayako_call_protocol_witness :
  Effects.run (Samples.answering Samples.ok)
    (UrlChecker.check_url "Instance Name")
  = (UrlChecker.Result "Instance Name" "Skipped" (PStr "N/A")
       "Empty or header line", [])
  /\ Effects.trace_of (Samples.answering Samples.ok)
       (UrlChecker.check_url "example.com")
     = [Effects.EvRateLimit; Effects.EvGet "https://example.com" 20].
Proof.
  split.
  - apply (proj1 (kayako_call_protocol (Samples.answering Samples.ok)
             "Instance Name")).
    right. apply (bool_decide_unpack _). reflexivity.
  - apply (proj2 (kayako_call_protocol (Samples.answering Samples.ok)
             "example.com") ltac:(discriminate)).
    apply (bool_decide_unpack _). reflexivity.
Defined.

(* ===================================================================== *)
(** * Further properties: the URL probed and the URL recorded *)
(* ===================================================================== *)

Section UrlFacts.
Import PyStr Requests Effects.

Lemma lstrip_suffix s : exists a, s = a +:+ lstrip s.
Proof.
  induction s as [|c s [a IH]]; [by exists ""|]. simpl.
  destruct (is_space c).
  - exists (String c a). rewrite append_cons. by rewrite <- IH.
  - by exists "".
Qed.

Lemma append_empty_r s : s +:+ "" = s.
Proof.
  induction s as [|c s IH]; [done|]. rewrite append_cons. by rewrite IH.
Qed.

Lemma rstrip_prefix s : exists b, s = rstrip s +:+ b.
Proof.
  induction s as [|c s [b IH]]; [by exists ""|]. simpl.
  destruct (rstrip s) as [|d r] eqn:Hr.
  - destruct (is_space c).
    + by exists (String c s).
    + exists s. by rewrite append_cons.
  - exists b. rewrite append_cons. by rewrite <- IH.
Qed.

(** What occurs in the stripped text occurs in the text. *)
Lemma contains_strip p s :
  contains p (strip s) = true -> contains p s = true.
Proof.
  rewrite !contains_spec. intros (a & b & Hs). unfold strip in Hs.
  destruct (lstrip_suffix s) as [a' Ha'].
  destruct (rstrip_prefix (lstrip s)) as [b' Hb'].
  exists (a' +:+ a), (b +:+ b').
  rewrite Ha', Hb', Hs. by rewrite !append_assoc.
Qed.

Lemma contains_char_cons (c a : ascii) s :
  contains (String c "") (String a s) = Ascii.eqb c a || contains (String c "") s.
Proof.
  simpl. by destruct (Ascii.eqb c a).
Qed.

Lemma before_first_clean c s :
  contains (String c "") (before_first c s) = false.
Proof.
  induction s as [|a s IH]; [done|]. simpl.
  destruct (Ascii.eqb_spec a c) as [->|Hne]; [done|].
  rewrite contains_char_cons, IH, orb_false_r.
  apply Ascii.eqb_neq. congruence.
Qed.

(** The text kept for a line holds no ["#"]. *)
Lemma strip_comment_clean s :
  contains "#" (CheckUrlsStatus.strip_comment s) = false.
Proof.
  unfold CheckUrlsStatus.strip_comment.
  destruct (contains "#" s) eqn:Hc; [|done].
  destruct (contains "#" (strip (before_first "#" s))) eqn:Hs; [|done].
  apply contains_strip in Hs.
  by rewrite (before_first_clean "#" s) in Hs.
Qed.

Lemma normalize_clean s :
  contains "#" s = false -> contains "#" (CheckUrlsStatus.normalize s) = false.
Proof.
  intros Hs. unfold CheckUrlsStatus.normalize.
  destruct (has_scheme s); [done|].
  rewrite !append_cons, !contains_char_cons. simpl. exact Hs.
Qed.

Lemma normalize_has_scheme s : has_scheme (CheckUrlsStatus.normalize s) = true.
Proof.
  unfold CheckUrlsStatus.normalize.
  destruct (has_scheme s) eqn:Hs; [done|apply has_scheme_https].
Qed.

(** The URL cell of a record of [check_urls_status.check_url]. *)
Lemma status_url_field net line :
  CheckUrlsStatus.url (result_of net (CheckUrlsStatus.check_url line))
  = if CheckUrlsStatus.skips line then strip line
    else CheckUrlsStatus.original line.
Proof.
  unfold result_of. destruct (CheckUrlsStatus.skips line) eqn:Hs.
  - by rewrite (status_run_skipped net line Hs).
  - rewrite (status_run_probed net line Hs). cbv zeta.
    assert (Hget :
      CheckUrlsStatus.url
        match net_get net (CheckUrlsStatus.target line) with
        | Response code text =>
            CheckUrlsStatus.classify_response (CheckUrlsStatus.original line)
              code text
        | Raised e =>
            CheckUrlsStatus.classify_exception (CheckUrlsStatus.original line)
              e
        end = CheckUrlsStatus.original line).
    { destruct (net_get net (CheckUrlsStatus.target line)) as [code text|e].
      - unfold CheckUrlsStatus.classify_response.
        repeat match goal with
               | |- context [if ?b then _ else _] => destruct b
               end; done.
      - unfold CheckUrlsStatus.classify_exception.
        repeat match goal with
               | |- context [if ?b then _ else _] => destruct b
               end; done. }
    destruct (net_dns net (CheckUrlsStatus.target line));
      cbn [fst CheckUrlsStatus.url]; done.
Qed.

End UrlFacts.

(** X6. The URL that [check_urls_status.check_url] looks up and requests
    always starts with ["http://"] or ["https://"] and never holds a
    ["#"]: whatever follows the first ["#"] of the line is gone before
    the scheme is put in front; normalising it again changes nothing. *)
Theorem status_target_wellformed (line : string) :
  PyStr.has_scheme (CheckUrlsStatus.target line) = true
  /\ PyStr.contains "#" (CheckUrlsStatus.target line) = false
  /\ CheckUrlsStatus.normalize (CheckUrlsStatus.target line)
     = CheckUrlsStatus.target line.
Proof.
  unfold CheckUrlsStatus.target, CheckUrlsStatus.original.
  split; [apply normalize_has_scheme|split].
  - apply normalize_clean, strip_comment_clean.
  - unfold CheckUrlsStatus.normalize at 1.
    by rewrite normalize_has_scheme.
Qed.

(** X7. In a run of [check_urls_status.py] the URL cell of every record is
    the text of an input line, stripped and cut at its first ["#"], not
    the URL that was requested: it holds no ["#"], and when that text has
    no scheme the cell has none either and differs from the URL
    requested, which is ["https://"] followed by it. *)
Theorem status_url_cell
    (nets : list Effects.network) (lines : list string)
    (results : list CheckUrlsStatus.result) (r : CheckUrlsStatus.result) :
  CheckUrlsStatus.completes nets lines results ->
  r ∈ results ->
  exists line, line ∈ lines
    /\ CheckUrlsStatus.url r = CheckUrlsStatus.original line
    /\ PyStr.contains "#" (CheckUrlsStatus.url r) = false
    /\ (PyStr.has_scheme (CheckUrlsStatus.url r) = false ->
        CheckUrlsStatus.target line = "https://" +:+ CheckUrlsStatus.url r
        /\ CheckUrlsStatus.url r <> CheckUrlsStatus.target line).
Proof.
  intros [_ Hperm] Hr. rewrite Hperm in Hr.
  apply elem_of_zip_with in Hr as (net & u & -> & _ & Hu).
  pose proof (status_kept_not_skipped lines u Hu) as Hs.
  apply status_urls_spec in Hu as (line & Hin & -> & _).
  exists line. rewrite status_url_field, Hs.
  assert (Ho : CheckUrlsStatus.original (PyStr.strip line)
               = CheckUrlsStatus.original line).
  { unfold CheckUrlsStatus.original. by rewrite strip_idempotent. }
  rewrite Ho. split; [done|split; [done|split]].
  - apply strip_comment_clean.
  - intros Hsch. unfold CheckUrlsStatus.target, CheckUrlsStatus.normalize.
    rewrite Hsch. split; [done|]. intros E. symmetry in E.
    by apply https_prefix_neq in E.
Qed.

Lemma status_url_cell_witness :
  exists line, line ∈ ["example.org # old" +:+ Samples.nl]
    /\ "example.org" = CheckUrlsStatus.original line.
Proof.
  destruct (status_url_cell [Samples.answering Samples.ok]
              ["example.org # old" +:+ Samples.nl]
              [CheckUrlsStatus.Result "example.org" "Working" (PInt 200) ""
                 "Success"]
              (CheckUrlsStatus.Result "example.org" "Working" (PInt 200) ""
                 "Success")
              ltac:(split; reflexivity) ltac:(apply list_elem_of_here))
    as (line & Hin & Hurl & _).
  exists line. split; [exact Hin|exact Hurl].
Defined.

(** X8. A DNS check that fails with anything but [gaierror] is set aside:
    [check_urls_status.check_url] makes the same calls and returns the
    same record as when the name had resolved. *)
Theorem status_dns_check_indeterminate
    (net1 net2 : Effects.network) (line m : string) :
  Effects.net_dns net1 (CheckUrlsStatus.target line) = Effects.DnsRaised m ->
  Effects.net_dns net2 (CheckUrlsStatus.target line) = Effects.Resolved ->
  Effects.net_get net1 (CheckUrlsStatus.target line)
  = Effects.net_get net2 (CheckUrlsStatus.target line) ->
  Effects.run net1 (CheckUrlsStatus.check_url line)
  = Effects.run net2 (CheckUrlsStatus.check_url line).
Proof.
  intros H1 H2 Hget. destruct (CheckUrlsStatus.skips line) eqn:Hs.
  - by rewrite !(status_run_skipped _ line Hs).
  - rewrite !(status_run_probed _ line Hs). cbv zeta.
    by rewrite H1, H2, Hget.
Qed.

Lemma status_dns_check_indeterminate_witness :
  Effects.run
    (Effects.Network (fun _ => Effects.DnsRaised "label too long")
       (fun _ => Samples.ok) (fun _ => Samples.ok))
    (CheckUrlsStatus.check_url "example.com")
  = Effects.run (Samples.answering Samples.ok)
      (CheckUrlsStatus.check_url "example.com").
Proof.
  apply (status_dns_check_indeterminate
           (Effects.Network (fun _ => Effects.DnsRaised "label too long")
              (fun _ => Samples.ok) (fun _ => Samples.ok))
           (Samples.answering Samples.ok) "example.com" "label too long");
    reflexivity.
Defined.

Section NormalizeFacts.
Import PyStr Requests Effects.

Lemma append_nonempty a t : t <> "" -> a +:+ t <> "".
Proof.
  intros Hne. destruct a as [|c a].
  - by change ("" +:+ t) with t.
  - rewrite append_cons. discriminate.
Qed.

Lemma rstrip_append_fixed a t :
  rstrip t = t -> t <> "" -> rstrip (a +:+ t) = a +:+ t.
Proof.
  intros Ht Hne. induction a as [|c a IH]; [done|].
  rewrite append_cons. simpl. rewrite IH.
  pose proof (append_nonempty a t Hne) as Hat.
  by destruct (a +:+ t).
Qed.

Lemma strip_https_fixed s :
  strip s <> "" -> strip ("https://" +:+ strip s) = "https://" +:+ strip s.
Proof.
  intros Hne. unfold strip at 1.
  change (lstrip ("https://" +:+ strip s)) with ("https://" +:+ strip s).
  apply rstrip_append_fixed; [|done].
  unfold strip. apply rstrip_idempotent.
Qed.

(** A text with a scheme is none of the header words. *)
Lemma scheme_not_header s :
  has_scheme s = true -> UrlChecker.is_header s = false.
Proof.
  unfold has_scheme, UrlChecker.is_header.
  rewrite orb_true_iff, !startswith_spec.
  intros [[t ->]|[t ->]]; apply bool_decide_eq_false_2;
    rewrite lower_append, !elem_of_cons, elem_of_nil;
    intros [E|[E|[E|[]]]]; discriminate E.
Qed.

Lemma kayako_normalize_fixed line n :
  UrlChecker.normalize_url line = Some n ->
  has_scheme n = true /\ strip n = n /\ UrlChecker.normalize_url n = Some n.
Proof.
  unfold UrlChecker.normalize_url at 1.
  destruct (is_empty (strip line)) eqn:He; [discriminate|].
  destruct (UrlChecker.is_header (strip line)); [discriminate|].
  assert (Hne : strip line <> "").
  { intros E. apply is_empty_true in E. congruence. }
  assert (Hfix : forall n, has_scheme n = true -> strip n = n ->
                 UrlChecker.normalize_url n = Some n).
  { intros n' Hs Hst. unfold UrlChecker.normalize_url.
    rewrite Hst, (scheme_not_header n' Hs), Hs.
    destruct (is_empty n') eqn:E; [|done].
    apply is_empty_true in E. subst n'. discriminate. }
  destruct (has_scheme (strip line)) eqn:Hs; simpl; intros [= <-].
  - pose proof (strip_idempotent line). auto.
  - pose proof (has_scheme_https (strip line)).
    pose proof (strip_https_fixed line Hne). auto.
Qed.

Lemma retest_normalize_fixed u n :
  RetestTimeouts.normalize_url u = Some n ->
  has_scheme n = true /\ strip n = n /\ RetestTimeouts.normalize_url n = Some n.
Proof.
  unfold RetestTimeouts.normalize_url at 1.
  destruct (is_empty (strip u)) eqn:He; [discriminate|].
  assert (Hne : strip u <> "").
  { intros E. apply is_empty_true in E. congruence. }
  assert (Hfix : forall n, has_scheme n = true -> strip n = n ->
                 RetestTimeouts.normalize_url n = Some n).
  { intros n' Hs Hst. unfold RetestTimeouts.normalize_url.
    rewrite Hst, Hs.
    destruct (is_empty n') eqn:E; [|done].
    apply is_empty_true in E. subst n'. discriminate. }
  destruct (has_scheme (strip u)) eqn:Hs; simpl; intros [= <-].
  - pose proof (strip_idempotent u). auto.
  - pose proof (has_scheme_https (strip u)).
    pose proof (strip_https_fixed u Hne). auto.
Qed.

End NormalizeFacts.

(** X9. What [normalize_url] returns, in [url_checker.py] and in
    [retest_timeouts.py], starts with ["http://"] or ["https://"], has no
    white space at either end, and is left as it is by [normalize_url]. *)
Theorem normalize_url_idempotent (line n : string) :
  (UrlChecker.normalize_url line = Some n ->
   PyStr.has_scheme n = true /\ PyStr.strip n = n
   /\ UrlChecker.normalize_url n = Some n)
  /\ (RetestTimeouts.normalize_url line = Some n ->
      PyStr.has_scheme n = true /\ PyStr.strip n = n
      /\ RetestTimeouts.normalize_url n = Some n).
Proof.
  split; [apply kayako_normalize_fixed|apply retest_normalize_fixed].
Qed.

Lemma normalize_url_idempotent_witness :
  UrlChecker.normalize_url "https://example.com" = Some "https://example.com"
  /\ RetestTimeouts.normalize_url "https://example.com"
     = Some "https://example.com".
Proof.
  split.
  - apply (proj1 (normalize_url_idempotent " example.com "
                    "https://example.com")).
    reflexivity.
  - apply (proj2 (normalize_url_idempotent " example.com "
                    "https://example.com")).
    reflexivity.
Defined.

(* ===================================================================== *)
(** * Further properties: the retest of the rows that timed out *)
(* ===================================================================== *)

(** X10. The calls of one [check_url_with_retry]: for an empty URL none at
    all and the record Inactive, N/A, "Empty URL"; otherwise one HEAD with
    the 30 second timeout, followed by one GET with the same timeout
    exactly when the HEAD raised a timeout, and nothing else: a response
    to the HEAD, whatever its code, and any other exception end the
    call.  The retest never waits at a rate limiter. *)
Theorem retest_call_protocol (net : Effects.network) (u : string) :
  (RetestTimeouts.normalize_url u = None ->
   Effects.run net (RetestTimeouts.check_url_with_retry u)
   = (RetestTimeouts.Result u "Inactive" (PStr "N/A") "Empty URL", []))
  /\ (forall n, RetestTimeouts.normalize_url u = Some n ->
      Effects.trace_of net (RetestTimeouts.check_url_with_retry u)
      = Effects.EvHead n 30
        :: match Effects.net_head net n with
           | Requests.Raised e =>
               if Requests.isinstance e Requests.Timeout
               then [Effects.EvGet n 30] else []
           | Requests.Response _ _ => []
           end).
Proof.
  split; [apply retest_run_empty|].
  intros n Hn. unfold Effects.trace_of.
  rewrite (retest_run_probed net u n Hn).
  destruct (Effects.net_head net n) as [code text|e]; [done|].
  by destruct (Requests.isinstance e Requests.Timeout).
Qed.

Lemma retest_call_protocol_witness :
  Effects.trace_of
    (Samples.head_then_get (Requests.Raised Samples.read_timed_out) Samples.ok)
    (RetestTimeouts.check_url_with_retry "example.com")
  = [Effects.EvHead "https://example.com" 30;
     Effects.EvGet "https://example.com" 30].
Proof.
  apply (proj2 (retest_call_protocol
           (Samples.head_then_get (Requests.Raised Samples.read_timed_out)
              Samples.ok) "example.com") "https://example.com").
  reflexivity.
Defined.

(** X11. In [retest_timeouts.py] the clause [except SSLError] never
    runs: an [SSLError] is a [ConnectionError] and is caught by the clause
    before it, so its record is decided by the words of its message alone
    and carries one of the four fixed messages of that clause, never the
    text of the exception. *)
Theorem retest_ssl_clause_unreachable (original_url : string) (e : Requests.exn) :
  Requests.isinstance e Requests.SSLError = true ->
  Requests.isinstance e Requests.Timeout = false
  /\ RetestTimeouts.error_message
       (RetestTimeouts.classify_exception original_url e)
     ∈ ["SSL/Certificate error"; "DNS resolution failed";
        "Connection refused by server"; "Connection failed"]
  /\ (Spec.mentions_tls (Requests.exn_str e) = false ->
      RetestTimeouts.http_code
        (RetestTimeouts.classify_exception original_url e)
      <> PStr "SSL Error").
Proof.
  intros Hs. pose proof (ssl_error_is_connection_error e Hs) as Hc.
  split; [by destruct e as [[] msg]|].
  unfold RetestTimeouts.classify_exception, Spec.mentions_tls. rewrite Hc.
  split.
  - repeat match goal with
           | |- context [if ?b then _ else _] => destruct b
           end; apply (bool_decide_unpack _); reflexivity.
  - intros ->.
    repeat match goal with
           | |- context [if ?b then _ else _] => destruct b
           end; discriminate.
Qed.

Lemma retest_ssl_clause_unreachable_witness :
  RetestTimeouts.http_code
    (RetestTimeouts.classify_exception "example.com"
       (Requests.Exn Requests.SSLError "handshake failure"))
  <> PStr "SSL Error".
Proof.
  apply (proj2 (proj2 (retest_ssl_clause_unreachable "example.com"
           (Requests.Exn Requests.SSLError "handshake failure")
           ltac:(reflexivity)))).
  reflexivity.
Defined.

Section CsvFacts.
Import PyStr Requests Effects.

Lemma read_csv_cons row reader :
  RetestTimeouts.read_csv_and_find_timeouts (row :: reader)
  = match row !! "HTTP Code" with
    | None => None
    | Some code =>
        match (if String.eqb code "Timeout"
               then match row !! "URL" with
                    | Some u => Some [u]
                    | None => None
                    end
               else Some []) with
        | None => None
        | Some here =>
            match RetestTimeouts.read_csv_and_find_timeouts reader with
            | None => None
            | Some (timeout_urls, all_rows) =>
                Some (here ++ timeout_urls, (PStr <$> row) :: all_rows)
            end
        end
    end.
Proof.
  simpl. destruct (row !! "HTTP Code") as [code|]; [|done]. simpl.
  destruct (String.eqb code "Timeout").
  - destruct (row !! "URL") as [u|]; [|done]. simpl.
    by destruct (RetestTimeouts.read_csv_and_find_timeouts reader) as [[??]|].
  - simpl.
    by destruct (RetestTimeouts.read_csv_and_find_timeouts reader) as [[??]|].
Qed.

Lemma read_csv_some reader timeout_urls all_rows :
  RetestTimeouts.read_csv_and_find_timeouts reader
  = Some (timeout_urls, all_rows) ->
  all_rows = RetestTimeouts.as_cells reader
  /\ Forall2 (fun u row => row !! "URL" = Some u) timeout_urls
       (filter RetestTimeouts.timed_out reader).
Proof.
  revert timeout_urls all_rows.
  induction reader as [|row reader IH]; intros timeout_urls all_rows.
  - intros [= <- <-]. by split; [|constructor].
  - rewrite read_csv_cons.
    destruct (row !! "HTTP Code") as [code|] eqn:Hcode; [|discriminate].
    destruct (String.eqb_spec code "Timeout") as [->|Hne].
    + destruct (row !! "URL") as [u|] eqn:Hu; [|discriminate].
      destruct (RetestTimeouts.read_csv_and_find_timeouts reader)
        as [[t a]|]; [|discriminate].
      intros [= <- <-]. destruct (IH t a eq_refl) as [-> Hall].
      split; [done|].
      rewrite filter_cons_True by done. by constructor.
    + destruct (RetestTimeouts.read_csv_and_find_timeouts reader)
        as [[t a]|]; [|discriminate].
      intros [= <- <-]. destruct (IH t a eq_refl) as [-> Hall].
      split; [done|].
      rewrite filter_cons_False; [done|].
      unfold RetestTimeouts.timed_out. congruence.
Qed.

Lemma read_csv_is_some reader :
  is_Some (RetestTimeouts.read_csv_and_find_timeouts reader)
  <-> Forall RetestTimeouts.readable reader.
Proof.
  induction reader as [|row reader IH].
  - split; [constructor|by eexists].
  - rewrite read_csv_cons, Forall_cons, <- IH.
    unfold RetestTimeouts.readable.
    destruct (row !! "HTTP Code") as [code|] eqn:Hcode.
    + destruct (String.eqb_spec code "Timeout") as [->|Hne].
      * destruct (row !! "URL") as [u|] eqn:Hu.
        -- destruct (RetestTimeouts.read_csv_and_find_timeouts reader)
             as [[t a]|]; split.
           ++ intros _. split; [|by eexists]. exists "Timeout". eauto.
           ++ by eexists.
           ++ by intros ?%is_Some_None.
           ++ by intros [_ ?%is_Some_None].
        -- split; [by intros ?%is_Some_None|].
           intros [(code & [= <-] & Hsome) _].
           by destruct (Hsome eq_refl).
      * destruct (RetestTimeouts.read_csv_and_find_timeouts reader)
          as [[t a]|]; split.
        -- intros _. split; [|by eexists]. exists code. split; [done|].
           intros ->. done.
        -- by eexists.
        -- by intros ?%is_Some_None.
        -- by intros [_ ?%is_Some_None].
    + split; [by intros ?%is_Some_None|]. by intros [(code & ? & _) _].
Qed.

End CsvFacts.

Section MergeFacts.
Import PyStr Requests Effects.

Lemma collect_snoc completed r :
  RetestTimeouts.collect (completed ++ [r])
  = <[RetestTimeouts.url r := r]> (RetestTimeouts.collect completed).
Proof. unfold RetestTimeouts.collect. by rewrite foldl_snoc. Qed.

(** The dictionary holds, for a URL, the result that completed last. *)
Lemma collect_lookup completed u :
  RetestTimeouts.collect completed !! u
  = last (filter (fun r => RetestTimeouts.url r = u) completed).
Proof.
  induction completed as [|r completed IH] using rev_ind; [done|].
  rewrite collect_snoc, filter_app.
  destruct (decide (RetestTimeouts.url r = u)) as [<-|Hne].
  - rewrite lookup_insert_eq, filter_cons_True, filter_nil by done.
    by rewrite last_snoc.
  - rewrite lookup_insert_ne by done.
    rewrite filter_cons_False, filter_nil by done. by rewrite app_nil_r.
Qed.

Lemma mapM_fmap_pointwise {A B C} (f : B -> option C) (g : A -> B)
    (h : A -> C) (l : list A) :
  Forall (fun x => f (g x) = Some (h x)) l -> mapM f (g <$> l) = Some (h <$> l).
Proof.
  intros H. apply mapM_Some_2.
  induction H as [|x l Hx _ IH]; csimpl; constructor; done.
Qed.

Lemma report_columns_lookup row k :
  RetestTimeouts.has_report_columns row -> k ∈ RetestTimeouts.fieldnames ->
  is_Some (row !! k).
Proof.
  intros Hdom Hk. apply elem_of_dom. rewrite Hdom.
  by apply elem_of_list_to_set.
Qed.

Lemma update_row_merged updated row :
  is_Some (row !! "URL") ->
  RetestTimeouts.update_row updated (PStr <$> row)
  = Some (RetestTimeouts.merged_row updated row).
Proof.
  intros [u Hu]. unfold RetestTimeouts.update_row, RetestTimeouts.merged_row.
  rewrite lookup_fmap, Hu. simpl. by destruct (updated !! u).
Qed.

Lemma dict_to_list_merged updated row :
  RetestTimeouts.has_report_columns row ->
  RetestTimeouts.dict_to_list (RetestTimeouts.merged_row updated row)
  = Some (RetestTimeouts.merged_cells updated row).
Proof.
  intros Hdom. unfold RetestTimeouts.dict_to_list.
  assert (Hd : dom (RetestTimeouts.merged_row updated row)
               = list_to_set RetestTimeouts.fieldnames).
  { unfold RetestTimeouts.merged_row.
    destruct (row !! "URL" ≫= (updated !!.)) as [r|].
    - rewrite !dom_insert_L, dom_fmap_L, Hdom.
      unfold RetestTimeouts.fieldnames. set_solver.
    - by rewrite dom_fmap_L. }
  rewrite Hd, bool_decide_eq_true_2 by done. f_equal.
  unfold RetestTimeouts.merged_cells, RetestTimeouts.merged_row.
  destruct (row !! "URL" ≫= (updated !!.)) as [r|].
  - cbn [fmap list_fmap RetestTimeouts.fieldnames].
    rewrite !lookup_insert_eq.
    rewrite (lookup_insert_ne _ "Error Message" "HTTP Code") by done.
    rewrite !lookup_insert_eq.
    rewrite (lookup_insert_ne _ "Error Message" "Status") by done.
    rewrite (lookup_insert_ne _ "HTTP Code" "Status") by done.
    rewrite !lookup_insert_eq.
    rewrite (lookup_insert_ne _ "Error Message" "URL") by done.
    rewrite (lookup_insert_ne _ "HTTP Code" "URL") by done.
    rewrite (lookup_insert_ne _ "Status" "URL") by done.
    rewrite lookup_fmap. simpl. by destruct (row !! "URL").
  - unfold RetestTimeouts.cells_of.
    cbn [fmap list_fmap RetestTimeouts.fieldnames].
    rewrite !lookup_fmap.
    by destruct (row !! "URL"), (row !! "Status"), (row !! "HTTP Code"),
      (row !! "Error Message").
Qed.

End MergeFacts.

Section MainFacts.
Import PyStr Requests Effects.

Lemma report_columns_readable row :
  RetestTimeouts.has_report_columns row -> RetestTimeouts.readable row.
Proof.
  intros Hdom.
  destruct (report_columns_lookup row "HTTP Code" Hdom) as [code Hcode].
  { apply (bool_decide_unpack _). reflexivity. }
  exists code. split; [done|]. intros _.
  apply (report_columns_lookup row "URL" Hdom).
  apply (bool_decide_unpack _). reflexivity.
Qed.

Lemma timeout_urls_nonempty reader timeout_urls all_rows :
  RetestTimeouts.read_csv_and_find_timeouts reader
  = Some (timeout_urls, all_rows) ->
  (timeout_urls = [] <-> ~ Exists RetestTimeouts.timed_out reader).
Proof.
  intros [_ Hall]%read_csv_some. apply Forall2_length in Hall.
  split.
  - intros -> Hex. apply Exists_exists in Hex as (row & Hin & Hrow).
    assert (row ∈ filter RetestTimeouts.timed_out reader) as Hf
      by by apply list_elem_of_filter.
    destruct (filter RetestTimeouts.timed_out reader); [|done].
    by apply elem_of_nil in Hf.
  - intros Hex. destruct timeout_urls as [|u t]; [done|].
    destruct (filter RetestTimeouts.timed_out reader) as [|row rest] eqn:Hf;
      [done|].
    destruct Hex. apply Exists_exists. exists row.
    assert (row ∈ filter RetestTimeouts.timed_out reader) as Hin
      by (rewrite Hf; apply list_elem_of_here).
    apply list_elem_of_filter in Hin as [? ?]. done.
Qed.

Lemma retest_url_field net u :
  RetestTimeouts.url (result_of net (RetestTimeouts.check_url_with_retry u)) = u.
Proof.
  assert (Hresp : forall code,
    RetestTimeouts.url (RetestTimeouts.response_result u code) = u).
  { intros code. unfold RetestTimeouts.response_result.
    by destruct ((200 <=? code) && (code <? 400)). }
  assert (Hexc : forall e,
    RetestTimeouts.url (RetestTimeouts.classify_exception u e) = u).
  { intros e. unfold RetestTimeouts.classify_exception.
    repeat match goal with
           | |- context [if ?b then _ else _] => destruct b
           end; done. }
  unfold result_of. destruct (RetestTimeouts.normalize_url u) as [n|] eqn:Hn.
  - rewrite (retest_run_probed net u n Hn).
    destruct (net_head net n) as [code text|e]; simpl; [apply Hresp|].
    destruct (isinstance e Timeout); simpl; [|apply Hexc].
    destruct (net_get net n) as [code text|e']; simpl; [apply Hresp|].
    destruct (isinstance e' Timeout); [done|apply Hexc].
  - by rewrite (retest_run_empty net u Hn).
Qed.

End MainFacts.

(** X12. [read_csv_and_find_timeouts] succeeds exactly when every row has
    an HTTP Code cell and every row whose HTTP Code is "Timeout" has a URL
    cell (otherwise the [KeyError] ends the program).  When it succeeds,
    [all_rows] is the rows of the file in their order and [timeout_urls]
    is the URL cells of the rows whose HTTP Code is exactly "Timeout", in
    the order of the file and with repetitions. *)
Theorem read_csv_and_find_timeouts_spec (reader : list (gmap string string)) :
  (is_Some (RetestTimeouts.read_csv_and_find_timeouts reader)
   <-> Forall RetestTimeouts.readable reader)
  /\ (forall timeout_urls all_rows,
      RetestTimeouts.read_csv_and_find_timeouts reader
      = Some (timeout_urls, all_rows) ->
      all_rows = RetestTimeouts.as_cells reader
      /\ Forall2 (fun u row => row !! "URL" = Some u) timeout_urls
           (filter RetestTimeouts.timed_out reader)).
Proof.
  split; [apply read_csv_is_some|].
  intros timeout_urls all_rows. apply read_csv_some.
Qed.

Lemma read_csv_and_find_timeouts_spec_witness :
  Forall2 (fun u row => row !! "URL" = Some u) ["b.example"; "b.example"]
    (filter RetestTimeouts.timed_out Samples.report).
Proof.
  apply (proj2 (read_csv_and_find_timeouts_spec Samples.report)
           ["b.example"; "b.example"]
           (RetestTimeouts.as_cells Samples.report)).
  reflexivity.
Defined.

Section WrittenFacts.
Import PyStr Requests Effects.

Lemma main_written reader completed :
  Forall RetestTimeouts.has_report_columns reader ->
  Exists RetestTimeouts.timed_out reader ->
  RetestTimeouts.main reader completed
  = RetestTimeouts.Written RetestTimeouts.OUTPUT_CSV RetestTimeouts.fieldnames
      (RetestTimeouts.merged_cells (RetestTimeouts.collect completed)
         <$> reader).
Proof.
  intros Hcols Hex. unfold RetestTimeouts.main.
  assert (Hread : Forall RetestTimeouts.readable reader).
  { eapply Forall_impl; [exact Hcols|]. apply report_columns_readable. }
  apply read_csv_is_some in Hread as [[timeout_urls all_rows] Hread].
  rewrite Hread.
  pose proof (timeout_urls_nonempty _ _ _ Hread) as Hne.
  destruct (read_csv_some _ _ _ Hread) as [-> _].
  rewrite bool_decide_eq_false_2.
  2:{ intros Hlen. destruct timeout_urls; [|done]. by apply Hne. }
  unfold RetestTimeouts.as_cells.
  rewrite (mapM_fmap_pointwise _ _
             (RetestTimeouts.merged_row (RetestTimeouts.collect completed))).
  2:{ eapply Forall_impl; [exact Hcols|]. intros row Hrow.
      apply update_row_merged.
      apply (report_columns_lookup row "URL" Hrow).
      apply (bool_decide_unpack _). reflexivity. }
  unfold RetestTimeouts.writerows.
  rewrite (mapM_fmap_pointwise _ _
             (RetestTimeouts.merged_cells (RetestTimeouts.collect completed))).
  2:{ eapply Forall_impl; [exact Hcols|]. intros row Hrow.
      by apply dict_to_list_merged. }
  done.
Qed.

Lemma main_nothing reader completed :
  Forall RetestTimeouts.readable reader ->
  ~ Exists RetestTimeouts.timed_out reader ->
  RetestTimeouts.main reader completed = RetestTimeouts.NothingToRetest.
Proof.
  intros [[timeout_urls all_rows] Hread]%read_csv_is_some Hno.
  unfold RetestTimeouts.main. rewrite Hread.
  apply (timeout_urls_nonempty _ _ _ Hread) in Hno as ->. done.
Qed.

End WrittenFacts.

(** X13. The merge of [retest_timeouts.main].  Given a report with the
    four columns [url_checker.py] writes and at least one row whose HTTP
    Code is "Timeout", [main] writes [OUTPUT_CSV], a file other than
    [INPUT_CSV], with that header and one row per input row in the same
    order: a row whose URL has a result in [updated_results] keeps its
    URL and gets the status, code and message of that result; every other
    row is written with the cells it had. *)
Theorem retest_merge_written
    (reader : list (gmap string string))
    (completed : list RetestTimeouts.result) :
  Forall RetestTimeouts.has_report_columns reader ->
  Exists RetestTimeouts.timed_out reader ->
  RetestTimeouts.main reader completed
  = RetestTimeouts.Written RetestTimeouts.OUTPUT_CSV RetestTimeouts.fieldnames
      (RetestTimeouts.merged_cells (RetestTimeouts.collect completed)
         <$> reader)
  /\ RetestTimeouts.OUTPUT_CSV <> RetestTimeouts.INPUT_CSV
  /\ (forall row, row ∈ reader ->
      row !! "URL" ≫= (RetestTimeouts.collect completed !!.) = None ->
      RetestTimeouts.merged_cells (RetestTimeouts.collect completed) row
      = RetestTimeouts.cells_of row).
Proof.
  intros Hcols Hex. split; [by apply main_written|split; [done|]].
  intros row _ Hnone. unfold RetestTimeouts.merged_cells. by rewrite Hnone.
Qed.

Lemma retest_merge_written_witness :
  RetestTimeouts.main Samples.report
    [RetestTimeouts.Result "b.example" "Active" (PInt 200) ""]
  = RetestTimeouts.Written "url_check_results_updated.csv"
      ["URL"; "Status"; "HTTP Code"; "Error Message"]
      [["a.example"; "Active Kayako"; "200"; ""];
       ["b.example"; "Active"; "200"; ""];
       ["c.example"; "Inactive"; "404"; "HTTP 404"];
       ["b.example"; "Active"; "200"; ""];
       ["b.example"; "Active"; "200"; ""]].
Proof.
  etrans.
  - apply (proj1 (retest_merge_written Samples.report
             [RetestTimeouts.Result "b.example" "Active" (PInt 200) ""]
             ltac:(repeat constructor)
             ltac:(apply Exists_cons_tl, Exists_cons_hd; reflexivity))).
  - reflexivity.
Defined.

(** X14. [updated_results] keeps one result per URL, the one of the task
    that completed last; every row with that URL, whether it had timed
    out or not, is written with the status, code and message of that one
    result. *)
Theorem retest_last_result_wins
    (completed : list RetestTimeouts.result) (u : string)
    (row : gmap string string) :
  row !! "URL" = Some u ->
  RetestTimeouts.collect completed !! u
  = last (filter (fun r => RetestTimeouts.url r = u) completed)
  /\ (forall r, last (filter (fun r => RetestTimeouts.url r = u) completed)
                = Some r ->
      RetestTimeouts.merged_cells (RetestTimeouts.collect completed) row
      = [u; RetestTimeouts.status r; py_str (RetestTimeouts.http_code r);
         RetestTimeouts.error_message r])
  /\ (u ∉ RetestTimeouts.url <$> completed ->
      RetestTimeouts.merged_cells (RetestTimeouts.collect completed) row
      = RetestTimeouts.cells_of row).
Proof.
  intros Hu. pose proof (collect_lookup completed u) as Hl.
  split; [exact Hl|split].
  - intros r Hr. unfold RetestTimeouts.merged_cells.
    rewrite Hu. simpl. by rewrite Hl, Hr.
  - intros Hnot. unfold RetestTimeouts.merged_cells. rewrite Hu. simpl.
    rewrite Hl.
    destruct (last (filter (fun r => RetestTimeouts.url r = u) completed))
      as [r|] eqn:Hr; [|done].
    apply last_Some_elem_of, list_elem_of_filter in Hr as [<- Hin].
    destruct Hnot. by apply list_elem_of_fmap_2.
Qed.

Lemma retest_last_result_wins_witness :
  RetestTimeouts.merged_cells
    (RetestTimeouts.collect
       [RetestTimeouts.Result "b.example" "Inactive" (PStr "Timeout")
          "Request timeout after 30s";
        RetestTimeouts.Result "b.example" "Active" (PInt 200) ""])
    (Samples.row "b.example" "Inactive" "503" "HTTP 503")
  = ["b.example"; "Active"; "200"; ""].
Proof.
  apply (proj1 (proj2 (retest_last_result_wins
           [RetestTimeouts.Result "b.example" "Inactive" (PStr "Timeout")
              "Request timeout after 30s";
            RetestTimeouts.Result "b.example" "Active" (PInt 200) ""]
           "b.example" (Samples.row "b.example" "Inactive" "503" "HTTP 503")
           ltac:(reflexivity)))
           (RetestTimeouts.Result "b.example" "Active" (PInt 200) "")).
  reflexivity.
Defined.

Section CrashFacts.
Import PyStr Requests Effects.

Lemma update_row_dom updated row row' :
  RetestTimeouts.update_row updated row = Some row' -> dom row ⊆ dom row'.
Proof.
  unfold RetestTimeouts.update_row.
  destruct (row !! "URL") as [[u|n]|]; simpl; [| |done].
  - destruct (updated !! u) as [r|]; intros [= <-]; [|done].
    rewrite !dom_insert. set_solver.
  - by intros [= <-].
Qed.

End CrashFacts.

(** X15. How [retest_timeouts.main] ends.  It exits with an error when a
    row cannot be read; it returns without writing any file when no row
    has HTTP Code "Timeout"; and when there is such a row but some row
    has a column other than the four of [fieldnames] (as every row of the
    report of [check_urls_status.py] has, with its Error Type), it ends
    in an uncaught exception after the retests, without the rows. *)
Theorem retest_main_outcomes
    (reader : list (gmap string string))
    (completed : list RetestTimeouts.result) :
  (~ Forall RetestTimeouts.readable reader ->
   RetestTimeouts.main reader completed = RetestTimeouts.Exit1)
  /\ (Forall RetestTimeouts.readable reader ->
      ~ Exists RetestTimeouts.timed_out reader ->
      RetestTimeouts.main reader completed = RetestTimeouts.NothingToRetest)
  /\ (Forall RetestTimeouts.readable reader ->
      Exists RetestTimeouts.timed_out reader ->
      Exists (fun row : gmap string string =>
                ~ dom row ⊆ list_to_set RetestTimeouts.fieldnames) reader ->
      RetestTimeouts.main reader completed = RetestTimeouts.Crashed).
Proof.
  unfold RetestTimeouts.main. split; [|split].
  - intros Hno.
    destruct (RetestTimeouts.read_csv_and_find_timeouts reader) eqn:Hread;
      [|done].
    destruct Hno. apply read_csv_is_some. by eexists.
  - intros [[timeout_urls all_rows] Hread]%read_csv_is_some Hno.
    rewrite Hread.
    apply (timeout_urls_nonempty _ _ _ Hread) in Hno as ->. done.
  - intros [[timeout_urls all_rows] Hread]%read_csv_is_some Hex Hextra.
    rewrite Hread.
    pose proof (timeout_urls_nonempty _ _ _ Hread) as Hne.
    destruct (read_csv_some _ _ _ Hread) as [-> _].
    rewrite bool_decide_eq_false_2.
    2:{ intros Hlen. destruct timeout_urls; [|done]. by apply Hne. }
    destruct (mapM _ (RetestTimeouts.as_cells reader)) as [rows'|] eqn:Hup;
      [|done].
    assert (Hw : RetestTimeouts.writerows rows' = None); [|by rewrite Hw].
    apply mapM_None_2. apply mapM_Some_1 in Hup.
    apply Exists_exists in Hextra as (row & Hin & Hrow).
    apply list_elem_of_lookup_1 in Hin as [i Hi].
    assert (Hi' : RetestTimeouts.as_cells reader !! i = Some (PStr <$> row)).
    { unfold RetestTimeouts.as_cells. by rewrite list_lookup_fmap, Hi. }
    destruct (Forall2_lookup_l _ _ _ _ _ Hup Hi') as (row' & Hrow' & Hupd).
    apply Exists_exists. exists row'. split.
    { by eapply list_elem_of_lookup_2. }
    unfold RetestTimeouts.dict_to_list.
    rewrite bool_decide_eq_false_2; [done|].
    intros Hsub. apply Hrow. apply update_row_dom in Hupd.
    intros k Hk. apply Hsub, Hupd. by rewrite dom_fmap.
Qed.

Lemma retest_main_outcomes_witness :
  RetestTimeouts.main [Samples.row "c.example" "Inactive" "404" "HTTP 404"] []
  = RetestTimeouts.NothingToRetest
  /\ RetestTimeouts.main
       [<["Error Type" := "Timeout"]>
          (Samples.row "b.example" "Timeout" "Timeout" "Request timeout")]
       [RetestTimeouts.Result "b.example" "Active" (PInt 200) ""]
     = RetestTimeouts.Crashed.
Proof.
  split.
  - apply (proj1 (proj2 (retest_main_outcomes
             [Samples.row "c.example" "Inactive" "404" "HTTP 404"] []))).
    + repeat constructor. exists "404". split; [reflexivity|discriminate].
    + intros Hex. apply Exists_cons in Hex as [H|H]; [discriminate H|].
      by apply Exists_nil in H.
  - apply (proj2 (proj2 (retest_main_outcomes
             [<["Error Type" := "Timeout"]>
                (Samples.row "b.example" "Timeout" "Timeout" "Request timeout")]
             [RetestTimeouts.Result "b.example" "Active" (PInt 200) ""]))).
    + repeat constructor. exists "Timeout". split; [reflexivity|].
      intros _. by eexists.
    + apply Exists_cons_hd. reflexivity.
    + apply Exists_cons_hd. intros Hsub.
      assert (Hin : "Error Type" ∈ dom (<["Error Type" := "Timeout"]>
                (Samples.row "b.example" "Timeout" "Timeout" "Request timeout")))
        by (apply elem_of_dom; by eexists).
      apply Hsub in Hin. revert Hin. apply (bool_decide_unpack _). reflexivity.
Defined.

(** X16. In a run of [retest_timeouts.py] the URLs that have an entry in
    [updated_results] are exactly the URLs of the rows that had timed
    out: each task returns its record under the URL it was given, so a
    row is rewritten exactly when some row with its URL had HTTP Code
    "Timeout". *)
Theorem retest_updated_urls
    (nets : list Effects.network) (timeout_urls : list string)
    (completed : list RetestTimeouts.result) (u : string) :
  RetestTimeouts.completes nets timeout_urls completed ->
  (is_Some (RetestTimeouts.collect completed !! u) <-> u ∈ timeout_urls).
Proof.
  intros [Hlen Hperm]. rewrite collect_lookup. split.
  - intros [r Hr].
    apply last_Some_elem_of, list_elem_of_filter in Hr as [<- Hin].
    rewrite Hperm in Hin.
    apply elem_of_zip_with in Hin as (net & u' & -> & _ & Hu').
    by rewrite retest_url_field.
  - intros [i Hi]%list_elem_of_lookup_1.
    destruct (lookup_lt_is_Some_2 nets i) as [net Hnet].
    { rewrite Hlen. by eapply lookup_lt_Some. }
    set (r := Effects.result_of net (RetestTimeouts.check_url_with_retry u)).
    assert (Hin : r ∈ filter (fun r => RetestTimeouts.url r = u) completed).
    { apply list_elem_of_filter. split; [apply retest_url_field|].
      rewrite Hperm. apply elem_of_lookup_zip_with. by exists i, net, u. }
    destruct (last (filter (fun r => RetestTimeouts.url r = u) completed))
      as [r'|] eqn:Hlast; [by eexists|].
    apply last_None in Hlast. rewrite Hlast in Hin.
    by apply elem_of_nil in Hin.
Qed.

Lemma retest_updated_urls_witness :
  is_Some (RetestTimeouts.collect
             (RetestTimeouts.submitted
                [Samples.answering Samples.ok; Samples.answering Samples.ok]
                ["b.example"; "b.example"]) !! "b.example").
Proof.
  apply (retest_updated_urls
           [Samples.answering Samples.ok; Samples.answering Samples.ok]
           ["b.example"; "b.example"]
           (RetestTimeouts.submitted
              [Samples.answering Samples.ok; Samples.answering Samples.ok]
              ["b.example"; "b.example"]) "b.example").
  - split; reflexivity.
  - apply list_elem_of_here.
Defined.

(* ===================================================================== *)
(** * Further properties: the rate limiter *)
(* ===================================================================== *)

Section LimiterProgress.
Import RateLimiter.

Variable REQUEST_DELAY : Z.
Variable eps : Z.

Local Abbreviation step := (RateLimiter.step REQUEST_DELAY eps).
Local Abbreviation exec := (RateLimiter.exec REQUEST_DELAY eps).

Lemma exec_app ls1 ls2 s :
  exec (ls1 ++ ls2) s = exec ls1 s ≫= exec ls2.
Proof.
  revert s. induction ls1 as [|l ls1 IH]; intros s; [done|]. simpl.
  destruct (step l s) as [s1|]; [apply IH|done].
Qed.

Lemma leave_from_stamped s i :
  workers s !! i = Some Stamped ->
  exists s', exec [Run i] s = Some s' /\ finished i s s'
             /\ grants s' = grants s.
Proof.
  intros Hi. eexists. simpl. rewrite Hi. simpl. by repeat split.
Qed.

Lemma leave_from_awake s i :
  workers s !! i = Some Awake ->
  exists s', exec [Run i; Run i] s = Some s' /\ finished i s s'
             /\ grants s' = now s :: grants s.
Proof.
  intros Hi. eexists. simpl. rewrite Hi. simpl.
  rewrite list_lookup_insert_eq by by eapply lookup_lt_Some. simpl.
  repeat split. simpl. by rewrite list_insert_insert_eq.
Qed.

Lemma leave_from_sleeping s i w :
  workers s !! i = Some (Sleeping w) ->
  exists s',
    exec [Tick (Z.max 0 (w - eps - monotonic s)); Run i; Run i; Run i] s
    = Some s'
             /\ finished i s s' /\ exists g, grants s' = g :: grants s.
Proof.
  intros Hi. pose proof (lookup_lt_Some _ _ _ Hi) as Hlt.
  eexists. simpl. rewrite bool_decide_eq_true_2 by lia. simpl.
  rewrite Hi. simpl. rewrite bool_decide_eq_true_2 by lia. simpl.
  rewrite list_lookup_insert_eq by done. simpl.
  rewrite list_lookup_insert_eq by by rewrite length_insert. simpl.
  repeat split; [|by eexists]. simpl. by rewrite !list_insert_insert_eq.
Qed.

Lemma prepend_step s s1 i q sched s' :
  step (Run i) s = Some s1 ->
  workers s1 = <[i := q]> (workers s) ->
  exec sched s1 = Some s' -> finished i s1 s' ->
  exec (Run i :: sched) s = Some s' /\ finished i s s'.
Proof.
  intros Hstep Hw Hrun [Hfin Hlock]. split.
  - change (exec (Run i :: sched) s) with (step (Run i) s ≫= exec sched).
    by rewrite Hstep.
  - split; [|done]. by rewrite Hfin, Hw, list_insert_insert_eq.
Qed.

Lemma leave_from_read s i c :
  workers s !! i = Some (Read c) ->
  exists sched s', Forall (solo i) sched /\ (length sched <= 5)%nat
    /\ exec sched s = Some s' /\ finished i s s'
    /\ exists g, grants s' = g :: grants s.
Proof.
  intros Hi. pose proof (lookup_lt_Some _ _ _ Hi) as Hlt.
  destruct (decide (c - last_request_time s < REQUEST_DELAY)) as [Hc|Hc].
  - set (w := monotonic s + (REQUEST_DELAY - (c - last_request_time s))).
    assert (Hstep : step (Run i) s = Some (set_pc s i (Sleeping w))).
    { simpl. rewrite Hi. simpl. by rewrite bool_decide_eq_true_2. }
    destruct (leave_from_sleeping (set_pc s i (Sleeping w)) i w)
      as (s' & Hrun & Hfin & g & Hg).
    { simpl. by apply list_lookup_insert_eq. }
    destruct (prepend_step s _ i (Sleeping w) _ s' Hstep eq_refl Hrun Hfin)
      as [Hrun' Hfin'].
    eexists _, s'. split; [|split; [|split; [exact Hrun'|split]]].
    + repeat constructor.
    + simpl. lia.
    + exact Hfin'.
    + by exists g.
  - assert (Hstep : step (Run i) s = Some (set_pc s i Awake)).
    { simpl. rewrite Hi. simpl. by rewrite bool_decide_eq_false_2. }
    destruct (leave_from_awake (set_pc s i Awake) i)
      as (s' & Hrun & Hfin & Hg).
    { simpl. by apply list_lookup_insert_eq. }
    destruct (prepend_step s _ i Awake _ s' Hstep eq_refl Hrun Hfin)
      as [Hrun' Hfin'].
    eexists _, s'. split; [|split; [|split; [exact Hrun'|split]]].
    + repeat constructor.
    + simpl. lia.
    + exact Hfin'.
    + by eexists.
Qed.

Lemma leave_from_entered s i :
  workers s !! i = Some Entered ->
  exists sched s', Forall (solo i) sched /\ (length sched <= 6)%nat
    /\ exec sched s = Some s' /\ finished i s s'
    /\ exists g, grants s' = g :: grants s.
Proof.
  intros Hi. pose proof (lookup_lt_Some _ _ _ Hi) as Hlt.
  assert (Hstep : step (Run i) s = Some (set_pc s i (Read (now s)))).
  { simpl. by rewrite Hi. }
  destruct (leave_from_read (set_pc s i (Read (now s))) i (now s))
    as (sched & s' & Hsolo & Hlen & Hrun & Hfin & g & Hg).
  { simpl. by apply list_lookup_insert_eq. }
  destruct (prepend_step s _ i (Read (now s)) _ s' Hstep eq_refl Hrun Hfin)
    as [Hrun' Hfin'].
  exists (Run i :: sched), s'.
  split; [by constructor|split; [simpl; lia|split; [done|split; [done|]]]].
  by exists g.
Qed.

(** The worker that holds the lock can leave the section. *)
Lemma holder_can_leave s j p :
  workers s !! j = Some p -> p <> Idle ->
  exists before s1, exec before s = Some s1 /\ finished j s s1.
Proof.
  intros Hj Hp. destruct p as [| |c|w| |]; [done|..].
  - destruct (leave_from_entered s j Hj) as (sched & s1 & _ & _ & ? & ? & _).
    by exists sched, s1.
  - destruct (leave_from_read s j c Hj) as (sched & s1 & _ & _ & ? & ? & _).
    by exists sched, s1.
  - destruct (leave_from_sleeping s j w Hj) as (s1 & ? & ? & _).
    by eexists _, s1.
  - destruct (leave_from_awake s j Hj) as (s1 & ? & ? & _).
    by eexists _, s1.
  - destruct (leave_from_stamped s j Hj) as (s1 & ? & ? & _).
    by eexists _, s1.
Qed.

End LimiterProgress.

(** X17. Once a worker is inside [wait_for_rate_limit]'s [with] block it
    can always get to the end of it on its own: from any state, at most
    six steps of that worker and of the clock take it out, with the lock
    released and, unless it had already stored its stamp, with one more
    grant in the log.  No other worker has to move, so the section cannot
    block. *)
Theorem section_can_be_left
    (REQUEST_DELAY eps : Z) (s : RateLimiter.state) (i : nat)
    (p : RateLimiter.pc) :
  RateLimiter.workers s !! i = Some p ->
  p <> RateLimiter.Idle ->
  exists schedule s',
    Forall (RateLimiter.solo i) schedule
    /\ (length schedule <= 6)%nat
    /\ RateLimiter.exec REQUEST_DELAY eps schedule s = Some s'
    /\ RateLimiter.finished i s s'
    /\ (p <> RateLimiter.Stamped ->
        exists g, RateLimiter.grants s' = g :: RateLimiter.grants s).
Proof.
  intros Hi Hp. destruct p as [| |c|w| |]; [done|..].
  - destruct (leave_from_entered REQUEST_DELAY eps s i Hi)
      as (sched & s' & ? & ? & ? & ? & ?).
    by exists sched, s'.
  - destruct (leave_from_read REQUEST_DELAY eps s i c Hi)
      as (sched & s' & ? & ? & ? & ? & ?).
    exists sched, s'.
    split; [done|split; [lia|split; [done|split; [done|by intros _]]]].
  - destruct (leave_from_sleeping REQUEST_DELAY eps s i w Hi)
      as (s' & Hrun & Hfin & Hg).
    eexists _, s'.
    split; [|split; [|split; [exact Hrun|split; [exact Hfin|by intros _]]]];
      [repeat constructor|simpl; lia].
  - destruct (leave_from_awake REQUEST_DELAY eps s i Hi)
      as (s' & Hrun & Hfin & Hg).
    eexists _, s'.
    split; [|split; [|split; [exact Hrun|split; [exact Hfin|]]]];
      [repeat constructor|simpl; lia|intros _; by eexists].
  - destruct (leave_from_stamped REQUEST_DELAY eps s i Hi)
      as (s' & Hrun & Hfin & Hg).
    eexists _, s'.
    split; [|split; [|split; [exact Hrun|split; [exact Hfin|done]]]];
      [repeat constructor|simpl; lia].
Qed.

Lemma section_can_be_left_witness :
  exists schedule s',
    Forall (RateLimiter.solo 0%nat) schedule
    /\ (length schedule <= 6)%nat
    /\ RateLimiter.exec 300 0 schedule
         (RateLimiter.State 1000 40 900 (Some 0%nat)
            [RateLimiter.Read 1000; RateLimiter.Idle] [900]) = Some s'
    /\ RateLimiter.finished 0 (RateLimiter.State 1000 40 900 (Some 0%nat)
            [RateLimiter.Read 1000; RateLimiter.Idle] [900]) s'.
Proof.
  destruct (section_can_be_left 300 0
              (RateLimiter.State 1000 40 900 (Some 0%nat)
                 [RateLimiter.Read 1000; RateLimiter.Idle] [900])
              0%nat (RateLimiter.Read 1000) ltac:(reflexivity)
              ltac:(discriminate))
    as (schedule & s' & H1 & H2 & H3 & H4 & _).
  by exists schedule, s'.
Defined.

Section LimiterMore.
Import RateLimiter.

Variable REQUEST_DELAY : Z.
Variable eps : Z.

Local Abbreviation step := (RateLimiter.step REQUEST_DELAY eps).
Local Abbreviation exec := (RateLimiter.exec REQUEST_DELAY eps).

Lemma setback_nonneg ls : 0 <= setback ls.
Proof. induction ls as [|[d|d|i] ls IH]; simpl; lia. Qed.

Lemma setback_steady ls : Forall steady ls -> setback ls = 0.
Proof.
  induction 1 as [|[d|d|i] ls Hl _ IH]; simpl in *; lia.
Qed.

(** A step lets the stamp get ahead of the clock by no more than it sets
    the clock back. *)
Lemma timely_step l s s' back :
  0 <= back -> excl s -> timely back s -> step l s = Some s' ->
  timely (back + setback [l]) s'.
Proof.
  intros Hback Hex [Hle Hread] Hstep. destruct l as [d|d|i]; simpl in Hstep.
  - case_bool_decide; [|discriminate]. injection Hstep as <-.
    split; simpl; [lia|]. intros j c Hj. specialize (Hread j c Hj). lia.
  - injection Hstep as <-.
    split; simpl; [lia|]. intros j c Hj. specialize (Hread j c Hj). lia.
  - destruct (workers s !! i) as [p|] eqn:Hi; simpl in Hstep; [|discriminate].
    assert (Hkeep : forall q, (forall c, q <> Read c) ->
              forall j c, <[i := q]> (workers s) !! j = Some (Read c) ->
                          last_request_time s <= c + (back + 0)).
    { intros q Hq j c Hj.
      apply list_lookup_insert_Some in Hj as [(_ & Hc & _)|(_ & Hj)].
      - by destruct (Hq c).
      - specialize (Hread j c Hj). lia. }
    destruct p as [| |c|w| |].
    + destruct (rate_limiter_lock s); [discriminate|].
      injection Hstep as <-. split; simpl; [lia|]. by apply Hkeep.
    + injection Hstep as <-. split; simpl; [lia|]. intros j c Hj.
      apply list_lookup_insert_Some in Hj as [(_ & [= <-] & _)|(_ & Hj)];
        [lia|]. specialize (Hread j c Hj). lia.
    + case_bool_decide; injection Hstep as <-; (split; simpl; [lia|]);
        by apply Hkeep.
    + case_bool_decide; [|discriminate]. injection Hstep as <-.
      split; simpl; [lia|]. by apply Hkeep.
    + injection Hstep as <-. split; simpl; [lia|]. intros j c Hj.
      apply list_lookup_insert_Some in Hj as [(_ & ? & _)|(Hij & Hj)];
        [done|].
      by pose proof (holder_alone s i j Awake (Read c)
                       Hex Hi ltac:(done) Hj Hij).
    + injection Hstep as <-. split; simpl; [lia|]. by apply Hkeep.
Qed.

Lemma timely_exec ls : forall back s s',
  0 <= back -> excl s -> timely back s -> exec ls s = Some s' ->
  timely (back + setback ls) s'.
Proof.
  induction ls as [|l ls IH]; intros back s s' Hback Hex Ht Hrun;
    simpl in Hrun.
  - injection Hrun as <-. simpl. by rewrite Z.add_0_r.
  - destruct (step l s) as [s1|] eqn:Hstep; [|discriminate]. simpl in Hrun.
    pose proof (setback_nonneg [l]) as Hl.
    replace (back + setback (l :: ls))
      with (back + setback [l] + setback ls)
      by (destruct l; simpl; lia).
    eapply IH; [lia| | |exact Hrun].
    + by eapply excl_step.
    + by eapply timely_step.
Qed.

Lemma owned_step l s s' :
  excl s -> owned s -> step l s = Some s' -> owned s'.
Proof.
  intros Hex Hown Hstep. destruct l as [d|d|i]; simpl in Hstep.
  - case_bool_decide; [|discriminate]. by injection Hstep as <-.
  - by injection Hstep as <-.
  - destruct (workers s !! i) as [p|] eqn:Hi; simpl in Hstep; [|discriminate].
    pose proof (lookup_lt_Some _ _ _ Hi) as Hlt.
    assert (Hkeep : forall q, q <> Idle -> p <> Idle ->
              owned (State (now s) (monotonic s) (last_request_time s)
                       (rate_limiter_lock s)
                       (<[i := q]> (workers s)) (grants s))).
    { intros q Hq Hp j Hj. simpl in *.
      pose proof (Hex i p Hi Hp) as Hl.
      assert (j = i) as -> by congruence.
      exists q. by rewrite list_lookup_insert_eq. }
    destruct p as [| |c|w| |].
    + destruct (rate_limiter_lock s); [discriminate|].
      injection Hstep as <-. intros j [= <-]. simpl.
      exists Entered. by rewrite list_lookup_insert_eq.
    + injection Hstep as <-. by apply Hkeep.
    + case_bool_decide; injection Hstep as <-; by apply Hkeep.
    + case_bool_decide; [|discriminate]. injection Hstep as <-.
      by apply Hkeep.
    + injection Hstep as <-. intros j Hj. simpl in *.
      pose proof (Hex i Awake Hi ltac:(done)).
      assert (j = i) as -> by congruence.
      exists Stamped. by rewrite list_lookup_insert_eq.
    + injection Hstep as <-. intros j Hj. discriminate.
Qed.

Lemma reachable_facts ls : forall s s',
  excl s -> owned s -> exec ls s = Some s' -> excl s' /\ owned s'.
Proof.
  induction ls as [|l ls IH]; intros s s' Hex Ho Hrun; simpl in Hrun.
  - by injection Hrun as <-.
  - destruct (step l s) as [s1|] eqn:Hstep; [|discriminate]. simpl in Hrun.
    eapply IH; [| |exact Hrun].
    + by eapply excl_step.
    + by eapply owned_step.
Qed.

Lemma init_facts n t0 : excl (init n t0) /\ owned (init n t0).
Proof.
  split; [apply excl_init|]. intros i Hi. discriminate.
Qed.

Lemma init_timely n t0 : 0 <= t0 -> timely 0 (init n t0).
Proof.
  intros Ht0. split; simpl; [lia|]. intros i c Hi.
  by apply lookup_replicate_1 in Hi as [? _].
Qed.

End LimiterMore.

(** X18. The sleep of [wait_for_rate_limit] is bounded.  In any run that
    starts with the system clock at or after zero, whatever is done to the
    clock meanwhile, a worker that has read the clock either finds the
    delay already over and does not sleep, or asks [time.sleep] for a time
    that is positive and at most [REQUEST_DELAY] plus the total by which
    the system clock was set back during the run.  So the sleep is at most
    [REQUEST_DELAY] when the clock was never set back, and can be longer
    only by what it was set back. *)
Theorem sleep_time_bounded
    (REQUEST_DELAY eps : Z) (n : nat) (t0 : Z)
    (schedule : list RateLimiter.label) (s : RateLimiter.state)
    (i : nat) (current_time : Z) :
  0 <= t0 ->
  RateLimiter.exec REQUEST_DELAY eps schedule (RateLimiter.init n t0) = Some s ->
  RateLimiter.workers s !! i = Some (RateLimiter.Read current_time) ->
  exists s', RateLimiter.step REQUEST_DELAY eps (RateLimiter.Run i) s = Some s'
    /\ (REQUEST_DELAY <= current_time - RateLimiter.last_request_time s ->
        RateLimiter.workers s' !! i = Some RateLimiter.Awake)
    /\ (current_time - RateLimiter.last_request_time s < REQUEST_DELAY ->
        exists until,
          RateLimiter.workers s' !! i = Some (RateLimiter.Sleeping until)
          /\ 0 < until - RateLimiter.monotonic s
               <= REQUEST_DELAY + RateLimiter.setback schedule
          /\ (Forall RateLimiter.steady schedule ->
              until - RateLimiter.monotonic s <= REQUEST_DELAY)).
Proof.
  intros Ht0 Hrun Hi.
  destruct (timely_exec REQUEST_DELAY eps schedule 0 _ s ltac:(lia)
              (excl_init n t0) (init_timely n t0 Ht0) Hrun) as [_ Hread].
  specialize (Hread i current_time Hi).
  pose proof (lookup_lt_Some _ _ _ Hi) as Hlt.
  simpl. rewrite Hi. simpl. case_bool_decide as Hc.
  - eexists. split; [done|]. split; [lia|]. intros _. eexists. simpl.
    rewrite list_lookup_insert_eq by done. split; [done|]. split; [lia|].
    intros Hsteady. rewrite (setback_steady _ Hsteady) in Hread. lia.
  - eexists. split; [done|]. split; [|lia]. intros _. simpl.
    by rewrite list_lookup_insert_eq.
Qed.

(** The first worker is granted at 1000, the clock is set back by 500 ms,
    and the second worker, reading 500, asks for a sleep of 800 ms. *)
Lemma sleep_time_bounded_witness :
  exists s' until,
    RateLimiter.step 300 0 (RateLimiter.Run 1)
      (RateLimiter.State 500 0 1000 (Some 1%nat)
         [RateLimiter.Idle; RateLimiter.Read 500] [1000])
    = Some s'
    /\ RateLimiter.workers s' !! 1%nat = Some (RateLimiter.Sleeping until)
    /\ 0 < until - 0 <= 300 + 500.
Proof.
  destruct (sleep_time_bounded 300 0 2 1000
    [RateLimiter.Run 0; RateLimiter.Run 0; RateLimiter.Run 0;
     RateLimiter.Run 0; RateLimiter.Run 0;
     RateLimiter.Adjust (-500);
     RateLimiter.Run 1; RateLimiter.Run 1]%nat
    (RateLimiter.State 500 0 1000 (Some 1%nat)
       [RateLimiter.Idle; RateLimiter.Read 500] [1000]) 1%nat 500
    ltac:(lia) ltac:(reflexivity) ltac:(reflexivity))
    as (s' & Hstep & _ & Hsleep).
  destruct (Hsleep ltac:(simpl; lia)) as (until & Hw & Hbound & _).
  by exists s', until.
Defined.

(** X19. The rate limiter cannot deadlock.  From every state a run can
    reach, a worker that is waiting to enter [wait_for_rate_limit] can be
    granted: first the worker that holds the lock, if there is one,
    leaves the section by its own steps, and then steps of the waiting
    worker and of the clock alone take it through the section, with one
    more grant in the log and the lock free again. *)
Theorem waiting_worker_can_be_granted
    (REQUEST_DELAY eps : Z) (n : nat) (t0 : Z)
    (schedule : list RateLimiter.label) (s : RateLimiter.state) (i : nat) :
  0 <= eps -> 0 <= t0 ->
  RateLimiter.exec REQUEST_DELAY eps schedule (RateLimiter.init n t0) = Some s ->
  RateLimiter.workers s !! i = Some RateLimiter.Idle ->
  exists before s1 own s2,
    RateLimiter.exec REQUEST_DELAY eps before s = Some s1
    /\ RateLimiter.rate_limiter_lock s1 = None
    /\ Forall (RateLimiter.solo i) own
    /\ RateLimiter.exec REQUEST_DELAY eps own s1 = Some s2
    /\ RateLimiter.finished i s1 s2
    /\ exists g, RateLimiter.grants s2 = g :: RateLimiter.grants s1.
Proof.
  intros Heps Ht0 Hrun Hi.
  destruct (init_facts n t0) as (H1 & H2).
  destruct (reachable_facts REQUEST_DELAY eps schedule _ _ H1 H2 Hrun)
    as (Hex & Hown).
  assert (Hfree : exists before s1,
            RateLimiter.exec REQUEST_DELAY eps before s = Some s1
            /\ RateLimiter.rate_limiter_lock s1 = None
            /\ RateLimiter.workers s1 !! i = Some RateLimiter.Idle).
  { destruct (RateLimiter.rate_limiter_lock s) as [j|] eqn:Hlock.
    - destruct (Hown j Hlock) as (p & Hj & Hp).
      destruct (holder_can_leave REQUEST_DELAY eps s j p Hj Hp)
        as (before & s1 & Hbefore & [Hw Hl]).
      exists before, s1. split; [done|split; [done|]].
      rewrite Hw. rewrite list_lookup_insert_ne; [done|].
      intros ->. congruence.
    - by exists [], s. }
  destruct Hfree as (before & s1 & Hbefore & Hl & Hi1).
  pose proof (lookup_lt_Some _ _ _ Hi1) as Hlt.
  set (s1' := RateLimiter.State (RateLimiter.now s1)
                (RateLimiter.monotonic s1)
                (RateLimiter.last_request_time s1) (Some i)
                (<[i := RateLimiter.Entered]> (RateLimiter.workers s1))
                (RateLimiter.grants s1)).
  assert (Hstep : RateLimiter.step REQUEST_DELAY eps (RateLimiter.Run i) s1
                  = Some s1').
  { simpl. rewrite Hi1. simpl. by rewrite Hl. }
  destruct (leave_from_entered REQUEST_DELAY eps s1' i)
    as (own & s2 & Hsolo & _ & Hown2 & Hfin & g & Hg).
  { simpl. by apply list_lookup_insert_eq. }
  destruct (prepend_step REQUEST_DELAY eps s1 s1' i RateLimiter.Entered own s2
              Hstep eq_refl Hown2 Hfin) as [Hrun' Hfin'].
  exists before, s1, (RateLimiter.Run i :: own), s2.
  split; [done|split; [done|split; [by constructor|split; [done|split]]]].
  - done.
  - by exists g.
Qed.

Lemma waiting_worker_can_be_granted_witness :
  exists before s1 own s2,
    RateLimiter.exec 300 0 before
      (RateLimiter.State 1000 0 1000 (Some 1%nat)
         [RateLimiter.Idle; RateLimiter.Read 1000] [1000]) = Some s1
    /\ RateLimiter.rate_limiter_lock s1 = None
    /\ Forall (RateLimiter.solo 0%nat) own
    /\ RateLimiter.exec 300 0 own s1 = Some s2.
Proof.
  destruct (waiting_worker_can_be_granted 300 0 2 1000
    [RateLimiter.Run 0; RateLimiter.Run 0; RateLimiter.Run 0;
     RateLimiter.Run 0; RateLimiter.Run 0;
     RateLimiter.Run 1; RateLimiter.Run 1]%nat
    (RateLimiter.State 1000 0 1000 (Some 1%nat)
       [RateLimiter.Idle; RateLimiter.Read 1000] [1000]) 0%nat
    ltac:(lia) ltac:(lia) ltac:(reflexivity) ltac:(reflexivity))
    as (before & s1 & own & s2 & Ha & Hb & Hc & Hd & _).
  by exists before, s1, own, s2.
Defined.

(* ===================================================================== *)
(** * Further properties: the summaries *)
(* ===================================================================== *)

Section DigitFacts.
Import PyStr.

Lemma all_chars_impl (p q : ascii -> bool) s :
  (forall c, p c = true -> q c = true) ->
  all_chars p s = true -> all_chars q s = true.
Proof.
  intros Hpq. induction s as [|c s IH]; [done|]. simpl.
  rewrite !andb_true_iff. intros [Hc Hs]. auto.
Qed.

Lemma all_chars_append p s t :
  all_chars p (s +:+ t) = all_chars p s && all_chars p t.
Proof.
  induction s as [|c s IH]; [done|].
  rewrite append_cons. simpl. by rewrite IH, andb_assoc.
Qed.

(** A text none of whose characters is [c] holds no text that starts
    with [c]. *)
Lemma contains_absent p c needle s :
  all_chars p s = true -> p c = false ->
  contains (String c needle) s = false.
Proof.
  intros Hs Hc. induction s as [|a s IH]; [done|].
  simpl in Hs. apply andb_true_iff in Hs as [Ha Hs]. simpl.
  rewrite (IH Hs), orb_false_r.
  destruct (Ascii.eqb_spec c a) as [->|Hne]; [congruence|done].
Qed.

Lemma pretty_N_char_digit x : is_digit_or_minus (pretty_N_char x) = true.
Proof. unfold pretty_N_char. by repeat case_match. Qed.

Lemma pretty_N_go_digits x : forall s,
  all_chars is_digit_or_minus s = true ->
  all_chars is_digit_or_minus (pretty_N_go x s) = true.
Proof.
  induction (N.lt_wf_0 x) as [x _ IH]. intros s Hs.
  destruct (decide (0 < x)%N) as [Hx|Hx].
  - rewrite pretty_N_go_step by done. apply IH.
    + by apply N.div_lt.
    + simpl. by rewrite pretty_N_char_digit, Hs.
  - assert (x = 0%N) as -> by lia. by rewrite pretty_N_go_0.
Qed.

Lemma pretty_N_digits (x : N) : all_chars is_digit_or_minus (pretty x) = true.
Proof.
  unfold pretty, pretty_N. case_decide; [done|].
  by apply pretty_N_go_digits.
Qed.

(** [str(n)] is made of digits and a minus sign. *)
Lemma pretty_Z_digits (z : Z) : all_chars is_digit_or_minus (pretty z) = true.
Proof.
  destruct z as [|p|p]; [done| |].
  - apply (pretty_N_digits (Npos p)).
  - change (pretty (Z.neg p)) with ("-" +:+ pretty (Npos p)).
    rewrite all_chars_append, (pretty_N_digits (Npos p)). done.
Qed.

Lemma http_status_absent (c : ascii) needle (code : Z) :
  is_digit_or_minus c = false ->
  c ∉ ["H"; "T"; "P"; " "]%char ->
  contains (String c needle) ("HTTP " +:+ pretty code) = false.
Proof.
  intros Hd Hc.
  apply (contains_absent
           (fun a => is_digit_or_minus a
                     || bool_decide (a ∈ ["H"; "T"; "P"; " "]%char))).
  - rewrite all_chars_append. apply andb_true_iff. split; [done|].
    eapply all_chars_impl; [|apply pretty_Z_digits].
    intros a ->. done.
  - rewrite Hd. simpl. by apply bool_decide_eq_false_2.
Qed.

End DigitFacts.

Section SummaryFacts.
Import PyStr Requests Effects.

Local Ltac split_ifs :=
  repeat match goal with
         | |- context [if ?b then _ else _] => destruct b
         end.

Local Ltac listed := apply (bool_decide_unpack _); by vm_compute.

Lemma status_shape net line :
  let r := result_of net (CheckUrlsStatus.check_url line) in
  (CheckUrlsStatus.status r, CheckUrlsStatus.error_type r)
    ∈ CheckUrlsStatus.shapes
  \/ exists code : Z,
       CheckUrlsStatus.status r = "HTTP " +:+ pretty code
       /\ CheckUrlsStatus.error_type r = "HTTP Error".
Proof.
  cbv zeta. unfold result_of.
  destruct (CheckUrlsStatus.skips line) eqn:Hs.
  - rewrite (status_run_skipped net line Hs). left. listed.
  - rewrite (status_run_probed net line Hs). cbv zeta.
    assert (Hget :
      let r := match net_get net (CheckUrlsStatus.target line) with
               | Response code text =>
                   CheckUrlsStatus.classify_response
                     (CheckUrlsStatus.original line) code text
               | Raised e =>
                   CheckUrlsStatus.classify_exception
                     (CheckUrlsStatus.original line) e
               end in
      (CheckUrlsStatus.status r, CheckUrlsStatus.error_type r)
        ∈ CheckUrlsStatus.shapes
      \/ exists code : Z,
           CheckUrlsStatus.status r = "HTTP " +:+ pretty code
           /\ CheckUrlsStatus.error_type r = "HTTP Error").
    { cbv zeta.
      destruct (net_get net (CheckUrlsStatus.target line)) as [code text|e].
      - unfold CheckUrlsStatus.classify_response. split_ifs;
          cbn [CheckUrlsStatus.status CheckUrlsStatus.error_type];
          first [left; listed | right; by exists code].
      - left. unfold CheckUrlsStatus.classify_exception. split_ifs;
          cbn [CheckUrlsStatus.status CheckUrlsStatus.error_type];
          listed. }
    destruct (net_dns net (CheckUrlsStatus.target line)) as [|m|m];
      cbn [fst CheckUrlsStatus.status CheckUrlsStatus.error_type];
      [exact Hget| |exact Hget].
    left. listed.
Qed.

(** A record of [check_url] is counted in one bucket, or in none and
    then has one of the five other statuses. *)
Lemma status_one_bucket net line :
  let r := result_of net (CheckUrlsStatus.check_url line) in
  CheckUrlsStatus.buckets r + Z.b2z (CheckUrlsStatus.is_other r) = 1.
Proof.
  cbv zeta. pose proof (status_shape net line) as Hshape.
  cbv zeta in Hshape.
  revert Hshape.
  generalize (result_of net (CheckUrlsStatus.check_url line)).
  intros r Hshape.
  assert (Hpairs : Forall (fun p : string * string =>
    forall r', CheckUrlsStatus.status r' = p.1 ->
               CheckUrlsStatus.error_type r' = p.2 ->
               CheckUrlsStatus.buckets r' + Z.b2z (CheckUrlsStatus.is_other r')
               = 1) CheckUrlsStatus.shapes).
  { unfold CheckUrlsStatus.shapes.
    repeat constructor; intros r' Hst Hty;
      unfold CheckUrlsStatus.buckets, CheckUrlsStatus.is_working,
        CheckUrlsStatus.is_error_page, CheckUrlsStatus.is_dns_error,
        CheckUrlsStatus.is_timeout, CheckUrlsStatus.is_connection_error,
        CheckUrlsStatus.is_http_error, CheckUrlsStatus.is_skipped,
        CheckUrlsStatus.is_other; rewrite Hst, Hty; reflexivity. }
  destruct Hshape as [Hin|(code & Hst & Hty)].
  - rewrite Forall_forall in Hpairs. by apply (Hpairs _ Hin r).
  - unfold CheckUrlsStatus.buckets, CheckUrlsStatus.is_working,
      CheckUrlsStatus.is_error_page, CheckUrlsStatus.is_dns_error,
      CheckUrlsStatus.is_timeout, CheckUrlsStatus.is_connection_error,
      CheckUrlsStatus.is_http_error, CheckUrlsStatus.is_skipped,
      CheckUrlsStatus.is_other.
    rewrite Hst, Hty.
    rewrite (http_status_absent "D" "NS" code) by
      (try reflexivity; apply (bool_decide_unpack _); reflexivity).
    rewrite (http_status_absent "C" "onnection" code) by
      (try reflexivity; apply (bool_decide_unpack _); reflexivity).
    rewrite bool_decide_eq_false_2.
    2:{ rewrite !elem_of_cons, elem_of_nil.
        intros [E|[E|[E|[E|[E|[]]]]]]; discriminate E. }
    reflexivity.
Qed.

Lemma status_count_cons p r l :
  CheckUrlsStatus.count p (r :: l)
  = Z.b2z (p r) + CheckUrlsStatus.count p l.
Proof.
  unfold CheckUrlsStatus.count. simpl. destruct (p r); simpl; lia.
Qed.

Lemma status_counts_total results :
  (forall r, r ∈ results ->
     CheckUrlsStatus.buckets r + Z.b2z (CheckUrlsStatus.is_other r) = 1) ->
  CheckUrlsStatus.other_count (Z.of_nat (length results)) results
  = CheckUrlsStatus.count CheckUrlsStatus.is_other results.
Proof.
  unfold CheckUrlsStatus.other_count.
  induction results as [|r results IH]; intros Hall; [done|].
  rewrite !status_count_cons.
  pose proof (Hall r (list_elem_of_here _ _)) as Hr.
  unfold CheckUrlsStatus.buckets in Hr.
  specialize (IH (fun r' Hr' => Hall r' (list_elem_of_further _ _ _ Hr'))).
  simpl length. lia.
Qed.

End SummaryFacts.

(** X20. The summary of [check_urls_status.py].  On the records of a run
    the seven buckets, though found by looking for words inside the
    status and the error type, never overlap: every record is counted in
    at most one.  So "Other" is never negative: it is the number of
    records whose status is SSL Error, Redirect Error, Request Error,
    Unknown Error or Unknown Status; and "Skipped" is always zero. *)
Theorem status_summary_buckets
    (nets : list Effects.network) (lines : list string)
    (results : list CheckUrlsStatus.result) :
  CheckUrlsStatus.completes nets lines results ->
  (forall r, r ∈ results -> 0 <= CheckUrlsStatus.buckets r <= 1)
  /\ CheckUrlsStatus.other_count
       (Z.of_nat (length (CheckUrlsStatus.read_urls_from_file lines))) results
     = CheckUrlsStatus.count CheckUrlsStatus.is_other results
  /\ 0 <= CheckUrlsStatus.other_count
            (Z.of_nat (length (CheckUrlsStatus.read_urls_from_file lines)))
            results
  /\ CheckUrlsStatus.count CheckUrlsStatus.is_skipped results = 0.
Proof.
  intros Hrun. pose proof Hrun as [Hlen Hperm].
  assert (Hone : forall r, r ∈ results ->
    CheckUrlsStatus.buckets r + Z.b2z (CheckUrlsStatus.is_other r) = 1).
  { intros r Hr. rewrite Hperm in Hr.
    apply elem_of_zip_with in Hr as (net & u & -> & _ & _).
    apply status_one_bucket. }
  assert (Htotal : length (CheckUrlsStatus.read_urls_from_file lines)
                   = length results).
  { rewrite Hperm. unfold CheckUrlsStatus.submitted.
    by rewrite length_zip_with_l_eq. }
  rewrite Htotal, (status_counts_total results Hone).
  split; [|split; [done|split]].
  - intros r Hr. specialize (Hone r Hr).
    unfold CheckUrlsStatus.buckets in *.
    destruct (CheckUrlsStatus.is_working r), (CheckUrlsStatus.is_error_page r),
      (CheckUrlsStatus.is_dns_error r), (CheckUrlsStatus.is_timeout r),
      (CheckUrlsStatus.is_connection_error r),
      (CheckUrlsStatus.is_http_error r), (CheckUrlsStatus.is_skipped r),
      (CheckUrlsStatus.is_other r); simpl in *; lia.
  - unfold CheckUrlsStatus.count. lia.
  - unfold CheckUrlsStatus.count.
    assert (Hnil : List.filter CheckUrlsStatus.is_skipped results = []);
      [|by rewrite Hnil].
    destruct (List.filter CheckUrlsStatus.is_skipped results) as [|r l] eqn:Hf;
      [done|].
    assert (Hr : In r (List.filter CheckUrlsStatus.is_skipped results))
      by (rewrite Hf; by left).
    apply filter_In in Hr as [Hr Hsk].
    apply String.eqb_eq in Hsk.
    apply list_elem_of_In in Hr. rewrite Hperm in Hr.
    apply elem_of_zip_with in Hr as (net & u & -> & _ & Hu).
    by destruct (status_probed_not_skipped net u
                   (status_kept_not_skipped lines u Hu)).
Qed.

Lemma status_summary_buckets_witness :
  CheckUrlsStatus.other_count 3
    (CheckUrlsStatus.submitted
       [Samples.answering Samples.ok; Samples.answering Samples.ok;
        Samples.answering (Requests.Raised Samples.refused)]
       (CheckUrlsStatus.read_urls_from_file Samples.input_file))
  = 0.
Proof.
  etrans.
  - apply (proj1 (proj2 (status_summary_buckets
             [Samples.answering Samples.ok; Samples.answering Samples.ok;
              Samples.answering (Requests.Raised Samples.refused)]
             Samples.input_file
             (CheckUrlsStatus.submitted
                [Samples.answering Samples.ok; Samples.answering Samples.ok;
                 Samples.answering (Requests.Raised Samples.refused)]
                (CheckUrlsStatus.read_urls_from_file Samples.input_file))
             ltac:(split; reflexivity)))).
  - reflexivity.
Defined.

Section KayakoSummary.
Import PyStr Requests Effects.

Lemma kayako_count_cons word r l :
  UrlChecker.count word (r :: l)
  = Z.b2z (String.eqb (UrlChecker.status r) word) + UrlChecker.count word l.
Proof.
  unfold UrlChecker.count. simpl.
  destruct (String.eqb (UrlChecker.status r) word); simpl; lia.
Qed.

Lemma kayako_counts_total results :
  (forall r, r ∈ results -> UrlChecker.status r ∈ Spec.kayako_taxonomy) ->
  UrlChecker.active_count results + UrlChecker.unavailable_count results
  + UrlChecker.inactive_count results + UrlChecker.skipped_count results
  = Z.of_nat (length results).
Proof.
  unfold UrlChecker.active_count, UrlChecker.unavailable_count,
    UrlChecker.inactive_count, UrlChecker.skipped_count.
  induction results as [|r results IH]; intros Hall; [done|].
  rewrite !kayako_count_cons.
  specialize (IH (fun r' Hr' => Hall r' (list_elem_of_further _ _ _ Hr'))).
  pose proof (Hall r (list_elem_of_here _ _)) as Hr.
  unfold Spec.kayako_taxonomy in Hr.
  rewrite !elem_of_cons, elem_of_nil in Hr.
  destruct Hr as [->|[->|[->|[->|[]]]]]; simpl length; simpl String.eqb;
    simpl Z.b2z; lia.
Qed.

End KayakoSummary.

(** X21. The summary of [url_checker.py] accounts for every record: the
    counts of Active Kayako, Instance unavailable, Inactive and Skipped
    add up to the number of URLs checked, because [check_url] gives no
    other status. *)
Theorem kayako_summary_total
    (nets : list Effects.network) (lines : list string)
    (results : list UrlChecker.result) :
  UrlChecker.completes nets lines results ->
  UrlChecker.active_count results + UrlChecker.unavailable_count results
  + UrlChecker.inactive_count results + UrlChecker.skipped_count results
  = Z.of_nat (length (UrlChecker.read_urls_from_file lines)).
Proof.
  intros [Hlen Hperm].
  assert (Htotal : length (UrlChecker.read_urls_from_file lines)
                   = length results).
  { rewrite Hperm. unfold UrlChecker.submitted.
    by rewrite length_zip_with_l_eq. }
  rewrite Htotal. apply kayako_counts_total.
  intros r Hr. rewrite Hperm in Hr.
  apply elem_of_zip_with in Hr as (net & u & -> & _ & _).
  apply kayako_listed.
Qed.

Lemma kayako_summary_total_witness :
  UrlChecker.active_count
    (UrlChecker.submitted
       [Samples.answering Samples.ok; Samples.answering Samples.ok;
        Samples.answering Samples.ok]
       (UrlChecker.read_urls_from_file Samples.input_file))
  + UrlChecker.unavailable_count
      (UrlChecker.submitted
         [Samples.answering Samples.ok; Samples.answering Samples.ok;
          Samples.answering Samples.ok]
         (UrlChecker.read_urls_from_file Samples.input_file))
  + UrlChecker.inactive_count
      (UrlChecker.submitted
         [Samples.answering Samples.ok; Samples.answering Samples.ok;
          Samples.answering Samples.ok]
         (UrlChecker.read_urls_from_file Samples.input_file))
  + UrlChecker.skipped_count
      (UrlChecker.submitted
         [Samples.answering Samples.ok; Samples.answering Samples.ok;
          Samples.answering Samples.ok]
         (UrlChecker.read_urls_from_file Samples.input_file))
  = 3.
Proof.
  apply (kayako_summary_total
           [Samples.answering Samples.ok; Samples.answering Samples.ok;
            Samples.answering Samples.ok] Samples.input_file
           (UrlChecker.submitted
              [Samples.answering Samples.ok; Samples.answering Samples.ok;
               Samples.answering Samples.ok]
              (UrlChecker.read_urls_from_file Samples.input_file))).
  split; reflexivity.
Defined.

(* ===================================================================== *)
(** * Further properties: which rows say Timeout *)
(* ===================================================================== *)

Section TimeoutCell.
Import PyStr Requests Effects.

(** A number never reads "Timeout". *)
Lemma pretty_not_timeout (code : Z) : pretty code <> "Timeout".
Proof.
  intros E. pose proof (pretty_Z_digits code) as Hd.
  rewrite E in Hd. discriminate Hd.
Qed.

Lemma kayako_exception_timeout o e :
  UrlChecker.http_code (UrlChecker.classify_exception o e) = PStr "Timeout"
  <-> isinstance e Timeout = true.
Proof.
  unfold UrlChecker.classify_exception.
  destruct (isinstance e Timeout); [done|].
  repeat match goal with
         | |- context [if ?b then _ else _] => destruct b
         end; split; discriminate.
Qed.

Lemma retest_exception_not_timeout o e :
  isinstance e Timeout = false ->
  RetestTimeouts.http_code (RetestTimeouts.classify_exception o e)
  <> PStr "Timeout".
Proof.
  intros Ht. destruct (retest_exception_kind o e Ht) as [_ ->].
  unfold Spec.retest_exception_kind, Spec.timeout. rewrite Ht.
  repeat match goal with
         | |- context [if ?b then _ else _] => destruct b
         end; discriminate.
Qed.

End TimeoutCell.

(** X22. The HTTP Code cell that [url_checker.py] writes for a line reads
    "Timeout" exactly when the GET for that line raised a timeout; those
    are the rows the retest picks up. *)
Theorem kayako_timeout_cell (net : Effects.network) (line : string) :
  py_str (UrlChecker.http_code
            (Effects.result_of net (UrlChecker.check_url line))) = "Timeout"
  <-> exists n e, UrlChecker.normalize_url line = Some n
        /\ Effects.net_get net n = Requests.Raised e
        /\ Requests.isinstance e Requests.Timeout = true.
Proof.
  unfold Effects.result_of.
  destruct (UrlChecker.normalize_url line) as [n|] eqn:Hn.
  - rewrite (kayako_run_probed net line n Hn). cbn [fst].
    destruct (Effects.net_get net n) as [code text|e] eqn:Hget.
    + split.
      * unfold UrlChecker.classify_response.
        repeat match goal with
               | |- context [if ?b then _ else _] => destruct b
               end; cbn [UrlChecker.http_code py_str]; intros E;
          by apply pretty_not_timeout in E.
      * intros (n' & e & [= <-] & He & _). congruence.
    + split.
      * intros E. exists n, e. split; [done|split; [done|]].
        apply (kayako_exception_timeout line e).
        destruct (UrlChecker.http_code (UrlChecker.classify_exception line e))
          as [w|c] eqn:Hc; simpl in E; [by rewrite E|].
        by apply pretty_not_timeout in E.
      * intros (n' & e' & [= <-] & He & Ht).
        assert (e' = e) as -> by congruence.
        apply (kayako_exception_timeout line e) in Ht. by rewrite Ht.
  - rewrite (kayako_run_skipped net line Hn). cbn.
    split; [discriminate|]. by intros (n & e & ? & _).
Qed.

(** X23. A retested URL still reads "Timeout" exactly when both the HEAD
    and the GET raised a timeout: every other outcome, a response of any
    code to either request or another exception, gives the row a
    definite code. *)
Theorem retest_still_timeout (net : Effects.network) (u n : string) :
  RetestTimeouts.normalize_url u = Some n ->
  (RetestTimeouts.http_code
     (Effects.result_of net (RetestTimeouts.check_url_with_retry u))
   = PStr "Timeout"
   <-> exists e1 e2,
         Effects.net_head net n = Requests.Raised e1
         /\ Requests.isinstance e1 Requests.Timeout = true
         /\ Effects.net_get net n = Requests.Raised e2
         /\ Requests.isinstance e2 Requests.Timeout = true).
Proof.
  intros Hn. unfold Effects.result_of. rewrite (retest_run_probed net u n Hn).
  assert (Hresp : forall code,
    RetestTimeouts.http_code (RetestTimeouts.response_result u code)
    <> PStr "Timeout").
  { intros code. unfold RetestTimeouts.response_result.
    by destruct ((200 <=? code) && (code <? 400)). }
  destruct (Effects.net_head net n) as [code text|e1] eqn:Hh.
  - split; [by intros ?%Hresp|]. by intros (e1 & e2 & ? & _).
  - destruct (Requests.isinstance e1 Requests.Timeout) eqn:Ht1.
    + destruct (Effects.net_get net n) as [code text|e2] eqn:Hg; cbn [fst].
      * split; [by intros ?%Hresp|]. by intros (? & ? & _ & _ & ? & _).
      * destruct (Requests.isinstance e2 Requests.Timeout) eqn:Ht2.
        -- split; [|done]. intros _. by exists e1, e2.
        -- split.
           ++ by intros ?%(retest_exception_not_timeout u e2 Ht2).
           ++ intros (? & e2' & _ & _ & [= <-] & ?). congruence.
    + cbn [fst]. split.
      * by intros ?%(retest_exception_not_timeout u e1 Ht1).
      * intros (e1' & ? & [= <-] & ? & _). congruence.
Qed.

Lemma retest_still_timeout_witness :
  RetestTimeouts.http_code
    (Effects.result_of
       (Samples.answering (Requests.Raised Samples.read_timed_out))
       (RetestTimeouts.check_url_with_retry "example.com"))
  = PStr "Timeout".
Proof.
  apply (proj2 (retest_still_timeout
           (Samples.answering (Requests.Raised Samples.read_timed_out))
           "example.com" "https://example.com" ltac:(reflexivity))).
  exists Samples.read_timed_out, Samples.read_timed_out.
  repeat split.
Defined.

Lemma kayako_timeout_cell_witness :
  py_str (UrlChecker.http_code
            (Effects.result_of
               (Samples.answering (Requests.Raised Samples.read_timed_out))
               (UrlChecker.check_url "example.com"))) = "Timeout".
Proof.
  apply (proj2 (kayako_timeout_cell
           (Samples.answering (Requests.Raised Samples.read_timed_out))
           "example.com")).
  exists "https://example.com", Samples.read_timed_out. repeat split.
Defined.

(* ===================================================================== *)
(** * Further properties: from the checker's report to the retest *)
(* ===================================================================== *)

Section Pipeline.
Import PyStr Requests Effects.

Lemma kayako_report_columns r :
  RetestTimeouts.has_report_columns
    (list_to_map (zip UrlChecker.HEADER (UrlChecker.to_row r))).
Proof.
  unfold RetestTimeouts.has_report_columns, UrlChecker.HEADER,
    UrlChecker.to_row, RetestTimeouts.fieldnames.
  cbn [zip zip_with list_to_map foldr fst snd list_to_set].
  rewrite !dom_insert_L, dom_empty_L. done.
Qed.

Lemma kayako_report_timed_out r :
  RetestTimeouts.timed_out
    (list_to_map (zip UrlChecker.HEADER (UrlChecker.to_row r)))
  <-> py_str (UrlChecker.http_code r) = "Timeout".
Proof.
  unfold RetestTimeouts.timed_out, UrlChecker.HEADER, UrlChecker.to_row.
  cbn [zip zip_with list_to_map foldr fst snd].
  rewrite (lookup_insert_ne _ "URL" "HTTP Code") by done.
  rewrite (lookup_insert_ne _ "Status" "HTTP Code") by done.
  rewrite lookup_insert_eq. split; congruence.
Qed.

End Pipeline.

(** X24. The retest accepts the report of [url_checker.py] as it is.  Fed
    the rows [url_checker.main] wrote, [retest_timeouts.main] never exits
    on a missing column and never fails in the writer: when some record
    has HTTP Code "Timeout" it writes one row per row of the report, and
    otherwise it returns with nothing to retest. *)
Theorem retest_accepts_kayako_report
    (results : list UrlChecker.result)
    (completed : list RetestTimeouts.result) :
  (Exists (fun r => py_str (UrlChecker.http_code r) = "Timeout") results ->
   exists cells,
     RetestTimeouts.main (UrlChecker.report results) completed
     = RetestTimeouts.Written RetestTimeouts.OUTPUT_CSV UrlChecker.HEADER cells
     /\ length cells = length results)
  /\ (~ Exists (fun r => py_str (UrlChecker.http_code r) = "Timeout") results ->
      RetestTimeouts.main (UrlChecker.report results) completed
      = RetestTimeouts.NothingToRetest).
Proof.
  assert (Hcols : Forall RetestTimeouts.has_report_columns
                    (UrlChecker.report results)).
  { unfold UrlChecker.report. apply Forall_fmap, Forall_true.
    intros r. apply kayako_report_columns. }
  assert (Hex : Exists RetestTimeouts.timed_out (UrlChecker.report results)
                <-> Exists (fun r => py_str (UrlChecker.http_code r)
                                     = "Timeout") results).
  { unfold UrlChecker.report. rewrite Exists_fmap.
    split; intros H; (eapply Exists_impl; [exact H|]); intros r;
      apply kayako_report_timed_out. }
  split.
  - intros H%Hex. eexists. split.
    + by apply main_written.
    + unfold UrlChecker.report. by rewrite !length_fmap.
  - intros H. apply main_nothing.
    + eapply Forall_impl; [exact Hcols|]. apply report_columns_readable.
    + by rewrite Hex.
Qed.

Lemma retest_accepts_kayako_report_witness :
  exists cells,
    RetestTimeouts.main
      (UrlChecker.report
         [UrlChecker.Result "b.example" "Inactive" (PStr "Timeout")
            "Request timeout"])
      [RetestTimeouts.Result "b.example" "Active" (PInt 200) ""]
    = RetestTimeouts.Written RetestTimeouts.OUTPUT_CSV UrlChecker.HEADER cells
    /\ length cells = 1%nat.
Proof.
  apply (proj1 (retest_accepts_kayako_report
           [UrlChecker.Result "b.example" "Inactive" (PStr "Timeout")
              "Request timeout"]
           [RetestTimeouts.Result "b.example" "Active" (PInt 200) ""])).
  apply Exists_cons_hd. reflexivity.
Defined.

(* ===================================================================== *)
(** * Further properties: progress lines and cool-down *)
(* ===================================================================== *)

Section Cooldown.

Lemma hundreds_step (m : Z) :
  0 <= m ->
  (m + 1) / 100 = m / 100 + (if (m + 1) mod 100 =? 0 then 1 else 0).
Proof.
  intros Hm. destruct ((m + 1) mod 100 =? 0) eqn:E.
  - apply Z.eqb_eq in E. Z.div_mod_to_equations. lia.
  - apply Z.eqb_neq in E. Z.div_mod_to_equations. lia.
Qed.

Lemma status_pauses_before total c :
  0 < c < total ->
  CheckUrlsStatus.pauses total c = (c mod 100 =? 0).
Proof.
  intros Hc. unfold CheckUrlsStatus.pauses, CheckUrlsStatus.reports.
  rewrite (proj2 (Z.ltb_lt c total)) by lia. simpl.
  destruct (c mod 100 =? 0) eqn:E; [|by rewrite andb_false_r].
  apply Z.eqb_eq in E. rewrite andb_true_r.
  assert (c mod 50 = 0) as -> by (Z.div_mod_to_equations; lia). done.
Qed.

Lemma kayako_pauses_before total c :
  0 < c < total ->
  UrlChecker.pauses total c = (c mod 100 =? 0).
Proof.
  intros Hc. unfold UrlChecker.pauses, UrlChecker.reports.
  rewrite (proj2 (Z.ltb_lt c total)) by lia. simpl.
  destruct (c mod 100 =? 0); [done|by rewrite andb_false_r].
Qed.

Lemma status_cooldown_before total n :
  Z.of_nat n < total ->
  CheckUrlsStatus.cooldown total n = Z.of_nat n / 100.
Proof.
  induction n as [|n IH]; intros Hn; [done|].
  cbn [CheckUrlsStatus.cooldown]. rewrite IH by lia.
  rewrite status_pauses_before by lia.
  rewrite Nat2Z.inj_succ, <- Z.add_1_r. symmetry.
  apply hundreds_step. lia.
Qed.

Lemma kayako_cooldown_before total n :
  Z.of_nat n < total ->
  UrlChecker.cooldown total n = 2 * (Z.of_nat n / 100).
Proof.
  induction n as [|n IH]; intros Hn; [done|].
  cbn [UrlChecker.cooldown]. rewrite IH by lia.
  rewrite kayako_pauses_before by lia.
  rewrite Nat2Z.inj_succ, <- Z.add_1_r.
  rewrite (hundreds_step (Z.of_nat n)) by lia.
  destruct ((Z.of_nat n + 1) mod 100 =? 0); lia.
Qed.

End Cooldown.

(** X25. Progress and cool-down of the two checkers.  With at least one
    URL, the last result always prints a progress line and is never
    followed by a pause; over the whole run [check_urls_status.py] sleeps
    one second, and [url_checker.py] two, for every full hundred of
    results that is not the last result: [(total - 1) / 100] times. *)
Theorem cooldown_total (total : nat) :
  (0 < total)%nat ->
  CheckUrlsStatus.reports (Z.of_nat total) (Z.of_nat total) = true
  /\ CheckUrlsStatus.pauses (Z.of_nat total) (Z.of_nat total) = false
  /\ CheckUrlsStatus.cooldown (Z.of_nat total) total
     = (Z.of_nat total - 1) / 100
  /\ UrlChecker.reports (Z.of_nat total) (Z.of_nat total) = true
  /\ UrlChecker.pauses (Z.of_nat total) (Z.of_nat total) = false
  /\ UrlChecker.cooldown (Z.of_nat total) total
     = 2 * ((Z.of_nat total - 1) / 100).
Proof.
  intros Hpos. destruct total as [|n]; [lia|].
  assert (Hn : Z.of_nat (S n) - 1 = Z.of_nat n) by lia.
  unfold CheckUrlsStatus.pauses, CheckUrlsStatus.reports,
    UrlChecker.pauses, UrlChecker.reports.
  rewrite Z.eqb_refl, Z.ltb_irrefl, !orb_true_r, Hn.
  split; [done|split; [done|split; [|split; [done|split; [done|]]]]].
  - cbn [CheckUrlsStatus.cooldown].
    unfold CheckUrlsStatus.pauses. rewrite Z.ltb_irrefl, andb_false_r.
    rewrite status_cooldown_before by lia. lia.
  - cbn [UrlChecker.cooldown].
    unfold UrlChecker.pauses. rewrite Z.ltb_irrefl, andb_false_r.
    rewrite kayako_cooldown_before by lia. lia.
Qed.

Lemma cooldown_total_witness :
  CheckUrlsStatus.cooldown 250 250 = 2
  /\ UrlChecker.cooldown 200 200 = 2.
Proof.
  split.
  - apply (proj1 (proj2 (proj2 (cooldown_total 250 ltac:(lia))))).
  - apply (proj2 (proj2 (proj2 (proj2 (proj2
             (cooldown_total 200 ltac:(lia))))))).
Defined.

(** X26. The retest asks for the very URL that timed out.  For a line
    that [url_checker.check_url] probed, the record carries the line as
    its URL, and [check_url_with_retry], given that URL cell, sends its
    HEAD to the same normalised URL the GET had gone to. *)
Theorem retest_probes_same_url
    (net net' : Effects.network) (line n : string) :
  UrlChecker.normalize_url line = Some n ->
  Effects.trace_of net (UrlChecker.check_url line)
  = [Effects.EvRateLimit; Effects.EvGet n UrlChecker.TIMEOUT]
  /\ exists rest,
       Effects.trace_of net'
         (RetestTimeouts.check_url_with_retry
            (UrlChecker.url (Effects.result_of net (UrlChecker.check_url line))))
       = Effects.EvHead n RetestTimeouts.TIMEOUT :: rest.
Proof.
  intros Hn. split.
  - unfold Effects.trace_of. by rewrite (kayako_run_probed net line n Hn).
  - rewrite kayako_url_field.
    assert (Hr : RetestTimeouts.normalize_url line = Some n).
    { unfold UrlChecker.normalize_url in Hn.
      unfold RetestTimeouts.normalize_url.
      destruct (PyStr.is_empty (PyStr.strip line)); [done|].
      by destruct (UrlChecker.is_header (PyStr.strip line)). }
    unfold Effects.trace_of. rewrite (retest_run_probed net' line n Hr).
    destruct (Effects.net_head net' n) as [code text|e]; [by eexists|].
    destruct (Requests.isinstance e Requests.Timeout); by eexists.
Qed.

Lemma retest_probes_same_url_witness :
  exists rest,
    Effects.trace_of (Samples.answering Samples.ok)
      (RetestTimeouts.check_url_with_retry
         (UrlChecker.url
            (Effects.result_of
               (Samples.answering (Requests.Raised Samples.read_timed_out))
               (UrlChecker.check_url "example.com"))))
    = Effects.EvHead "https://example.com" RetestTimeouts.TIMEOUT :: rest.
Proof.
  apply (proj2 (retest_probes_same_url
           (Samples.answering (Requests.Raised Samples.read_timed_out))
           (Samples.answering Samples.ok) "example.com" "https://example.com"
           ltac:(reflexivity))).
Defined.

Section NumericCode.
Import PyStr Requests Effects.

Lemma status_exception_code_word o e :
  exists w, CheckUrlsStatus.http_code (CheckUrlsStatus.classify_exception o e)
            = PStr w.
Proof.
  unfold CheckUrlsStatus.classify_exception.
  repeat match goal with
         | |- context [if ?b then _ else _] => destruct b
         end; by eexists.
Qed.

Lemma status_response_code o code text :
  CheckUrlsStatus.http_code (CheckUrlsStatus.classify_response o code text)
  = PInt code.
Proof.
  unfold CheckUrlsStatus.classify_response.
  repeat match goal with
         | |- context [if ?b then _ else _] => destruct b
         end; done.
Qed.

End NumericCode.

(** X27. The HTTP code of a record of [check_urls_status.check_url] is
    the number [c] exactly when the line was not skipped, the DNS check
    did not fail with [gaierror], and the GET returned a response with
    status code [c], whatever the body says; in every other case the
    field holds a word. *)
Theorem status_numeric_code (net : Effects.network) (line : string) (c : Z) :
  CheckUrlsStatus.http_code
    (Effects.result_of net (CheckUrlsStatus.check_url line)) = PInt c
  <-> CheckUrlsStatus.skips line = false
      /\ (forall m, Effects.net_dns net (CheckUrlsStatus.target line)
                    <> Effects.GaiError m)
      /\ exists text, Effects.net_get net (CheckUrlsStatus.target line)
                      = Requests.Response c text.
Proof.
  unfold Effects.result_of. split.
  - destruct (CheckUrlsStatus.skips line) eqn:Hs.
    { by rewrite (status_run_skipped net line Hs). }
    rewrite (status_run_probed net line Hs). cbv zeta.
    destruct (Effects.net_dns net (CheckUrlsStatus.target line)) as [|m|m];
      cbn [fst]; [|done|];
      (destruct (Effects.net_get net (CheckUrlsStatus.target line))
         as [code text|e];
       [rewrite status_response_code; intros [= ->];
        split; [done|split; [done|by exists text]]
       |destruct (status_exception_code_word
                    (CheckUrlsStatus.original line) e) as [w ->]; done]).
  - intros (Hs & Hdns & text & Hget).
    rewrite (status_run_requested net line Hs Hdns), Hget. cbn [fst].
    apply status_response_code.
Qed.

Lemma status_numeric_code_witness :
  CheckUrlsStatus.http_code
    (Effects.result_of (Samples.answering (Requests.Response 404 "gone"))
       (CheckUrlsStatus.check_url "example.com")) = PInt 404.
Proof.
  apply (proj2 (status_numeric_code
           (Samples.answering (Requests.Response 404 "gone"))
           "example.com" 404)).
  split; [reflexivity|split; [intros m; discriminate|]].
  by exists "gone".
Defined.
